(** * Retrieval-augmented classification and chat services

    A shallow embedding of the two LangGraph services of the repository
    (the news classifier of [task_1] and the chatbot of [task_2]) and the
    properties of their retrieve-then-generate pipelines.

    Conventions of the embedding:
    - a Python [str] is a [string]; one character of the model is one
      code point, and the case conversions are those of the ASCII range;
    - a Python [float] is the rational it denotes ([Q]); a decimal
      literal is read at its decimal value;
    - a [dict] used as a record of named fields (the graph state, a
      stored chat message) is a [gmap] with string keys; a dict literal
      returned by a node is the list of its items, in source order;
    - code that may raise runs in an exception-and-state monad [M]; the
      state (the [World]) holds the wall clock, the database session and
      a ghost log of the calls made to the external collaborators;
    - the external collaborators (embedding provider, similarity index,
      language-model provider, clock) are the fields of a [Providers]
      class: the code is verified for every implementation of them;
    - [print] calls write to standard output only and are left out. *)

From Stdlib Require Import ZArith QArith Qabs Ascii String Sorting.Sorted.
From stdpp Require Import base strings list gmap pretty.

Close Scope Q_scope.

(** ** Python values *)

Module Py.

(** An exception object: its class name and [str(e)].  [HTTPException]
    is FastAPI's, with its status code. *)
Inductive exn : Type :=
| PyExc (cls : string) (msg : string)
| HTTPException (status_code : Z) (detail : string).

Definition str_exn (e : exn) : string :=
  match e with
  | PyExc _ msg => msg
  | HTTPException _ detail => detail
  end.

Definition KeyError (key : string) : exn := PyExc "KeyError" ("'" +:+ key +:+ "'").
Definition TypeError (what : string) : exn := PyExc "TypeError" what.

(** The newline character of the f-strings. *)
Definition nl : string := String (ascii_of_nat 10) EmptyString.

(** [s[:n]] *)
Fixpoint slice_to (n : nat) (s : string) : string :=
  match n, s with
  | S n', String c r => String c (slice_to n' r)
  | _, _ => EmptyString
  end.

(** [l[-n:]] for [n > 0]: the last [n] items, all of them when there are fewer. *)
Definition last_n {A : Type} (n : nat) (l : list A) : list A :=
  drop (length l - n) l.

(** [sep.join(parts)] *)
Fixpoint join (sep : string) (parts : list string) : string :=
  match parts with
  | [] => ""
  | [p] => p
  | p :: rest => p +:+ sep +:+ join sep rest
  end.

Definition is_ascii_lower (c : ascii) : bool :=
  let n := nat_of_ascii c in (97 <=? n)%nat && (n <=? 122)%nat.
Definition is_ascii_upper (c : ascii) : bool :=
  let n := nat_of_ascii c in (65 <=? n)%nat && (n <=? 90)%nat.
Definition upper_char (c : ascii) : ascii :=
  if is_ascii_lower c then ascii_of_nat (nat_of_ascii c - 32) else c.
Definition lower_char (c : ascii) : ascii :=
  if is_ascii_upper c then ascii_of_nat (nat_of_ascii c + 32) else c.

Fixpoint lower (s : string) : string :=
  match s with
  | EmptyString => EmptyString
  | String c r => String (lower_char c) (lower r)
  end.

(** [s.capitalize()]: first character upper-cased, the rest lower-cased. *)
Definition capitalize (s : string) : string :=
  match s with
  | EmptyString => EmptyString
  | String c r => String (upper_char c) (lower r)
  end.

(** Rounding of a non-negative rational to the nearest integer, ties to
    the even one: the rounding of the [.2f] format. *)
Definition round_half_even (q : Q) : Z :=
  let n := Qnum q in
  let d := Z.pos (Qden q) in
  let fl := (n / d)%Z in
  let r2 := (2 * (n mod d))%Z in
  if (r2 <? d)%Z then fl
  else if (d <? r2)%Z then (fl + 1)%Z
  else if Z.even fl then fl else (fl + 1)%Z.

Definition two_digits (z : Z) : string :=
  if (z <? 10)%Z then "0" +:+ pretty z else pretty z.

(** [f"{q:.2f}"] *)
Definition format_2f (q : Q) : string :=
  let c := round_half_even (Qabs q * 100)%Q in
  (if (Qnum q <? 0)%Z then "-" else "")
    +:+ pretty (c / 100)%Z +:+ "." +:+ two_digits (c mod 100)%Z.

(** [int(x)] on a float: truncation toward zero. *)
Definition int_of_float (q : Q) : Z := Z.quot (Qnum q) (Z.pos (Qden q)).

End Py.

Import Py.

(** ** LangChain messages *)

Inductive Message : Type :=
| SystemMessage (content : string)
| HumanMessage (content : string)
| AIMessage (content : string).

(** ** The exception-and-state monad *)

Inductive Result (A : Type) : Type :=
| Ok (a : A)
| Raise (e : exn).
Arguments Ok {A} a.
Arguments Raise {A} e.

(** What the ghost log records: one entry per node started by the graph
    runner and per call to an external collaborator. *)
Inductive Event : Type :=
| EvNode (name : string)
| EvEmbed (text : string)
| EvSearch (limit : nat) (score_threshold : Q)
| EvLLM (messages : list Message)
| EvDbAdd
| EvDbCommit
| EvDbRollback.

(** The part of the process a request can change.  [Row] is the type of
    the rows of the history table. *)
Record World (Row : Type) : Type := mkWorld {
  ticks : nat;               (* readings of the wall clock taken so far *)
  trace : list Event;        (* ghost log, oldest first *)
  db_pending : list Row;     (* rows added to the session, not committed *)
  db_rows : list Row;        (* committed rows, oldest first *)
}.
Arguments mkWorld {Row}.
Arguments ticks {Row}.
Arguments trace {Row}.
Arguments db_pending {Row}.
Arguments db_rows {Row}.

Definition M (Row A : Type) : Type := World Row -> Result A * World Row.

Definition ret {Row A} (a : A) : M Row A := fun w => (Ok a, w).

Definition raise {Row A} (e : exn) : M Row A := fun w => (Raise e, w).

Definition bind {Row A B} (c : M Row A) (k : A -> M Row B) : M Row B :=
  fun w =>
    match c w with
    | (Ok a, w') => k a w'
    | (Raise e, w') => (Raise e, w')
    end.

(** [try: c  except Exception as e: h e].  The exceptions of the model
    are the subclasses of [Exception]: the handler sees all of them. *)
Definition try_except {Row A} (c : M Row A) (h : exn -> M Row A) : M Row A :=
  fun w =>
    match c w with
    | (Ok a, w') => (Ok a, w')
    | (Raise e, w') => h e w'
    end.

Definition log {Row} (ev : Event) : M Row unit :=
  fun w => (Ok tt, mkWorld (ticks w) (trace w ++ [ev]) (db_pending w) (db_rows w)).

(** A call to a collaborator whose outcome is [r]. *)
Definition call {Row A} (ev : Event) (r : exn + A) : M Row A :=
  bind (log ev) (fun _ => match r with inl e => raise e | inr a => ret a end).

Declare Scope monad_scope.
Delimit Scope monad_scope with monad.
Notation "x <- c ;; k" := (bind c (fun x => k))
  (at level 100, c at next level, right associativity) : monad_scope.
Notation "c ;;; k" := (bind c (fun _ => k))
  (at level 100, right associativity) : monad_scope.
Open Scope monad_scope.

(** ** The graph state *)

(** A retrieved example: the dict built by [search_similar]. *)
Record Example : Type := mkExample {
  ex_text : string;
  ex_full_text : string;
  ex_label : Z;
  ex_category : string;
  ex_score : Q;
}.

(** The values held by the fields of [ClassifierState] and [ChatbotState].
    A stored chat message is a dict with string values. *)
Inductive value : Type :=
| VNone
| VStr (s : string)
| VInt (z : Z)
| VFloat (q : Q)
| VExamples (l : list Example)
| VMessages (l : list Message)
| VHistory (l : list (gmap string string)).

(** The state of a run is a [gmap string value]; the dict a node returns
    is the list of its items. *)
Definition Update : Type := list (string * value).

(** [state[key]] *)
Definition getitem {Row} (state : gmap string value) (key : string) : M Row value :=
  match state !! key with
  | Some v => ret v
  | None => raise (KeyError key)
  end.

(** Reading a field at the type its [TypedDict] declares.  The services
    build well-typed states only; on any other value the embedding raises
    a [TypeError]. *)
Definition as_str {Row} (v : value) : M Row string :=
  match v with VStr s => ret s | _ => raise (TypeError "expected str") end.

Definition as_examples {Row} (v : value) : M Row (list Example) :=
  match v with VExamples l => ret l | _ => raise (TypeError "expected list of examples") end.

Definition as_history {Row} (v : value) : M Row (list (gmap string string)) :=
  match v with VHistory l => ret l | _ => raise (TypeError "expected list of messages") end.

(** ** The LangGraph runner

    [StateGraph] as the two services use it: named nodes, one entry
    point, one outgoing edge per node.  A node receives the state and
    returns an update; the runner writes each item of the update to its
    channel, appending on the channels annotated with [add_messages] and
    overwriting on the others, then follows the edge.  An exception
    raised by a node ends the run and reaches the caller of [invoke]. *)

Module LangGraph.

Definition END : string := "__end__".

Record StateGraph (Row : Type) : Type := mkStateGraph {
  appending : list string;
  nodes : list (string * (gmap string value -> M Row Update));
  entry_point : option string;
  edges : list (string * string);
}.
Arguments mkStateGraph {Row}.
Arguments appending {Row}.
Arguments nodes {Row}.
Arguments entry_point {Row}.
Arguments edges {Row}.

Definition new_graph {Row} (appending : list string) : StateGraph Row :=
  mkStateGraph appending [] None [].

Definition add_node {Row} (name : string) (action : gmap string value -> M Row Update)
    (g : StateGraph Row) : StateGraph Row :=
  mkStateGraph (appending g) (nodes g ++ [(name, action)]) (entry_point g) (edges g).

Definition set_entry_point {Row} (name : string) (g : StateGraph Row) : StateGraph Row :=
  mkStateGraph (appending g) (nodes g) (Some name) (edges g).

Definition add_edge {Row} (src dst : string) (g : StateGraph Row) : StateGraph Row :=
  mkStateGraph (appending g) (nodes g) (entry_point g) (edges g ++ [(src, dst)]).

Fixpoint assoc {A} (key : string) (l : list (string * A)) : option A :=
  match l with
  | [] => None
  | (k, a) :: rest => if String.eqb key k then Some a else assoc key rest
  end.

(** One item of an update written to its channel. *)
Definition write_channel (appending : list string) (state : gmap string value)
    (item : string * value) : gmap string value :=
  let (key, v) := item in
  if bool_decide (key ∈ appending) then
    match state !! key, v with
    | Some (VMessages old), VMessages new => <[key := VMessages (old ++ new)]> state
    | _, _ => <[key := v]> state
    end
  else <[key := v]> state.

Definition apply_update (appending : list string) (state : gmap string value)
    (upd : Update) : gmap string value :=
  foldl (write_channel appending) state upd.

(** The default [recursion_limit] of a compiled graph. *)
Definition recursion_limit : nat := 25.

Fixpoint run {Row} (fuel : nat) (g : StateGraph Row) (current : string)
    (state : gmap string value) : M Row (gmap string value) :=
  if String.eqb current END then ret state
  else
    match fuel with
    | O => raise (PyExc "GraphRecursionError" "Recursion limit reached")
    | S fuel' =>
        match assoc current (nodes g) with
        | None => raise (PyExc "ValueError" ("unknown node " +:+ current))
        | Some action =>
            log (EvNode current) ;;;
            upd <- action state ;;
            let state' := apply_update (appending g) state upd in
            match assoc current (edges g) with
            | Some next => run fuel' g next state'
            | None => ret state'
            end
        end
    end.

(** [compiled_graph.invoke(initial_state)] *)
Definition invoke {Row} (g : StateGraph Row) (initial_state : gmap string value)
    : M Row (gmap string value) :=
  match entry_point g with
  | None => raise (PyExc "ValueError" "graph has no entry point")
  | Some start => run recursion_limit g start initial_state
  end.

End LangGraph.

(** ** The news classifier (task_1) *)

Module Task1.

(** *** [app/config.py] *)

Definition settings_categories : gmap Z string :=
  list_to_map
    [(0%Z, "Politics"); (1%Z, "Sport"); (2%Z, "Technology");
     (3%Z, "Entertainment"); (4%Z, "Business")].

(** *** [app/models.py], [app/schemas.py] *)

(** A row of [classification_history].  The columns read from the final
    state keep its values; [created_at] is filled by the database. *)
Record ClassificationHistory : Type := mkHistory {
  h_id : option Z;
  h_text : string;
  h_predicted_label : value;
  h_predicted_category : value;
  h_confidence : value;
  h_reasoning : value;
  h_retrieved_examples : value;
  h_num_retrieved_examples : nat;
  h_model_used : string;
  h_graph_version : string;
  h_retrieval_time_ms : Z;
  h_classification_time_ms : Z;
  h_total_time_ms : Z;
}.

Record ClassifyRequest : Type := mkRequest { message : string }.

(** The [Field] constraints of [ClassifyRequest.message]:
    [min_length=1], [max_length=10000]. *)
Definition message_valid (text : string) : bool :=
  let n := Z.of_nat (String.length text) in
  (1 <=? n)%Z && (n <=? 10000)%Z.

(** Parsing of the request body: [None] is a validation error. *)
Definition parse_ClassifyRequest (text : string) : option ClassifyRequest :=
  if message_valid text then Some (mkRequest text) else None.

Record RetrievedExample : Type := mkRetrievedExample {
  re_text : string;
  re_label : Z;
  re_category : string;
  re_score : Q;
}.

(** The example dict unpacked into a [RetrievedExample]: the extra key
    [full_text] is ignored. *)
Definition RetrievedExample_of (ex : Example) : RetrievedExample :=
  mkRetrievedExample (ex_text ex) (ex_label ex) (ex_category ex) (ex_score ex).

Record ClassifyResponse : Type := mkResponse {
  r_predicted_label : value;
  r_predicted_category : value;
  r_confidence : value;
  r_reasoning : value;
  r_text : string;
  r_retrieved_examples : option (list RetrievedExample);
  r_retrieval_time_ms : Z;
  r_classification_time_ms : Z;
}.

(** *** The external collaborators *)

(** A point stored by [index_training_data]: its payload has the four
    keys written there. *)
Record Payload : Type := mkPayload {
  p_text : string;
  p_full_text : string;
  p_label : Z;
  p_category : string;
}.

(** A hit returned by the index: the point's id, its similarity to the
    query and its payload. *)
Record ScoredPoint : Type := mkScoredPoint {
  sp_id : Z;
  sp_score : Q;
  sp_payload : Payload;
}.

(** [ClassificationResult]: the structured output requested from the
    model. *)
Record ClassificationResult : Type := mkClassification {
  label : Z;
  category : string;
  confidence : Q;
  reasoning : string;
}.

(** The [Field] bounds of [ClassificationResult]: [label] in [0, 4],
    [confidence] in [0.0, 1.0]. *)
Definition schema_valid (r : ClassificationResult) : bool :=
  (0 <=? label r)%Z && (label r <=? 4)%Z
  && Qle_bool 0 (confidence r) && Qle_bool (confidence r) 1.

Class Providers : Type := {
  (* the n-th reading of [time.time()] *)
  clock : nat -> Q;
  (* [OpenAIEmbeddings.embed_query] *)
  embed_oracle : string -> exn + list Q;
  (* [QdrantClient.search(query_vector, limit, score_threshold)] *)
  search_oracle : list Q -> nat -> Q -> exn + list ScoredPoint;
  (* what the chat model answers to a prompt, before schema validation *)
  llm_oracle : list Message -> exn + ClassificationResult;
}.

Abbreviation W := (World ClassificationHistory).
Abbreviation Mc := (M ClassificationHistory).

Section Code.
Context `{Providers}.

(** [time.time()] *)
Definition time_time : Mc Q :=
  fun w => (Ok (clock (ticks w)),
            mkWorld (S (ticks w)) (trace w) (db_pending w) (db_rows w)).

(** *** [app/vectorstore.py] *)

Definition embed_query (text : string) : Mc (list Q) :=
  call (EvEmbed text) (embed_oracle text).

Definition client_search (query_vector : list Q) (limit : nat) (score_threshold : Q)
    : Mc (list ScoredPoint) :=
  call (EvSearch limit score_threshold) (search_oracle query_vector limit score_threshold).

(** The dict appended for one hit. *)
Definition example_of (result : ScoredPoint) : Example :=
  mkExample (p_text (sp_payload result)) (p_full_text (sp_payload result))
            (p_label (sp_payload result)) (p_category (sp_payload result))
            (sp_score result).

Definition search_similar (query_text : string) (limit : nat) (score_threshold : Q)
    : Mc (list Example) :=
  query_embedding <- embed_query query_text ;;
  search_results <- client_search query_embedding limit score_threshold ;;
  ret (map example_of search_results).

(** *** [app/nodes.py] *)

Definition retrieve_node (state : gmap string value) : Mc Update :=
  start_time <- time_time ;;
  text <- (v <- getitem state "text" ;; as_str v) ;;
  similar_examples <- search_similar text 5 (6 # 10) ;;
  end_time <- time_time ;;
  let retrieval_time := (end_time - start_time)%Q in
  let retrieval_msg :=
    SystemMessage ("Retrieved " +:+ pretty (length similar_examples)
                   +:+ " similar examples from training data") in
  ret [("retrieved_examples", VExamples similar_examples);
       ("retrieval_time", VFloat retrieval_time);
       ("messages", VMessages [retrieval_msg])].

Fixpoint format_examples_from (i : nat) (examples : list Example) : list string :=
  match examples with
  | [] => []
  | ex :: rest =>
      ("Example " +:+ pretty i +:+ " (Label: " +:+ pretty (ex_label ex) +:+ " - "
       +:+ ex_category ex +:+ ", Similarity: " +:+ format_2f (ex_score ex) +:+ "):" +:+ nl
       +:+ slice_to 300 (ex_text ex) +:+ "...")
      :: format_examples_from (S i) rest
  end.

Definition _format_examples (examples : list Example) : string :=
  match examples with
  | [] => "No similar examples found."
  | _ => join (nl +:+ nl) (format_examples_from 1 examples)
  end.

Definition system_prompt_head : string :=
  "You are a news article classifier. You must classify articles into one of these categories:"
  +:+ nl +:+ nl
  +:+ "0 - Politics: Government, elections, policies, international relations, politicians" +:+ nl
  +:+ "1 - Sport: Sports events, athletes, competitions, games" +:+ nl
  +:+ "2 - Technology: Tech companies, software, hardware, innovations, digital trends" +:+ nl
  +:+ "3 - Entertainment: Movies, music, celebrities, TV shows, arts, culture" +:+ nl
  +:+ "4 - Business: Economy, finance, markets, companies, business deals" +:+ nl +:+ nl
  +:+ "Here are similar examples from our training data to help you classify:" +:+ nl +:+ nl.

Definition system_prompt_tail : string :=
  nl +:+ nl
  +:+ "Based on these examples, classify the new article below." +:+ nl
  +:+ "Be consistent with the pattern you see in the examples.".

Definition system_prompt (examples_text : string) : string :=
  system_prompt_head +:+ examples_text +:+ system_prompt_tail.

Definition user_message (text : string) : string :=
  "Classify this article:" +:+ nl +:+ nl +:+ slice_to 2000 text.

(** [model.invoke(messages)] on the model built by
    [with_structured_output(ClassificationResult)]: one call to the
    provider; an answer outside the schema is a validation error. *)
Definition model_invoke (messages : list Message) : Mc ClassificationResult :=
  result <- call (EvLLM messages) (llm_oracle messages) ;;
  if schema_valid result then ret result
  else raise (PyExc "ValidationError" "validation error for ClassificationResult").

(** Building the client ([ChatOpenAI(...).with_structured_output(...)])
    makes no call to the provider and is left out. *)
Definition classify_node (state : gmap string value) : Mc Update :=
  start_time <- time_time ;;
  examples <- (v <- getitem state "retrieved_examples" ;; as_examples v) ;;
  let examples_text := _format_examples examples in
  text <- (v <- getitem state "text" ;; as_str v) ;;
  let messages :=
    [SystemMessage (system_prompt examples_text); HumanMessage (user_message text)] in
  result <-
    try_except (r <- model_invoke messages ;; ret (label r, category r, confidence r, reasoning r))
      (fun e =>
         match settings_categories !! 0%Z with
         | Some first => ret (0%Z, first, 0%Q, "Error during classification: " +:+ str_exn e)
         | None => raise (KeyError "0")
         end) ;;
  let '(predicted_label, predicted_category, confidence, reasoning) := result in
  end_time <- time_time ;;
  let classification_time := (end_time - start_time)%Q in
  ret [("predicted_label", VInt predicted_label);
       ("predicted_category", VStr predicted_category);
       ("confidence", VFloat confidence);
       ("reasoning", VStr reasoning);
       ("classification_time", VFloat classification_time);
       ("messages",
        VMessages [HumanMessage ("Classified as " +:+ predicted_category +:+ " with "
                                 +:+ format_2f confidence +:+ " confidence")])].

(** *** [app/graph.py] *)

Definition create_classifier_graph : LangGraph.StateGraph ClassificationHistory :=
  let graph_builder := LangGraph.new_graph ["messages"] in
  let graph_builder := LangGraph.add_node "retrieve" retrieve_node graph_builder in
  let graph_builder := LangGraph.add_node "classify" classify_node graph_builder in
  let graph_builder := LangGraph.set_entry_point "retrieve" graph_builder in
  let graph_builder := LangGraph.add_edge "retrieve" "classify" graph_builder in
  let graph_builder := LangGraph.add_edge "classify" LangGraph.END graph_builder in
  graph_builder.

Definition classifier_graph : LangGraph.StateGraph ClassificationHistory :=
  create_classifier_graph.

(** *** What the two nodes return

    The closed forms of the updates, used to state the properties. *)

(** The values written when the call to the model raised [e]. *)
Definition fallback (e : exn) : Z * string * Q * string :=
  (0%Z, "Politics", 0%Q, "Error during classification: " +:+ str_exn e).

(** The four output values, from the provider's answer to [messages]. *)
Definition outcome (messages : list Message) : Z * string * Q * string :=
  match llm_oracle messages with
  | inl e => fallback e
  | inr r =>
      if schema_valid r then (label r, category r, confidence r, reasoning r)
      else fallback (PyExc "ValidationError" "validation error for ClassificationResult")
  end.

Definition classify_messages (text : string) (examples : list Example) : list Message :=
  [SystemMessage (system_prompt (_format_examples examples));
   HumanMessage (user_message text)].

Definition classify_update (o : Z * string * Q * string) (classification_time : Q) : Update :=
  let '(predicted_label, predicted_category, confidence, reasoning) := o in
  [("predicted_label", VInt predicted_label);
   ("predicted_category", VStr predicted_category);
   ("confidence", VFloat confidence);
   ("reasoning", VStr reasoning);
   ("classification_time", VFloat classification_time);
   ("messages",
    VMessages [HumanMessage ("Classified as " +:+ predicted_category +:+ " with "
                             +:+ format_2f confidence +:+ " confidence")])].

Definition retrieve_update (examples : list Example) (retrieval_time : Q) : Update :=
  [("retrieved_examples", VExamples examples);
   ("retrieval_time", VFloat retrieval_time);
   ("messages",
    VMessages [SystemMessage ("Retrieved " +:+ pretty (length examples)
                              +:+ " similar examples from training data")])].

(** The retrieval of [text] fails with [e]: the embedding provider raises,
    or the index does on the embedded query. *)
Definition retrieval_fails (text : string) (e : exn) : Prop :=
  embed_oracle text = inl e \/
  exists query, embed_oracle text = inr query /\ search_oracle query 5 (6 # 10) = inl e.

(** *** The database session of [app/main.py] *)

Definition db_add (row : ClassificationHistory) : Mc unit :=
  fun w => (Ok tt, mkWorld (ticks w) (trace w ++ [EvDbAdd]) (db_pending w ++ [row]) (db_rows w)).

Definition with_id (id : Z) (row : ClassificationHistory) : ClassificationHistory :=
  mkHistory (Some id) (h_text row) (h_predicted_label row) (h_predicted_category row)
            (h_confidence row) (h_reasoning row) (h_retrieved_examples row)
            (h_num_retrieved_examples row) (h_model_used row) (h_graph_version row)
            (h_retrieval_time_ms row) (h_classification_time_ms row) (h_total_time_ms row).

(** The autoincrement primary key: rows flushed after [n] stored rows get
    the ids [n + 1], [n + 2], ... *)
Fixpoint flush (n : Z) (rows : list ClassificationHistory) : list ClassificationHistory :=
  match rows with
  | [] => []
  | row :: rest => with_id (n + 1) row :: flush (n + 1) rest
  end.

Definition db_commit : Mc unit :=
  fun w => (Ok tt,
            mkWorld (ticks w) (trace w ++ [EvDbCommit]) []
                    (db_rows w ++ flush (Z.of_nat (length (db_rows w))) (db_pending w))).

Definition db_rollback : Mc unit :=
  fun w => (Ok tt, mkWorld (ticks w) (trace w ++ [EvDbRollback]) [] (db_rows w)).

(** *** [app/main.py] *)

(** [state.get(key, default)] *)
Definition get_or (state : gmap string value) (key : string) (dflt : value) : value :=
  default dflt (state !! key).

(** [int(x * 1000)] *)
Definition to_ms (v : value) : Mc Z :=
  match v with
  | VFloat q => ret (int_of_float (q * 1000)%Q)
  | VInt z => ret (z * 1000)%Z
  | _ => raise (TypeError "unsupported operand type(s) for *")
  end.

(** The required fields of [ClassifyResponse]: an [int] and a [str]. *)
Definition response_valid (predicted_label predicted_category : value) : bool :=
  match predicted_label, predicted_category with
  | VInt _, VStr _ => true
  | _, _ => false
  end.

(** The handler of [POST /classify].  The graph runs on a worker thread
    and is awaited, which for one request is a call; [db.refresh] only
    reloads the stored row. *)
Definition classify_text (request : ClassifyRequest) (include_examples : bool)
    : Mc ClassifyResponse :=
  try_except
    (start_time <- time_time ;;
     let initial_state : gmap string value :=
       list_to_map
         [("text", VStr (message request));
          ("messages", VMessages []);
          ("retrieved_examples", VExamples []);
          ("predicted_label", VNone);
          ("predicted_category", VNone);
          ("confidence", VNone);
          ("reasoning", VNone);
          ("retrieval_time", VFloat 0);
          ("classification_time", VFloat 0)] in
     final_state <- LangGraph.invoke classifier_graph initial_state ;;
     end_time <- time_time ;;
     let total_time := (end_time - start_time)%Q in
     retrieval_time_ms <- to_ms (get_or final_state "retrieval_time" (VInt 0)) ;;
     classification_time_ms <- to_ms (get_or final_state "classification_time" (VInt 0)) ;;
     let total_time_ms := int_of_float (total_time * 1000)%Q in
     predicted_label <- getitem final_state "predicted_label" ;;
     predicted_category <- getitem final_state "predicted_category" ;;
     examples <- as_examples (get_or final_state "retrieved_examples" (VExamples [])) ;;
     let history_record :=
       mkHistory None (message request) predicted_label predicted_category
                 (get_or final_state "confidence" VNone)
                 (get_or final_state "reasoning" VNone)
                 (get_or final_state "retrieved_examples" VNone)
                 (length examples) "gpt-4.1" "v1.0"
                 retrieval_time_ms classification_time_ms total_time_ms in
     db_add history_record ;;;
     db_commit ;;;
     retrieved <-
       (if include_examples
        then (exs <- as_examples (get_or final_state "retrieved_examples" (VExamples [])) ;;
              ret (Some (map RetrievedExample_of exs)))
        else ret None) ;;
     if response_valid predicted_label predicted_category
     then ret (mkResponse predicted_label predicted_category
                          (get_or final_state "confidence" VNone)
                          (get_or final_state "reasoning" VNone)
                          (message request) retrieved
                          retrieval_time_ms classification_time_ms)
     else raise (PyExc "ValidationError" "validation error for ClassifyResponse"))
    (fun e =>
       db_rollback ;;;
       raise (HTTPException 500 ("Classification failed: " +:+ str_exn e))).

(** What the client of [POST /classify] receives. *)
Inductive HttpResponse : Type :=
| Http200 (body : ClassifyResponse)
| HttpError (status_code : Z) (detail : string).

(** The route as FastAPI serves it: the body is parsed into a
    [ClassifyRequest] first, and the handler runs on a valid request only;
    an invalid one is answered 422. *)
Definition post_classify (body_message : string) (include_examples : bool) (w : W)
    : HttpResponse * W :=
  match parse_ClassifyRequest body_message with
  | None => (HttpError 422 "Unprocessable Entity", w)
  | Some request =>
      match classify_text request include_examples w with
      | (Ok response, w') => (Http200 response, w')
      | (Raise (HTTPException status detail), w') => (HttpError status detail, w')
      | (Raise (PyExc _ _), w') => (HttpError 500 "Internal Server Error", w')
      end
  end.

End Code.

End Task1.

(** ** The chatbot (task_2) *)

Module Task2.

(** *** [app/config.py] *)

Definition settings_openai_model : string := "gpt-4o-mini".

(** *** The external collaborator *)

(** The structured answer [ChatResponse] has one field, [response]; the
    provider either raises (also on an answer outside the schema) or
    yields it. *)
Class Providers : Type := {
  llm_oracle : list Message -> exn + string;
}.

(** The nodes touch no table: the world of a run has no rows. *)
Abbreviation Mb := (M Empty_set).

Section Code.
Context `{Providers}.

(** *** [app/nodes.py] *)

(** [f"{sender.capitalize()}: {text}"] with
    [sender = msg.get("sender", "unknown")], [text = msg.get("text", "")]. *)
Definition format_line (msg : gmap string string) : string :=
  let sender := default "unknown" (msg !! "sender") in
  let text := default "" (msg !! "text") in
  capitalize sender +:+ ": " +:+ text.

Definition new_conversation_marker : string :=
  "This is the start of a new conversation.".

Definition format_history (conversation_history : list (gmap string string)) : string :=
  match conversation_history with
  | [] => new_conversation_marker
  | _ => join nl (map format_line (last_n 10 conversation_history))
  end.

Definition retrieve_context_node (state : gmap string value) : Mb Update :=
  _ <- getitem state "conversation_id" ;;
  conversation_history <-
    as_history (default (VHistory []) (state !! "conversation_history")) ;;
  let formatted_history := format_history conversation_history in
  let context_message :=
    SystemMessage ("Retrieved conversation context ("
                   +:+ pretty (length conversation_history) +:+ " messages)") in
  ret [("formatted_history", VStr formatted_history);
       ("messages", VMessages [context_message])].

Definition system_prompt (formatted_history : string) : string :=
  "You are a helpful, friendly AI assistant engaged in a conversation." +:+ nl +:+ nl
  +:+ "Previous conversation:" +:+ nl
  +:+ formatted_history +:+ nl +:+ nl
  +:+ "Instructions:" +:+ nl
  +:+ "- Be conversational and natural" +:+ nl
  +:+ "- Consider the conversation history when responding" +:+ nl
  +:+ "- Be helpful and informative" +:+ nl
  +:+ "- Keep responses concise but complete" +:+ nl
  +:+ "- Maintain context from previous messages".

Definition apology : string :=
  "I apologize, but I encountered an error generating a response. Please try again.".

Definition model_invoke (messages : list Message) : Mb string :=
  call (EvLLM messages) (llm_oracle messages).

(** As in the classifier, building the client makes no call. *)
Definition generate_response_node (state : gmap string value) : Mb Update :=
  formatted_history <- (v <- getitem state "formatted_history" ;; as_str v) ;;
  user_message <- (v <- getitem state "user_message" ;; as_str v) ;;
  let messages :=
    [SystemMessage (system_prompt formatted_history);
     HumanMessage ("User: " +:+ user_message)] in
  assistant_response <-
    try_except (model_invoke messages) (fun e => ret apology) ;;
  let response_message := AIMessage assistant_response in
  ret [("assistant_response", VStr assistant_response);
       ("model_used", VStr settings_openai_model);
       ("messages", VMessages [response_message])].

(** *** What the generation node returns *)

Definition chat_messages (formatted_history user_message : string) : list Message :=
  [SystemMessage (system_prompt formatted_history);
   HumanMessage ("User: " +:+ user_message)].

(** The response text, from the provider's answer to [messages]. *)
Definition chat_outcome (messages : list Message) : string :=
  match llm_oracle messages with
  | inl _ => apology
  | inr response => response
  end.

Definition respond_update (assistant_response : string) : Update :=
  [("assistant_response", VStr assistant_response);
   ("model_used", VStr settings_openai_model);
   ("messages", VMessages [AIMessage assistant_response])].

(** *** [app/graph.py] *)

Definition chatbot_graph : LangGraph.StateGraph Empty_set :=
  let graph_builder := LangGraph.new_graph ["messages"] in
  let graph_builder := LangGraph.add_node "retrieve_context" retrieve_context_node graph_builder in
  let graph_builder := LangGraph.add_node "generate_response" generate_response_node graph_builder in
  let graph_builder := LangGraph.set_entry_point "retrieve_context" graph_builder in
  let graph_builder := LangGraph.add_edge "retrieve_context" "generate_response" graph_builder in
  let graph_builder := LangGraph.add_edge "generate_response" LangGraph.END graph_builder in
  graph_builder.

End Code.

End Task2.

(** ** The two-stage machine of the specification

    [Start -> Retrieved -> Generated]: the first stage runs on the initial
    state, its update is merged, the second stage runs on the merged state
    and its update is merged in turn.  The graphs of the two services are
    compared with it. *)

Definition two_stage {Row} (appending : list string)
    (first_name : string) (first : gmap string value -> M Row Update)
    (second_name : string) (second : gmap string value -> M Row Update)
    (initial_state : gmap string value) : M Row (gmap string value) :=
  log (EvNode first_name) ;;;
  upd1 <- first initial_state ;;
  let retrieved := LangGraph.apply_update appending initial_state upd1 in
  log (EvNode second_name) ;;;
  upd2 <- second retrieved ;;
  ret (LangGraph.apply_update appending retrieved upd2).

(** The names of the nodes started, in order, among logged events. *)
Definition started (events : list Event) : list string :=
  omap (fun ev => match ev with EvNode name => Some name | _ => None end) events.

(** The prompts sent to the language model, in order. *)
Definition prompts (events : list Event) : list (list Message) :=
  omap (fun ev => match ev with EvLLM messages => Some messages | _ => None end) events.

(** The keys of the dict a node returns. *)
Definition keys (upd : Update) : list string := map fst upd.

(** The update names no field outside [fields]. *)
Definition writes_only (upd : Update) (fields : list string) : Prop :=
  forall k, k ∈ keys upd -> k ∈ fields.

(** The world once [ev] is logged. *)
Definition after_log {Row} (ev : Event) (w : World Row) : World Row :=
  mkWorld (ticks w) (trace w ++ [ev]) (db_pending w) (db_rows w).

(** A run of [first] then [second] from state [s] and world [w], ending
    with result [r] in world [w'], is ordered when: the first stage is
    started first, on the initial state; while it runs no other node is
    started and no prompt is sent; if it raises, the run ends there with
    its exception; if it returns, its update is merged into the state --
    every overwritten field then holds the value the stage returned --
    and only then is the second stage started, on the merged state and in
    the world the first stage left. *)
Definition ordered_run {Row} (appending : list string)
    (first_name : string) (first : gmap string value -> M Row Update)
    (second_name : string) (second : gmap string value -> M Row Update)
    (s : gmap string value) (w : World Row)
    (r : Result (gmap string value)) (w' : World Row) : Prop :=
  exists r1 w1 evs1,
    first s (after_log (EvNode first_name) w) = (r1, w1) /\
    trace w1 = trace w ++ EvNode first_name :: evs1 /\
    started evs1 = [] /\ prompts evs1 = [] /\
    match r1 with
    | Raise e => r = Raise e /\ w' = w1
    | Ok upd1 =>
        let retrieved := LangGraph.apply_update appending s upd1 in
        (forall k v, k ∉ appending -> LangGraph.assoc k upd1 = Some v ->
                     retrieved !! k = Some v) /\
        exists r2 evs2,
          second retrieved (after_log (EvNode second_name) w1) = (r2, w') /\
          trace w' = trace w1 ++ EvNode second_name :: evs2 /\
          started evs2 = [] /\
          r = match r2 with
              | Ok upd2 => Ok (LangGraph.apply_update appending retrieved upd2)
              | Raise e => Raise e
              end
    end.

(** Every run of the graph is ordered. *)
Definition runs_in_order {Row} (g : LangGraph.StateGraph Row)
    (first_name : string) (first : gmap string value -> M Row Update)
    (second_name : string) (second : gmap string value -> M Row Update) : Prop :=
  forall (s : gmap string value) (w w' : World Row) (r : Result (gmap string value)),
    LangGraph.invoke g s w = (r, w') ->
    ordered_run (LangGraph.appending g) first_name first second_name second s w r w'.

(** ** A reference similarity index

    An in-memory index with the contract the retrieval stage relies on:
    the points are kept in insertion order, a query is scored against
    each, the hits under the threshold are dropped, the others are ranked
    by descending score (a stable insertion sort, so equal scores stay in
    insertion order) and the first [limit] are returned. *)

Module Reference.
Import Task1.

Record Point : Type := mkPoint {
  pt_id : Z;
  pt_vector : list Q;
  pt_payload : Payload;
}.

(** The ids given by [index_training_data]: the row number. *)
Fixpoint index_from (next_id : Z) (docs : list (list Q * Payload)) : list Point :=
  match docs with
  | [] => []
  | (vector, payload) :: rest => mkPoint next_id vector payload :: index_from (next_id + 1) rest
  end.

Definition build_index (docs : list (list Q * Payload)) : list Point := index_from 0 docs.

Fixpoint dot (u v : list Q) : Q :=
  match u, v with
  | a :: u', b :: v' => (a * b + dot u' v')%Q
  | _, _ => 0%Q
  end.

Definition score_point (query : list Q) (pt : Point) : ScoredPoint :=
  mkScoredPoint (pt_id pt) (dot query (pt_vector pt)) (pt_payload pt).

Fixpoint rank_insert (hit : ScoredPoint) (ranked : list ScoredPoint) : list ScoredPoint :=
  match ranked with
  | [] => [hit]
  | other :: rest =>
      if Qle_bool (sp_score other) (sp_score hit) then hit :: ranked
      else other :: rank_insert hit rest
  end.

Definition rank (hits : list ScoredPoint) : list ScoredPoint := foldr rank_insert [] hits.

Definition search (points : list Point) (query : list Q) (limit : nat) (score_threshold : Q)
    : list ScoredPoint :=
  take limit
    (rank (List.filter (fun hit => Qle_bool score_threshold (sp_score hit))
                       (map (score_point query) points))).

End Reference.

(** ** The contract of the similarity index *)

Section IndexContract.
Import Task1.
Context `{Providers}.





End IndexContract.

(** ** Concrete collaborators *)

Module Demo.
Import Task1.

Definition tech (text : string) : Payload := mkPayload text text 2 "Technology".
Definition sport (text : string) : Payload := mkPayload text text 1 "Sport".

Definition docs : list (list Q * Payload) :=
  [([1; 0]%Q, tech "Google releases new AI model");
   ([0; 1]%Q, sport "Liverpool wins the derby");
   ([(9 # 10); (1 # 10)]%Q, tech "New laptop chips announced");
   ([1; 0]%Q, tech "Phone maker unveils camera upgrade")].

Definition points : list Reference.Point := Reference.build_index docs.

Definition embed (text : string) : list Q :=
  if String.eqb text "" then [0; 0]%Q else [1; 0]%Q.

Definition technology : ClassificationResult :=
  mkClassification 2 "Technology" (95 # 100) "The article is about a product launch.".

(** Everything answers. *)
Definition healthy : Providers := {|
  clock := fun n => inject_Z (Z.of_nat n);
  embed_oracle := fun text => inr (embed text);
  search_oracle := fun query limit th => inr (Reference.search points query limit th);
  llm_oracle := fun _ => inr technology;
|}.

(** The language-model provider times out. *)
Definition llm_down : Providers := {|
  clock := fun n => inject_Z (Z.of_nat n);
  embed_oracle := fun text => inr (embed text);
  search_oracle := fun query limit th => inr (Reference.search points query limit th);
  llm_oracle := fun _ => inl (PyExc "APITimeoutError" "Request timed out.");
|}.

(** The language-model provider answers outside the schema. *)
Definition llm_off_schema : Providers := {|
  clock := fun n => inject_Z (Z.of_nat n);
  embed_oracle := fun text => inr (embed text);
  search_oracle := fun query limit th => inr (Reference.search points query limit th);
  llm_oracle := fun _ => inr (mkClassification 7 "Weather" (3 # 2) "");
|}.

(** The embedding provider is unreachable. *)
Definition embedding_down : Providers := {|
  clock := fun n => inject_Z (Z.of_nat n);
  embed_oracle := fun _ => inl (PyExc "APIConnectionError" "Connection error.");
  search_oracle := fun query limit th => inr (Reference.search points query limit th);
  llm_oracle := fun _ => inr technology;
|}.


(** The chat provider fails. *)
Definition chat_down : Task2.Providers := {|
  Task2.llm_oracle := fun _ => inl (PyExc "RateLimitError" "Rate limit reached.");
|}.

Definition chat_up : Task2.Providers := {|
  Task2.llm_oracle := fun _ => inr "Hello! How can I help?";
|}.

(** The world before a request. *)
Definition fresh : Task1.W := mkWorld 0 [] [] [].
Definition fresh_chat : World Empty_set := mkWorld 0 [] [] [].

Definition article : string := "Apple announces new iPhone with advanced AI features.".

(** The initial state built by [classify_text] for [article]. *)
Definition initial_state : gmap string value :=
  list_to_map
    [("text", VStr article);
     ("messages", VMessages []);
     ("retrieved_examples", VExamples []);
     ("predicted_label", VNone);
     ("predicted_category", VNone);
     ("confidence", VNone);
     ("reasoning", VNone);
     ("retrieval_time", VFloat 0);
     ("classification_time", VFloat 0)].

End Demo.

Module DemoChat.

Definition turn (sender text : string) : gmap string string :=
  {[ "sender" := sender; "text" := text ]}.

(** A conversation of twelve messages. *)
Definition history : list (gmap string string) :=
  [turn "user" "one"; turn "assistant" "two"; turn "user" "three";
   turn "assistant" "four"; turn "user" "five"; turn "assistant" "six";
   turn "user" "seven"; turn "assistant" "eight"; turn "user" "nine";
   turn "assistant" "ten"; turn "user" "eleven"; turn "assistant" "twelve"].

(** The initial state built by the [chat] endpoint. *)
Definition initial_state : gmap string value :=
  list_to_map
    [("conversation_id", VStr "conv_123");
     ("user_message", VStr "Hello! How are you?");
     ("conversation_history", VHistory history);
     ("formatted_history", VStr "");
     ("assistant_response", VStr "");
     ("model_used", VStr "");
     ("messages", VMessages [])].

End DemoChat.

(** ** The embedding on concrete inputs *)

Example format_2f_ties_to_even :
  (format_2f (125 # 1000), format_2f (375 # 1000), format_2f (89 # 100), format_2f 1)
  = ("0.12", "0.38", "0.89", "1.00").
Proof. vm_compute. reflexivity. Qed.

Example capitalize_sender : (capitalize "user", capitalize "aSSISTANT") = ("User", "Assistant").
Proof. vm_compute. reflexivity. Qed.

Example last_two_of_three : last_n 2 [1; 2; 3] = [2; 3].
Proof. reflexivity. Qed.

Example format_one_example :
  Task1._format_examples [mkExample "Google releases new AI model" "" 2 "Technology" (89 # 100)]
  = "Example 1 (Label: 2 - Technology, Similarity: 0.89):" +:+ nl
    +:+ "Google releases new AI model...".
Proof. vm_compute. reflexivity. Qed.

(** The reference index on the demonstration article: the two hits of
    score 1 come first, in insertion order (ids 0 and 3), then the hit of
    score 0.9; the point of score 0 is under the threshold. *)
Example reference_search_demo :
  map (fun hit => (Task1.sp_id hit, Qred (Task1.sp_score hit)))
      (Reference.search Demo.points (Demo.embed Demo.article) 5 (6 # 10))
  = [(0%Z, 1%Q); (3%Z, 1%Q); (2%Z, (9 # 10)%Q)].
Proof. vm_compute. reflexivity. Qed.

(** An answer outside the schema ends in the fallback values. *)
Example off_schema_answer_falls_back :
  Task1.outcome (H := Demo.llm_off_schema)
    (Task1.classify_messages Demo.article [])
  = (0%Z, "Politics", 0%Q,
     "Error during classification: validation error for ClassificationResult").
Proof. vm_compute. reflexivity. Qed.

(** ** The history endpoint of the classifier (task_1) *)

Module History.
Import Task1.

(** [HistoryRecord] of [app/schemas.py]; [created_at] is left to the
    database, as in [ClassificationHistory]. *)
Record HistoryRecord : Type := mkHistoryRecord {
  hr_id : Z;
  hr_text : string;
  hr_predicted_label : Z;
  hr_predicted_category : string;
  hr_confidence : option Q;
  hr_reasoning : option string;
  hr_model_used : string;
  hr_graph_version : string;
  hr_num_retrieved_examples : nat;
  hr_retrieval_time_ms : Z;
  hr_classification_time_ms : Z;
  hr_total_time_ms : Z;
}.

(** A [float | None] attribute. *)
Definition optional_float (v : value) : option (option Q) :=
  match v with
  | VNone => Some None
  | VFloat q => Some (Some q)
  | VInt z => Some (Some (inject_Z z))
  | _ => None
  end.

(** A [str | None] attribute. *)
Definition optional_str (v : value) : option (option string) :=
  match v with
  | VNone => Some None
  | VStr s => Some (Some s)
  | _ => None
  end.

(** [HistoryRecord.model_validate(record)]: the row must have its id, an
    integer label and a string category; [None] is a validation error. *)
Definition model_validate (row : ClassificationHistory) : option HistoryRecord :=
  match h_id row, h_predicted_label row, h_predicted_category row,
        optional_float (h_confidence row), optional_str (h_reasoning row) with
  | Some id, VInt predicted_label, VStr predicted_category, Some confidence, Some reasoning =>
      Some (mkHistoryRecord id (h_text row) predicted_label predicted_category
              confidence reasoning (h_model_used row) (h_graph_version row)
              (h_num_retrieved_examples row) (h_retrieval_time_ms row)
              (h_classification_time_ms row) (h_total_time_ms row))
  | _, _, _, _, _ => None
  end.

Fixpoint validate_all (rows : list ClassificationHistory) : option (list HistoryRecord) :=
  match rows with
  | [] => Some []
  | row :: rest =>
      match model_validate row, validate_all rest with
      | Some record, Some records => Some (record :: records)
      | _, _ => None
      end
  end.

(** [order_by(created_at.desc()).offset(skip).limit(limit)].  [created_at]
    is set when the row is inserted and grows with insertion, so the
    newest row comes first. *)
Definition page (skip limit : nat) (rows : list ClassificationHistory)
    : list ClassificationHistory :=
  take limit (drop skip (rev rows)).

Record HistoryResponse : Type := mkHistoryResponse {
  total : nat;
  records : list HistoryRecord;
}.

(** The handler of [GET /history]; the session only reads. *)
Definition get_history (skip limit : nat) : Mc HistoryResponse :=
  try_except
    (fun w =>
       let total := length (db_rows w) in
       match validate_all (page skip limit (db_rows w)) with
       | Some records => (Ok (mkHistoryResponse total records), w)
       | None => (Raise (PyExc "ValidationError" "validation error for HistoryRecord"), w)
       end)
    (fun e => raise (HTTPException 500 ("Failed to retrieve history: " +:+ str_exn e))).

Inductive HttpResponse : Type :=
| Http200 (body : HistoryResponse)
| HttpError (status_code : Z) (detail : string).

(** The [Query] constraints: [skip >= 0], [1 <= limit <= 1000]. *)
Definition query_valid (skip limit : Z) : bool :=
  (0 <=? skip)%Z && (1 <=? limit)%Z && (limit <=? 1000)%Z.

(** The route as FastAPI serves it: absent parameters take their defaults
    (0 and 100), out-of-range ones are answered 422 before the handler
    runs. *)
Definition get_history_route (skip limit : option Z) (w : W) : HttpResponse * W :=
  let skip := default 0%Z skip in
  let limit := default 100%Z limit in
  if query_valid skip limit then
    match get_history (Z.to_nat skip) (Z.to_nat limit) w with
    | (Ok body, w') => (Http200 body, w')
    | (Raise (HTTPException status detail), w') => (HttpError status detail, w')
    | (Raise (PyExc _ _), w') => (HttpError 500 "Internal Server Error", w')
    end
  else (HttpError 422 "Unprocessable Entity", w).

(** The rows of a table filled by the service: numbered from 1 in
    insertion order, each one a valid [HistoryRecord]. *)
Definition table_ok (rows : list ClassificationHistory) : Prop :=
  forall i row, rows !! i = Some row ->
    h_id row = Some (Z.of_nat i + 1)%Z /\ is_Some (model_validate row).

End History.

(** The world after a sequence of [POST /classify] requests, each given
    by its text and its [include_examples] flag. *)
Definition after_requests `{Task1.Providers} (requests : list (string * bool)) (w : Task1.W)
    : Task1.W :=
  foldl (fun w request => snd (Task1.post_classify (fst request) (snd request) w)) w requests.

(** ** Indexing the training data (task_1, [app/vectorstore.py]) *)

Module Vectorstore.
Import Task1.

(** A row of the training CSV: its [Text] and [Label] columns. *)
Record TrainingRow : Type := mkRow {
  Text : string;
  Label : Z;
}.

(** [client.upsert] of one point: a point with the same id is replaced
    where it is, a new point is added after the others. *)
Fixpoint upsert_point (p : Reference.Point) (points : list Reference.Point)
    : list Reference.Point :=
  match points with
  | [] => [p]
  | q :: rest =>
      if (Reference.pt_id q =? Reference.pt_id p)%Z then p :: rest
      else q :: upsert_point p rest
  end.

Definition upsert_points (batch points : list Reference.Point) : list Reference.Point :=
  foldl (fun stored p => upsert_point p stored) points batch.

(** [client.upsert(collection_name, points)] on the collections of the
    client, each held as the list of its points in storage order. *)
Definition client_upsert (collection_name : string) (batch : list Reference.Point)
    (store : gmap string (list Reference.Point))
    : Result unit * gmap string (list Reference.Point) :=
  match store !! collection_name with
  | None => (Raise (PyExc "ValueError" ("Collection " +:+ collection_name +:+ " not found")),
             store)
  | Some points => (Ok tt, <[collection_name := upsert_points batch points]> store)
  end.

(** [create_collection]: nothing is done when the collection exists. *)
Definition create_collection (collection_name : string)
    (store : gmap string (list Reference.Point)) : gmap string (list Reference.Point) :=
  match store !! collection_name with
  | Some _ => store
  | None => <[collection_name := []]> store
  end.

(** Points in storage order with growing ids. *)
Definition ids_increase (points : list Reference.Point) : Prop :=
  StronglySorted (fun a b => (Reference.pt_id a < Reference.pt_id b)%Z) points.

Section Code.
Context `{Providers}.

(** The [PointStruct] built for the row of index [idx]. *)
Definition make_point (idx : Z) (row : TrainingRow) (category : string) (embedding : list Q)
    : Reference.Point :=
  Reference.mkPoint idx embedding
    (mkPayload (slice_to 1000 (Text row)) (Text row) (Label row) category).

(** The loop of [index_training_data] from the row of index [idx], with
    [points] the points built and not yet uploaded. *)
Fixpoint index_rows (collection_name : string) (batch_size : Z) (idx : Z)
    (rows : list TrainingRow) (points : list Reference.Point)
    (store : gmap string (list Reference.Point))
    : Result unit * gmap string (list Reference.Point) :=
  match rows with
  | [] =>
      match points with
      | [] => (Ok tt, store)
      | _ => client_upsert collection_name points store
      end
  | row :: rest =>
      match settings_categories !! Label row with
      | None => (Raise (PyExc "KeyError" (pretty (Label row))), store)
      | Some category =>
          match embed_oracle (Text row) with
          | inl e => (Raise e, store)
          | inr embedding =>
              let points := points ++ [make_point idx row category embedding] in
              if (batch_size <=? Z.of_nat (length points))%Z then
                match client_upsert collection_name points store with
                | (Ok _, store') =>
                    index_rows collection_name batch_size (idx + 1) rest [] store'
                | (Raise e, store') => (Raise e, store')
                end
              else index_rows collection_name batch_size (idx + 1) rest points store
          end
      end
  end.

(** [index_training_data] on the rows read from the CSV. *)
Definition index_training_data (collection_name : string) (rows : list TrainingRow)
    (batch_size : Z) (store : gmap string (list Reference.Point))
    : Result unit * gmap string (list Reference.Point) :=
  index_rows collection_name batch_size 0 rows [] (create_collection collection_name store).

(** The document of a row: its embedding and its payload, when the label
    names a category and the embedding provider answers. *)
Definition doc_of (row : TrainingRow) : option (list Q * Payload) :=
  match settings_categories !! Label row, embed_oracle (Text row) with
  | Some category, inr embedding =>
      Some (embedding, mkPayload (slice_to 1000 (Text row)) (Text row) (Label row) category)
  | _, _ => None
  end.

(** How indexing a row fails: an unknown label is a [KeyError] (of an
    integer key, shown without quotes), before any call to the
    embedding provider; otherwise the exception of the
    provider. *)
Definition row_error (row : TrainingRow) : option exn :=
  match settings_categories !! Label row, embed_oracle (Text row) with
  | None, _ => Some (PyExc "KeyError" (pretty (Label row)))
  | Some _, inl e => Some e
  | Some _, inr _ => None
  end.

End Code.

End Vectorstore.

Module DemoIndex.
Import Task1 Vectorstore.

Definition collection_name : string := "news_articles".

Definition rows : list TrainingRow :=
  [mkRow "Google releases new AI model" 2;
   mkRow "Liverpool wins the derby" 1;
   mkRow "New laptop chips announced" 2].

Definition docs : list (list Q * Payload) :=
  [(Demo.embed "Google releases new AI model",
    mkPayload "Google releases new AI model" "Google releases new AI model" 2 "Technology");
   (Demo.embed "Liverpool wins the derby",
    mkPayload "Liverpool wins the derby" "Liverpool wins the derby" 1 "Sport");
   (Demo.embed "New laptop chips announced",
    mkPayload "New laptop chips announced" "New laptop chips announced" 2 "Technology")].

(** A client with no collection. *)
Definition empty_store : gmap string (list Reference.Point) := ∅.

(** A row whose label names no category. *)
Definition unlabelled : TrainingRow := mkRow "Rain expected on Sunday" 9.

End DemoIndex.

(** ** Predictions for a test set (task_1, [scripts/generate_predictions.py]) *)

Module Predictions.
Import Task1.

Section Code.
Context `{Providers}.

(** The initial state built for one article. *)
Definition initial_state (text : string) : gmap string value :=
  list_to_map
    [("text", VStr text);
     ("messages", VMessages []);
     ("retrieved_examples", VExamples []);
     ("predicted_label", VNone);
     ("predicted_category", VNone);
     ("confidence", VNone);
     ("reasoning", VNone);
     ("retrieval_time", VFloat 0);
     ("classification_time", VFloat 0)].

(** [f"{confidence:.2f}"] in the progress line: only a number has this
    format. *)
Definition format_confidence (confidence : value) : Mc string :=
  match confidence with
  | VFloat q => ret (format_2f q)
  | VInt z => ret (format_2f (inject_Z z))
  | VStr _ => raise (PyExc "ValueError" "Unknown format code 'f' for object of type 'str'")
  | _ => raise (TypeError "unsupported format string passed to __format__")
  end.

(** One turn of the loop, for the row of index [i].  [output_df] is the
    [Label] column of the output frame and [saved] the successive
    contents written to the output file.  Every step that can raise comes
    before the checkpoint, and the label set before an exception is
    overwritten by the handler, so the handler starts from the frame and
    the file as they were before the turn. *)
Definition predict_row (batch_size : Z) (i : nat) (text : string)
    (state : list value * list (list value)) : Mc (list value * list (list value)) :=
  let '(output_df, saved) := state in
  try_except
    (final_state <- LangGraph.invoke classifier_graph (initial_state text) ;;
     predicted_label <- getitem final_state "predicted_label" ;;
     _ <- getitem final_state "predicted_category" ;;
     let confidence := get_or final_state "confidence" (VFloat 0) in
     _ <- as_examples (get_or final_state "retrieved_examples" (VExamples [])) ;;
     let output_df := <[i := predicted_label]> output_df in
     _ <- format_confidence confidence ;;
     if (batch_size =? 0)%Z
     then raise (PyExc "ZeroDivisionError" "integer modulo by zero")
     else if ((Z.of_nat i + 1) mod batch_size =? 0)%Z
          then ret (output_df, saved ++ [output_df])
          else ret (output_df, saved))
    (fun e => ret (<[i := VInt 0]> output_df, saved)).

Fixpoint predict_rows (batch_size : Z) (i : nat) (rows : list string)
    (state : list value * list (list value)) : Mc (list value * list (list value)) :=
  match rows with
  | [] => ret state
  | text :: rest =>
      state <- predict_row batch_size i text state ;;
      predict_rows batch_size (S i) rest state
  end.

(** [generate_predictions] on the [Text] column of the test file.  The
    result comes with the successive contents written to the output
    file, oldest first.  After the final save the summary divides the
    elapsed time by the number of articles. *)
Definition generate_predictions (test_df : list string) (batch_size : Z) (w : W)
    : Result unit * list (list value) * W :=
  let output_df := replicate (length test_df) VNone in
  match (_ <- time_time ;;
         state <- predict_rows batch_size 0 test_df (output_df, []) ;;
         _ <- time_time ;;
         ret state) w with
  | (Ok (output_df, saved), w') =>
      let saved := saved ++ [output_df] in
      match test_df with
      | [] => (Raise (PyExc "ZeroDivisionError" "float division by zero"), saved, w')
      | _ => (Ok tt, saved, w')
      end
  | (Raise e, w') => (Raise e, [], w')
  end.

(** The label the script gives an article: 0 when the checkpoint
    interval is 0 or retrieval fails, else the label written by the
    classify node. *)
Definition row_label (batch_size : Z) (text : string) : Z :=
  if (batch_size =? 0)%Z then 0%Z
  else
    match embed_oracle text with
    | inl _ => 0%Z
    | inr query =>
        match search_oracle query 5 (6 # 10) with
        | inl _ => 0%Z
        | inr hits =>
            let '(l, _, _, _) := outcome (classify_messages text (map example_of hits)) in l
        end
    end.

(** The label column once the rows of [done] are processed, in a frame
    of [n] rows. *)
Definition labelled (batch_size : Z) (done : list string) (n : nat) : list value :=
  map (fun text => VInt (row_label batch_size text)) done
  ++ replicate (n - length done) VNone.

(** A checkpoint of the run over [all]: written after a multiple [k] of
    the interval, with the first [k] labels set and no other. *)
Definition checkpoint (batch_size : Z) (all : list string) (snapshot : list value) : Prop :=
  exists k : nat,
    (0 < k <= length all)%nat /\ (Z.of_nat k mod batch_size = 0)%Z /\
    snapshot = labelled batch_size (take k all) (length all).

End Code.

End Predictions.

(** ** A served table and a test set *)

Module DemoHistory.

(** Three requests: one answered, one invalid, one answered with its
    examples. *)
Definition requests : list (string * bool) :=
  [(Demo.article, false); ("", false); ("Liverpool wins the derby", true)].

Definition served : Task1.W := after_requests (H := Demo.healthy) requests Demo.fresh.

Definition test_df : list string :=
  [Demo.article; "Liverpool wins the derby"; "New laptop chips announced"].

End DemoHistory.

(** ** The chat endpoints (task_2, [app/main.py]) *)

Module Chat.
Import Task2.

(** *** [app/models.py] *)

(** A row of [conversations].  The two timestamps are filled by the
    column defaults when the row is inserted. *)
Record Conversation : Type := mkConversation {
  c_id : string;
  c_title : option string;
  c_created_at : option Q;
  c_updated_at : option Q;
}.

(** A row of [messages], the model [Message] of [app/models.py] (the
    name is LangChain's in this development).  [tokens_used] is never
    set. *)
Record MessageRow : Type := mkMessageRow {
  m_id : option Z;
  m_conversation_id : string;
  m_sender : string;
  m_text : string;
  m_timestamp : Q;
  m_model_used : option string;
}.

(** An object of the session: a row of one of the two tables. *)
Inductive Entity : Type :=
| EConversation (c : Conversation)
| EMessage (m : MessageRow).

Abbreviation Wh := (World Entity).
Abbreviation Mh := (M Entity).

Definition conversations (rows : list Entity) : list Conversation :=
  omap (fun row => match row with EConversation c => Some c | EMessage _ => None end) rows.

Definition messages (rows : list Entity) : list MessageRow :=
  omap (fun row => match row with EMessage m => Some m | EConversation _ => None end) rows.

(** The [String(n)] columns: a longer value is refused when the row is
    written. *)
Definition fits (limit : nat) (s : string) : bool := String.length s <=? limit.

Definition columns_ok (row : Entity) : bool :=
  match row with
  | EConversation c =>
      fits 100 (c_id c) && from_option (fits 200) true (c_title c)
  | EMessage m =>
      fits 100 (m_conversation_id m) && fits 20 (m_sender m)
      && from_option (fits 100) true (m_model_used m)
  end.

(** [UPDATE]: the stored row of the same primary key is replaced. *)
Definition update_conversation (c : Conversation) (rows : list Entity) : list Entity :=
  map (fun row =>
         match row with
         | EConversation c' => if String.eqb (c_id c') (c_id c) then EConversation c else row
         | EMessage _ => row
         end) rows.

(** [.order_by(Message.timestamp.asc())]: rows of equal timestamps keep
    the order of the table. *)
Fixpoint insert_by_timestamp (m : MessageRow) (sorted : list MessageRow) : list MessageRow :=
  match sorted with
  | [] => [m]
  | m' :: rest =>
      if Qle_bool (m_timestamp m) (m_timestamp m') then m :: sorted
      else m' :: insert_by_timestamp m rest
  end.

Definition order_by_timestamp (rows : list MessageRow) : list MessageRow :=
  foldr insert_by_timestamp [] rows.

(** *** [app/schemas.py] *)

Record ChatRequest : Type := mkChatRequest {
  conversation_id : string;
  message : string;
}.

(** Both fields are required; [message] has [min_length=1]. *)
Definition parse_ChatRequest (body_conversation_id body_message : option string)
    : option ChatRequest :=
  match body_conversation_id, body_message with
  | Some conversation_id, Some message =>
      if (1 <=? String.length message) then Some (mkChatRequest conversation_id message)
      else None
  | _, _ => None
  end.

Record ChatResponse : Type := mkChatResponse {
  cr_conversation_id : string;
  cr_response : string;
  cr_timestamp : Q;
  cr_model_used : option string;
}.

Record MessageRecord : Type := mkMessageRecord {
  mr_sender : string;
  mr_text : string;
  mr_timestamp : Q;
}.

(** [MessageRecord.model_validate(msg)], from the attributes of the row. *)
Definition model_validate (msg : MessageRow) : MessageRecord :=
  mkMessageRecord (m_sender msg) (m_text msg) (m_timestamp msg).

Record ConversationHistory : Type := mkConversationHistory {
  ch_conversation_id : string;
  ch_messages : list MessageRecord;
  ch_message_count : nat;
  ch_created_at : Q;
  ch_updated_at : Q;
}.

(** What a client receives. *)
Inductive HttpResponse (Body : Type) : Type :=
| Http200 (body : Body)
| HttpError (status_code : Z) (detail : string).
Arguments Http200 {Body} body.
Arguments HttpError {Body} status_code detail.

(** The readings of [datetime.utcnow()], in seconds. *)
Class Clock : Type := {
  clock : nat -> Q;
}.

Section Code.
Context `{Providers} `{Clock}.

Definition utcnow : Mh Q :=
  fun w => (Ok (clock (ticks w)),
            mkWorld (S (ticks w)) (trace w) (db_pending w) (db_rows w)).

(** *** The session *)

(** [db.query(Conversation).filter(Conversation.id == id).first()];
    the session does not flush before a query ([autoflush=False]). *)
Definition query_conversation (id : string) : Mh (option Conversation) :=
  fun w => (Ok (head (filter (fun c => c_id c = id) (conversations (db_rows w)))), w).

(** [db.query(Message).filter(Message.conversation_id == id)
       .order_by(Message.timestamp.asc()).all()] *)
Definition query_messages (id : string) : Mh (list MessageRow) :=
  fun w =>
    (Ok (order_by_timestamp
           (filter (fun m => m_conversation_id m = id) (messages (db_rows w)))), w).

(** [db.add(obj)], and an attribute set on a loaded object: the object
    is written at the next commit. *)
Definition db_add (row : Entity) : Mh unit :=
  fun w => (Ok tt, mkWorld (ticks w) (trace w ++ [EvDbAdd]) (db_pending w ++ [row]) (db_rows w)).

Definition db_set (row : Entity) : Mh unit :=
  fun w => (Ok tt, mkWorld (ticks w) (trace w) (db_pending w ++ [row]) (db_rows w)).

(** One object written to its table.  A conversation whose id is stored
    is updated; a new one is inserted, its missing timestamps read from
    the clock, [created_at] first.  A message is inserted under the next
    id of the autoincrement key. *)
Definition write_row (row : Entity) : Mh unit :=
  if columns_ok row then
    match row with
    | EConversation c =>
        fun w =>
          match filter (fun c' => c_id c' = c_id c) (conversations (db_rows w)) with
          | _ :: _ =>
              (Ok tt, mkWorld (ticks w) (trace w) (db_pending w)
                              (update_conversation c (db_rows w)))
          | [] =>
              (created_at <-
                 match c_created_at c with Some t => ret t | None => utcnow end ;;
               updated_at <-
                 match c_updated_at c with Some t => ret t | None => utcnow end ;;
               fun w =>
                 (Ok tt, mkWorld (ticks w) (trace w) (db_pending w)
                                 (db_rows w ++
                                  [EConversation
                                     (mkConversation (c_id c) (c_title c)
                                        (Some created_at) (Some updated_at))]))) w
          end
    | EMessage m =>
        fun w =>
          (Ok tt, mkWorld (ticks w) (trace w) (db_pending w)
                          (db_rows w ++
                           [EMessage
                              (mkMessageRow
                                 (Some (Z.of_nat (length (messages (db_rows w))) + 1)%Z)
                                 (m_conversation_id m) (m_sender m) (m_text m)
                                 (m_timestamp m) (m_model_used m))]))
    end
  else raise (PyExc "DataError" "value too long for type character varying").

Fixpoint flush (rows : list Entity) : Mh unit :=
  match rows with
  | [] => ret tt
  | row :: rest => write_row row ;;; flush rest
  end.

(** [db.commit()]: the pending objects are written in one transaction;
    when a row is refused nothing of the transaction is stored. *)
Definition db_commit : Mh unit :=
  fun w =>
    match flush (db_pending w) w with
    | (Ok _, w') =>
        (Ok tt, mkWorld (ticks w') (trace w ++ [EvDbCommit]) [] (db_rows w'))
    | (Raise e, w') =>
        (Raise e, mkWorld (ticks w') (trace w ++ [EvDbCommit]) (db_pending w) (db_rows w))
    end.

Definition db_rollback : Mh unit :=
  fun w => (Ok tt, mkWorld (ticks w) (trace w ++ [EvDbRollback]) [] (db_rows w)).

(** [db.refresh(conversation)]: the stored row. *)
Definition db_refresh_conversation (id : string) : Mh Conversation :=
  conversation <- query_conversation id ;;
  match conversation with
  | Some conversation => ret conversation
  | None => raise (PyExc "InvalidRequestError" "Could not refresh instance")
  end.

(** [db.close()] of [get_db_session]: what was not committed is lost. *)
Definition db_close (w : Wh) : Wh :=
  mkWorld (ticks w) (trace w) [] (db_rows w).

(** *** [app/main.py] *)

(** [await loop.run_in_executor(executor, chatbot_graph.invoke, state)]:
    for one request, a call; the graph sees the clock and the log, not
    the session. *)
Definition run_in_executor {A} (c : Mb A) : Mh A :=
  fun w =>
    let '(r, g) := c (mkWorld (ticks w) (trace w) [] []) in
    (r, mkWorld (ticks g) (trace g) (db_pending w) (db_rows w)).

(** [{"sender": msg.sender, "text": msg.text}] *)
Definition history_entry (msg : MessageRow) : gmap string string :=
  {[ "sender" := m_sender msg; "text" := m_text msg ]}.

(** [final_state.get("model_used")] as the [str | None] of the column
    and of the response. *)
Definition optional_str (v : option value) : Mh (option string) :=
  match v with
  | None | Some VNone => ret None
  | Some (VStr s) => ret (Some s)
  | Some _ => raise (TypeError "expected str or None")
  end.

(** The handler of [POST /chat] once the conversation is loaded, from
    the query of its messages on.  The columns and the response fields
    are typed: a value of another type, which the database or the
    response model would refuse further down the same [try], is refused
    where it is read. *)
Definition chat_turn (request : ChatRequest) (conversation : Conversation)
    : Mh ChatResponse :=
  messages <- query_messages (conversation_id request) ;;
  let conversation_history := map history_entry messages in
  let initial_state : gmap string value :=
    list_to_map
      [("conversation_id", VStr (conversation_id request));
       ("user_message", VStr (message request));
       ("conversation_history", VHistory conversation_history);
       ("formatted_history", VStr "");
       ("assistant_response", VStr "");
       ("model_used", VStr "");
       ("messages", VMessages [])] in
  final_state <- run_in_executor (LangGraph.invoke chatbot_graph initial_state) ;;
  timestamp <- utcnow ;;
  let user_msg :=
    mkMessageRow None (conversation_id request) "user" (message request) timestamp None in
  db_add (EMessage user_msg) ;;;
  assistant_response <- (v <- getitem final_state "assistant_response" ;; as_str v) ;;
  timestamp <- utcnow ;;
  model_used <- optional_str (final_state !! "model_used") ;;
  let assistant_msg :=
    mkMessageRow None (conversation_id request) "assistant" assistant_response
                 timestamp model_used in
  db_add (EMessage assistant_msg) ;;;
  updated_at <- utcnow ;;
  db_set (EConversation
            (mkConversation (c_id conversation) (c_title conversation)
                            (c_created_at conversation) (Some updated_at))) ;;;
  db_commit ;;;
  ret (mkChatResponse (conversation_id request) assistant_response
                      (m_timestamp assistant_msg) model_used).

(** The handler of [POST /chat]. *)
Definition chat (request : ChatRequest) : Mh ChatResponse :=
  try_except
    (conversation <- query_conversation (conversation_id request) ;;
     conversation <-
       match conversation with
       | Some conversation => ret conversation
       | None =>
           db_add (EConversation (mkConversation (conversation_id request) None None None)) ;;;
           db_commit ;;;
           db_refresh_conversation (conversation_id request)
       end ;;
     chat_turn request conversation)
    (fun e =>
       db_rollback ;;;
       raise (HTTPException 500 ("Chat failed: " +:+ str_exn e))).

(** The handler of [GET /history/{conversation_id}]: an [HTTPException]
    is raised again as it is, any other exception becomes a 500. *)
Definition get_history (conversation_id : string) : Mh ConversationHistory :=
  fun w =>
    match (conversation <- query_conversation conversation_id ;;
           match conversation with
           | None =>
               raise (HTTPException 404
                        ("Conversation '" +:+ conversation_id +:+ "' not found"))
           | Some conversation =>
               messages <- query_messages conversation_id ;;
               match c_created_at conversation, c_updated_at conversation with
               | Some created_at, Some updated_at =>
                   ret (mkConversationHistory conversation_id (map model_validate messages)
                          (length messages) created_at updated_at)
               | _, _ =>
                   raise (PyExc "ValidationError" "validation error for ConversationHistory")
               end
           end) w with
    | (Ok history, w') => (Ok history, w')
    | (Raise (HTTPException status_code detail), w') =>
        (Raise (HTTPException status_code detail), w')
    | (Raise e, w') =>
        (Raise (HTTPException 500 ("Failed to retrieve history: " +:+ str_exn e)), w')
    end.

Definition respond {Body} (r : Result Body * Wh) : HttpResponse Body * Wh :=
  match r with
  | (Ok body, w) => (Http200 body, db_close w)
  | (Raise (HTTPException status_code detail), w) => (HttpError status_code detail, db_close w)
  | (Raise (PyExc _ _), w) => (HttpError 500 "Internal Server Error", db_close w)
  end.

(** The routes as FastAPI serves them: the body is parsed first, and the
    handler runs, with a session of its own, on a valid request only. *)
Definition post_chat (body_conversation_id body_message : option string) (w : Wh)
    : HttpResponse ChatResponse * Wh :=
  match parse_ChatRequest body_conversation_id body_message with
  | None => (HttpError 422 "Unprocessable Entity", w)
  | Some request => respond (chat request w)
  end.

Definition get_history_route (conversation_id : string) (w : Wh)
    : HttpResponse ConversationHistory * Wh :=
  respond (get_history conversation_id w).

(** *** Reading the store *)

(** The messages of a conversation as the two handlers read them, each
    with its sender and its text. *)
Definition transcript (id : string) (w : Wh) : list (string * string) :=
  map (fun m => (m_sender m, m_text m))
      (order_by_timestamp (filter (fun m => m_conversation_id m = id) (messages (db_rows w)))).

(** The dict of the graph state for a message of the transcript. *)
Definition entry_of (line : string * string) : gmap string string :=
  {[ "sender" := fst line; "text" := snd line ]}.

(** The prompt of a turn: the system prompt holds the formatted
    transcript, the user prompt the new message. *)
Definition prompt_of (lines : list (string * string)) (text : string) : list Message :=
  chat_messages (format_history (map entry_of lines)) text.

(** The store after a sequence of [POST /chat] bodies. *)
Definition after_chats (bodies : list (option string * option string)) (w : Wh) : Wh :=
  foldl (fun w body => snd (post_chat (fst body) (snd body) w)) w bodies.

(** The clock never gives the same reading twice. *)
Definition clock_increases : Prop := forall n, (clock n < clock (S n))%Q.

(** A store as the service leaves it between two requests: nothing
    pending, every row within the limits of its columns, every
    conversation created and then updated at past readings of the
    clock, and the messages written at successive past readings. *)
Definition store_ok (w : Wh) : Prop :=
  db_pending w = [] /\
  Forall (fun row => columns_ok row = true) (db_rows w) /\
  Forall (fun c => exists created_at updated_at,
            c_created_at c = Some created_at /\ c_updated_at c = Some updated_at /\
            (created_at < updated_at)%Q /\
            forall n, ticks w <= n -> (updated_at < clock n)%Q)
         (conversations (db_rows w)) /\
  StronglySorted (fun a b => (m_timestamp a < m_timestamp b)%Q) (messages (db_rows w)) /\
  Forall (fun m => forall n, ticks w <= n -> (m_timestamp m < clock n)%Q)
         (messages (db_rows w)).

End Code.

End Chat.

Module DemoStore.

Definition seconds : Chat.Clock := {| Chat.clock := fun n => inject_Z (Z.of_nat n) |}.

Definition empty : Chat.Wh := mkWorld 0 [] [] [].

(** Two turns of one conversation, a body without a message, and a turn
    of another conversation. *)
Definition bodies : list (option string * option string) :=
  [(Some "conv_123", Some "Hello! How are you?");
   (Some "conv_123", Some "What can you do?");
   (Some "conv_123", None);
   (Some "conv_456", Some "Good morning")].

Definition served : Chat.Wh :=
  Chat.after_chats (H := Demo.chat_up) (H0 := seconds) bodies empty.

End DemoStore.

(** * Proofs *)

(** Unfolding of the nodes and of the monad. *)
Ltac run_node :=
  unfold Task1.classify_node, Task1.retrieve_node, Task1.search_similar, Task1.embed_query,
    Task1.client_search, Task1.model_invoke, Task1.time_time,
    Task2.retrieve_context_node, Task2.generate_response_node, Task2.model_invoke,
    getitem, as_str, as_examples, as_history, try_except, call, log, bind, ret, raise in *.

(** ** Slices *)

Lemma slice_to_length (n : nat) (s : string) : String.length (slice_to n s) <= n.
Proof.
  revert s. induction n as [|n IH]; intros [|c r]; simpl; try lia.
  specialize (IH r). lia.
Qed.

Lemma slice_to_prefix (n : nat) (s : string) : exists rest, s = slice_to n s +:+ rest.
Proof.
  revert s. induction n as [|n IH]; intros s.
  - exists s. destruct s; reflexivity.
  - destruct s as [|c r].
    + exists "". reflexivity.
    + destruct (IH r) as [rest Hrest]. exists rest.
      change (String c r = String c (slice_to n r +:+ rest)). f_equal. exact Hrest.
Qed.


(** ** What the nodes of the classifier do *)

Section ClassifierRuns.
Import Task1.
Context `{Providers}.

Lemma categories_first : settings_categories !! 0%Z = Some "Politics".
Proof. reflexivity. Qed.

Lemma classify_node_run (state : gmap string value) text examples (w : W) :
  state !! "text" = Some (VStr text) ->
  state !! "retrieved_examples" = Some (VExamples examples) ->
  classify_node state w =
    (Ok (classify_update (outcome (classify_messages text examples)) (clock (S (ticks w)) - clock (ticks w))%Q),
     mkWorld (S (S (ticks w))) (trace w ++ [EvLLM (classify_messages text examples)]) (db_pending w) (db_rows w)).
Proof.
  intros Ht Hx.
  unfold outcome, classify_node, bind, time_time, getitem, as_str, as_examples, try_except,
    model_invoke, call, log, bind, ret, raise.
  rewrite Hx, Ht. cbn -[system_prompt user_message _format_examples format_2f settings_categories].
  fold (classify_messages text examples).
  destruct (llm_oracle _) as [e|r]; cbn -[system_prompt user_message _format_examples format_2f settings_categories].
  - rewrite categories_first. reflexivity.
  - destruct (schema_valid r); cbn -[system_prompt user_message _format_examples format_2f settings_categories].
    + reflexivity.
    + rewrite categories_first. reflexivity.
Qed.

Lemma retrieve_node_run (state : gmap string value) text (w : W) :
  state !! "text" = Some (VStr text) ->
  retrieve_node state w =
    match embed_oracle text with
    | inl e => (Raise e, mkWorld (S (ticks w)) (trace w ++ [EvEmbed text]) (db_pending w) (db_rows w))
    | inr v =>
      match search_oracle v 5 (6 # 10) with
      | inl e => (Raise e, mkWorld (S (ticks w)) ((trace w ++ [EvEmbed text]) ++ [EvSearch 5 (6 # 10)]) (db_pending w) (db_rows w))
      | inr hits => (Ok (retrieve_update (map example_of hits) (clock (S (ticks w)) - clock (ticks w))%Q),
           mkWorld (S (S (ticks w))) ((trace w ++ [EvEmbed text]) ++ [EvSearch 5 (6 # 10)]) (db_pending w) (db_rows w))
      end
    end.
Proof.
  intros Ht.
  unfold retrieve_node, search_similar, embed_query, client_search, bind, time_time, getitem, as_str, call, log, bind, ret, raise.
  rewrite Ht. cbn.
  destruct (embed_oracle text) as [e|v]; cbn; [reflexivity|].
  destruct (search_oracle v 5 (6 # 10)) as [e|hits]; cbn; reflexivity.
Qed.

Lemma invoke_classifier (s : gmap string value) :
  LangGraph.invoke classifier_graph s
  = two_stage ["messages"] "retrieve" retrieve_node "classify" classify_node s.
Proof.
  reflexivity.
Qed.

End ClassifierRuns.

Section ClassifierTraces.
Import Task1.
Context `{Providers}.

Lemma retrieve_node_ok_inv (s : gmap string value) (w w' : W) upd :
  retrieve_node s w = (Ok upd, w') ->
  exists text v hits,
    s !! "text" = Some (VStr text) /\ embed_oracle text = inr v /\
    search_oracle v 5 (6 # 10) = inr hits /\
    upd = retrieve_update (map example_of hits) (clock (S (ticks w)) - clock (ticks w))%Q /\
    w' = mkWorld (S (S (ticks w))) ((trace w ++ [EvEmbed text]) ++ [EvSearch 5 (6 # 10)]) (db_pending w) (db_rows w).
Proof.
  intros Hrun.
  destruct (s !! "text") as [[| text | | | | |]|] eqn:Ht;
    try (run_node; rewrite Ht in Hrun; cbn in Hrun; discriminate).
  rewrite (retrieve_node_run s text w Ht) in Hrun.
  destruct (embed_oracle text) as [e|v] eqn:He; [discriminate|].
  destruct (search_oracle v 5 (6 # 10)) as [e|hits] eqn:Hs; [discriminate|].
  inversion Hrun; subst. exists text, v, hits. auto.
Qed.

Lemma retrieve_node_trace (s : gmap string value) (w w' : W) r :
  retrieve_node s w = (r, w') ->
  exists evs, trace w' = trace w ++ evs /\ started evs = [] /\ prompts evs = [].
Proof.
  intros Hrun.
  destruct (s !! "text") as [[| text | | | | |]|] eqn:Ht;
    try solve [run_node; rewrite Ht in Hrun; cbn in Hrun; inversion Hrun; subst; exists []; cbn; rewrite app_nil_r; auto].
  rewrite (retrieve_node_run s text w Ht) in Hrun.
  destruct (embed_oracle text) as [e|v] eqn:He.
  { inversion Hrun; subst; cbn. exists [EvEmbed text]. auto. }
  destruct (search_oracle v 5 (6 # 10)) as [e|hits] eqn:Hs;
    inversion Hrun; subst; cbn; exists [EvEmbed text; EvSearch 5 (6 # 10)];
    rewrite <- app_assoc; auto.
Qed.

Lemma classify_node_trace (s : gmap string value) (w w' : W) r :
  classify_node s w = (r, w') ->
  exists evs, trace w' = trace w ++ evs /\ started evs = [].
Proof.
  intros Hrun.
  destruct (s !! "retrieved_examples") as [[| | | | examples | |]|] eqn:Hx;
    try solve [run_node; rewrite Hx in Hrun; cbn in Hrun; inversion Hrun; subst; exists []; cbn; rewrite app_nil_r; auto].
  destruct (s !! "text") as [[| text | | | | |]|] eqn:Ht;
    try solve [run_node; rewrite Hx, Ht in Hrun; cbn in Hrun; inversion Hrun; subst; exists []; cbn; rewrite app_nil_r; auto].
  rewrite (classify_node_run s text examples w Ht Hx) in Hrun.
  inversion Hrun; subst; cbn. eexists; split; [reflexivity|reflexivity].
Qed.

End ClassifierTraces.

(** ** What the nodes of the chatbot do *)

Section ChatbotRuns.
Import Task2.
Context `{Providers}.

Lemma generate_response_node_run (s : gmap string value) history_text user_text (w : World Empty_set) :
  s !! "formatted_history" = Some (VStr history_text) ->
  s !! "user_message" = Some (VStr user_text) ->
  generate_response_node s w =
    (Ok (respond_update (chat_outcome (chat_messages history_text user_text))),
     mkWorld (ticks w) (trace w ++ [EvLLM (chat_messages history_text user_text)])
             (db_pending w) (db_rows w)).
Proof.
  intros Hh Hu. run_node. rewrite Hh, Hu. cbn -[system_prompt].
  unfold chat_outcome. fold (chat_messages history_text user_text).
  destruct (llm_oracle _); reflexivity.
Qed.

Lemma retrieve_context_node_run (s : gmap string value) cid history (w : World Empty_set) :
  s !! "conversation_id" = Some cid ->
  s !! "conversation_history" = Some (VHistory history) ->
  retrieve_context_node s w =
    (Ok [("formatted_history", VStr (format_history history));
         ("messages",
          VMessages [SystemMessage ("Retrieved conversation context ("
                                    +:+ pretty (length history) +:+ " messages)")])],
     w).
Proof.
  intros Hc Hh. run_node. rewrite Hc, Hh. reflexivity.
Qed.

Lemma retrieve_context_node_world (s : gmap string value) r (w w' : World Empty_set) :
  retrieve_context_node s w = (r, w') -> w' = w.
Proof.
  run_node. intros Hrun.
  destruct (s !! "conversation_id"); cbn in Hrun; [|congruence].
  destruct (default (VHistory []) (s !! "conversation_history")); cbn in Hrun; congruence.
Qed.

Lemma generate_response_node_trace (s : gmap string value) r (w w' : World Empty_set) :
  generate_response_node s w = (r, w') ->
  exists evs, trace w' = trace w ++ evs /\ started evs = [].
Proof.
  intros Hrun.
  destruct (s !! "formatted_history") as [[| history_text | | | | |]|] eqn:Hh;
    try solve [run_node; rewrite Hh in Hrun; cbn in Hrun; inversion Hrun; subst;
               exists []; cbn; rewrite app_nil_r; auto].
  destruct (s !! "user_message") as [[| user_text | | | | |]|] eqn:Hu;
    try solve [run_node; rewrite Hh, Hu in Hrun; cbn in Hrun; inversion Hrun; subst;
               exists []; cbn; rewrite app_nil_r; auto].
  rewrite (generate_response_node_run s _ _ w Hh Hu) in Hrun.
  inversion Hrun; subst; cbn. eexists; split; reflexivity.
Qed.

Lemma invoke_chatbot (s : gmap string value) :
  LangGraph.invoke chatbot_graph s
  = two_stage ["messages"] "retrieve_context" retrieve_context_node
              "generate_response" generate_response_node s.
Proof. reflexivity. Qed.

End ChatbotRuns.

(** ** The prompt of the classifier *)

Section ClassifierPrompt.
Import Task1.
Context `{Providers}.


End ClassifierPrompt.

(** ** The fallback of the generation stage *)

Section Fallback.
Context {classifier : Task1.Providers} {chatbot : Task2.Providers}.

(** C1. When the call to the language-model provider raised, or its
    answer is outside the schema, the generation stage does not raise:
    it returns its update.  In the classification variant the update
    holds label 0 with the first category, confidence 0.0 and a reasoning
    that names the failure; in the chat variant it holds the fixed
    apology. *)
Theorem generation_absorbs_provider_failure :
  (forall (s : gmap string value) text examples (w : Task1.W) failure,
     s !! "text" = Some (VStr text) ->
     s !! "retrieved_examples" = Some (VExamples examples) ->
     (Task1.llm_oracle (Task1.classify_messages text examples) = inl failure \/
      exists answer,
        Task1.llm_oracle (Task1.classify_messages text examples) = inr answer /\
        Task1.schema_valid answer = false /\
        failure = PyExc "ValidationError" "validation error for ClassificationResult") ->
     exists upd w' first,
       Task1.classify_node s w = (Ok upd, w') /\
       Task1.settings_categories !! 0%Z = Some first /\
       LangGraph.assoc "predicted_label" upd = Some (VInt 0) /\
       LangGraph.assoc "predicted_category" upd = Some (VStr first) /\
       LangGraph.assoc "confidence" upd = Some (VFloat 0) /\
       LangGraph.assoc "reasoning" upd
         = Some (VStr ("Error during classification: " +:+ str_exn failure)))
  /\
  (forall (s : gmap string value) history_text user_text (w : World Empty_set) failure,
     s !! "formatted_history" = Some (VStr history_text) ->
     s !! "user_message" = Some (VStr user_text) ->
     Task2.llm_oracle (Task2.chat_messages history_text user_text) = inl failure ->
     exists upd w',
       Task2.generate_response_node s w = (Ok upd, w') /\
       LangGraph.assoc "assistant_response" upd
         = Some (VStr "I apologize, but I encountered an error generating a response. Please try again.")).
Proof.
  split.
  - intros s text examples w failure Ht Hx Hfail.
    eexists _, _, "Politics".
    split; [apply (classify_node_run s text examples w Ht Hx)|].
    split; [reflexivity|].
    assert (Task1.outcome (Task1.classify_messages text examples) = Task1.fallback failure)
      as ->.
    { unfold Task1.outcome.
      destruct Hfail as [-> | (answer & -> & -> & ->)]; reflexivity. }
    repeat split.
  - intros s history_text user_text w failure Hh Hu Hfail.
    eexists _, _.
    split; [apply (generate_response_node_run s history_text user_text w Hh Hu)|].
    unfold Task2.chat_outcome. rewrite Hfail. reflexivity.
Qed.

End Fallback.

(** ** Failures of retrieval and invalid requests *)

Section HardFailure.
Import Task1.
Context `{Providers}.

Lemma classify_text_retrieval_fails (request : ClassifyRequest) (include_examples : bool)
    (w : W) (e : exn) :
  retrieval_fails (message request) e ->
  exists evs,
    classify_text request include_examples w =
      (Raise (HTTPException 500 ("Classification failed: " +:+ str_exn e)),
       mkWorld (S (S (ticks w))) (trace w ++ evs) [] (db_rows w)) /\
    (evs = [EvNode "retrieve"; EvEmbed (message request); EvDbRollback] \/
     evs = [EvNode "retrieve"; EvEmbed (message request); EvSearch 5 (6 # 10); EvDbRollback]).
Proof.
  intros Hfail.
  unfold classify_text. rewrite invoke_classifier.
  unfold try_except, two_stage, bind, time_time, log. cbn [ticks trace db_pending db_rows].
  erewrite retrieve_node_run by reflexivity.
  destruct Hfail as [He | (query & He & Hs)].
  - rewrite He. cbn. eexists. split; [|left; reflexivity].
    rewrite <- !app_assoc. reflexivity.
  - rewrite He, Hs. cbn. eexists. split; [|right; reflexivity].
    rewrite <- !app_assoc. reflexivity.
Qed.

End HardFailure.

Section HardFailureTheorems.
Import Task1.
Context `{Providers}.

(** C2. When the embedding provider or the similarity index raises
    during retrieval, the error leaves the graph and ends the request:
    the handler raises the terminal error (HTTP 500) and returns no
    state, the classify node is never started, no prompt is sent to the
    language model, no row is added or committed and the history table
    is unchanged. *)
Theorem retrieval_failure_aborts_run (request : ClassifyRequest) (include_examples : bool)
    (w : W) (e : exn) :
  retrieval_fails (message request) e ->
  exists w' evs,
    classify_text request include_examples w =
      (Raise (HTTPException 500 ("Classification failed: " +:+ str_exn e)), w') /\
    trace w' = trace w ++ evs /\
    started evs = ["retrieve"] /\
    prompts evs = [] /\
    (EvDbAdd ∉ evs) /\ (EvDbCommit ∉ evs) /\
    db_pending w' = [] /\
    db_rows w' = db_rows w /\
    (message_valid (message request) = true ->
     post_classify (message request) include_examples w
       = (HttpError 500 ("Classification failed: " +:+ str_exn e), w')).
Proof.
  intros Hfail.
  destruct (classify_text_retrieval_fails request include_examples w e Hfail)
    as (evs & Hrun & Hevs).
  eexists _, evs. split; [exact Hrun|].
  split; [reflexivity|].
  assert (started evs = ["retrieve"] /\ prompts evs = [] /\ (EvDbAdd ∉ evs) /\ (EvDbCommit ∉ evs))
    as (? & ? & ? & ?).
  { destruct Hevs as [-> | ->]; repeat split; try reflexivity;
      rewrite !elem_of_cons, elem_of_nil; intros Hin; intuition discriminate. }
  repeat (split; [assumption || reflexivity|]).
  intros Hvalid. unfold post_classify, parse_ClassifyRequest.
  rewrite Hvalid. destruct request as [text]. cbn [message] in *.
  rewrite Hrun. reflexivity.
Qed.

(** C9. A request whose text is empty or longer than 10000 characters is
    rejected by validation before the handler runs: the client gets the
    validation error and the world is unchanged, so no node was started,
    no collaborator was called and no row was added or committed. *)
Theorem invalid_request_is_rejected (text : string) (include_examples : bool) (w : W) :
  text = "" \/ (10000 < Z.of_nat (String.length text))%Z ->
  parse_ClassifyRequest text = None /\
  post_classify text include_examples w = (HttpError 422 "Unprocessable Entity", w).
Proof.
  intros Hbad.
  assert (message_valid text = false) as Hinvalid.
  { unfold message_valid. destruct Hbad as [-> | Hlong]; [reflexivity|].
    apply andb_false_iff. right. apply Z.leb_gt. exact Hlong. }
  unfold post_classify, parse_ClassifyRequest. rewrite Hinvalid. split; reflexivity.
Qed.

End HardFailureTheorems.

(** ** Merging an update into the state *)

Section Merge.
Import LangGraph.

Lemma assoc_Some_in {A} (key : string) (l : list (string * A)) (a : A) :
  assoc key l = Some a -> key ∈ map fst l.
Proof.
  induction l as [|[k b] l IH]; simpl; [discriminate|].
  destruct (String.eqb_spec key k) as [-> | Hne]; intros Hl.
  - apply elem_of_cons. left. reflexivity.
  - apply elem_of_cons. right. auto.
Qed.

Lemma write_channel_other (appending : list string) (s : gmap string value)
    (key k : string) (v : value) :
  k <> key -> write_channel appending s (key, v) !! k = s !! k.
Proof.
  intros Hne. unfold write_channel.
  destruct (bool_decide (key ∈ appending)); [destruct (s !! key) as [[]|], v|];
    apply lookup_insert_ne; congruence.
Qed.

Lemma write_channel_overwrite (appending : list string) (s : gmap string value)
    (key : string) (v : value) :
  key ∉ appending -> write_channel appending s (key, v) !! key = Some v.
Proof.
  intros Hout. unfold write_channel.
  rewrite bool_decide_eq_false_2 by exact Hout. apply lookup_insert_eq.
Qed.

Lemma write_channel_append (appending : list string) (s : gmap string value)
    (key : string) (old new : list Message) :
  key ∈ appending -> s !! key = Some (VMessages old) ->
  write_channel appending s (key, VMessages new) !! key = Some (VMessages (old ++ new)).
Proof.
  intros Hin Hold. unfold write_channel.
  rewrite bool_decide_eq_true_2 by exact Hin. rewrite Hold. apply lookup_insert_eq.
Qed.

Lemma apply_update_cons (appending : list string) (s : gmap string value)
    (item : string * value) (upd : Update) :
  apply_update appending s (item :: upd)
  = apply_update appending (write_channel appending s item) upd.
Proof. reflexivity. Qed.

(** A field the update does not name keeps its value. *)
Lemma apply_update_frame (appending : list string) (upd : Update) (s : gmap string value)
    (k : string) :
  k ∉ keys upd -> apply_update appending s upd !! k = s !! k.
Proof.
  revert s. induction upd as [|[key v] upd IH]; intros s Hout; [reflexivity|].
  unfold keys in Hout. rewrite map_cons in Hout. apply not_elem_of_cons in Hout as [Hne Hout].
  rewrite apply_update_cons.
  rewrite IH by exact Hout. apply write_channel_other. exact Hne.
Qed.

(** A field of an overwriting channel holds the value the update gives it. *)
Lemma apply_update_written (appending : list string) (upd : Update) (s : gmap string value)
    (k : string) (v : value) :
  NoDup (keys upd) -> k ∉ appending -> assoc k upd = Some v ->
  apply_update appending s upd !! k = Some v.
Proof.
  revert s. induction upd as [|[key v0] upd IH]; intros s Hnodup Hout Hk; [discriminate|].
  unfold keys in Hnodup. rewrite map_cons in Hnodup. apply NoDup_cons in Hnodup as [Hfresh Hnodup].
  rewrite apply_update_cons.
  cbn [assoc] in Hk. destruct (String.eqb_spec k key) as [-> | Hne].
  - inversion Hk; subst. rewrite apply_update_frame by exact Hfresh.
    apply write_channel_overwrite. exact Hout.
  - apply IH; assumption.
Qed.

(** On an appending channel the messages of the update follow the ones
    already there. *)
Lemma apply_update_appended (appending : list string) (upd : Update) (s : gmap string value)
    (k : string) (old new : list Message) :
  NoDup (keys upd) -> k ∈ appending -> s !! k = Some (VMessages old) ->
  assoc k upd = Some (VMessages new) ->
  apply_update appending s upd !! k = Some (VMessages (old ++ new)).
Proof.
  revert s. induction upd as [|[key v0] upd IH]; intros s Hnodup Hin Hold Hk; [discriminate|].
  unfold keys in Hnodup. rewrite map_cons in Hnodup. apply NoDup_cons in Hnodup as [Hfresh Hnodup].
  rewrite apply_update_cons.
  cbn [assoc] in Hk. destruct (String.eqb_spec k key) as [-> | Hne].
  - inversion Hk; subst. rewrite apply_update_frame by exact Hfresh.
    apply write_channel_append; assumption.
  - apply IH; try assumption. rewrite write_channel_other by exact Hne. exact Hold.
Qed.

End Merge.

(** ** The order of the stages *)

Section Order.
Context {Row : Type}.
Variables (appending : list string) (first_name second_name : string).
Variables (first second : gmap string value -> M Row Update).

Hypothesis first_quiet :
  forall s (w w' : World Row) r, first s w = (r, w') ->
    exists evs, trace w' = trace w ++ evs /\ started evs = [] /\ prompts evs = [].
Hypothesis first_keys :
  forall s (w w' : World Row) upd, first s w = (Ok upd, w') -> NoDup (keys upd).
Hypothesis second_quiet :
  forall s (w w' : World Row) r, second s w = (r, w') ->
    exists evs, trace w' = trace w ++ evs /\ started evs = [].

Lemma two_stage_runs_in_order (g : LangGraph.StateGraph Row) :
  LangGraph.appending g = appending ->
  (forall s, LangGraph.invoke g s = two_stage appending first_name first second_name second s) ->
  runs_in_order g first_name first second_name second.
Proof.
  intros Happ Hinvoke s w w' r Hrun.
  rewrite Hinvoke in Hrun. rewrite Happ. unfold ordered_run.
  unfold two_stage, bind, log, ret in Hrun.
  fold (after_log (EvNode first_name) w) in Hrun.
  destruct (first s (after_log (EvNode first_name) w)) as [r1 w1] eqn:Hfirst.
  destruct (first_quiet _ _ _ _ Hfirst) as (evs1 & Htrace1 & Hstarted1 & Hprompts1).
  exists r1, w1, evs1.
  split; [reflexivity|].
  split; [rewrite Htrace1; cbn; rewrite <- app_assoc; reflexivity|].
  split; [exact Hstarted1|]. split; [exact Hprompts1|].
  destruct r1 as [upd1|e].
  - split.
    + intros k v Hout Hk. apply apply_update_written; eauto.
    + fold (after_log (EvNode second_name) w1) in Hrun.
      destruct (second _ (after_log (EvNode second_name) w1)) as [r2 w2] eqn:Hsecond.
      destruct (second_quiet _ _ _ _ Hsecond) as (evs2 & Htrace2 & Hstarted2).
      assert (w2 = w') as -> by (destruct r2; congruence).
      exists r2, evs2. split; [reflexivity|].
      split; [rewrite Htrace2; cbn; rewrite <- app_assoc; reflexivity|].
      split; [exact Hstarted2|]. destruct r2; congruence.
  - inversion Hrun. auto.
Qed.

End Order.

Lemma retrieve_update_keys (examples : list Example) (t : Q) :
  NoDup (keys (Task1.retrieve_update examples t)).
Proof. apply (bool_decide_unpack _). vm_compute. exact I. Qed.

Section OrderTheorem.
Context {classifier : Task1.Providers} {chatbot : Task2.Providers}.

(** C3. Both graphs run their two stages in the fixed order retrieve then
    generate: the retrieval node is started first; the generation node is
    started only after the retrieval node has returned, on the state into
    which the retrieval update (the retrieved examples, the formatted
    history) has been merged; when retrieval raises, generation is not
    started at all. *)
Theorem stages_run_in_order :
  runs_in_order Task1.classifier_graph "retrieve" Task1.retrieve_node
                "classify" Task1.classify_node /\
  runs_in_order Task2.chatbot_graph "retrieve_context" Task2.retrieve_context_node
                "generate_response" Task2.generate_response_node.
Proof.
  split.
  - apply (two_stage_runs_in_order ["messages"]).
    + intros s w w' r Hrun. eapply retrieve_node_trace. exact Hrun.
    + intros s w w' upd Hrun.
      apply retrieve_node_ok_inv in Hrun as (text & v & hits & _ & _ & _ & -> & _).
      apply retrieve_update_keys.
    + intros s w w' r Hrun. eapply classify_node_trace. exact Hrun.
    + reflexivity.
    + apply invoke_classifier.
  - apply (two_stage_runs_in_order ["messages"]).
    + intros s w w' r Hrun. apply retrieve_context_node_world in Hrun as ->.
      exists []. rewrite app_nil_r. auto.
    + intros s w w' upd Hrun. run_node.
      destruct (s !! "conversation_id"); cbn in Hrun; [|discriminate].
      destruct (default (VHistory []) (s !! "conversation_history")); cbn in Hrun;
        try discriminate.
      inversion Hrun; subst. apply (bool_decide_unpack _). vm_compute. exact I.
    + intros s w w' r Hrun. eapply generate_response_node_trace. exact Hrun.
    + reflexivity.
    + apply invoke_chatbot.
Qed.

End OrderTheorem.

(** ** The fields written by each stage *)

Lemma classify_update_keys (o : Z * string * Q * string) (t : Q) :
  keys (Task1.classify_update o t)
  = ["predicted_label"; "predicted_category"; "confidence"; "reasoning";
     "classification_time"; "messages"].
Proof. destruct o as [[[l c] q] r]. reflexivity. Qed.

Section Frame.
Import Task1.
Context `{Providers}.

Lemma classify_node_ok_inv (s : gmap string value) (w w' : W) upd :
  classify_node s w = (Ok upd, w') ->
  exists text examples,
    s !! "text" = Some (VStr text) /\
    s !! "retrieved_examples" = Some (VExamples examples) /\
    upd = classify_update (outcome (classify_messages text examples))
                          (clock (S (ticks w)) - clock (ticks w))%Q /\
    w' = mkWorld (S (S (ticks w))) (trace w ++ [EvLLM (classify_messages text examples)])
                 (db_pending w) (db_rows w).
Proof.
  intros Hrun.
  destruct (s !! "retrieved_examples") as [[| | | | examples | |]|] eqn:Hx;
    try solve [run_node; rewrite Hx in Hrun; cbn in Hrun; discriminate].
  destruct (s !! "text") as [[| text | | | | |]|] eqn:Ht;
    try solve [run_node; rewrite Hx, Ht in Hrun; cbn in Hrun; discriminate].
  rewrite (classify_node_run s text examples w Ht Hx) in Hrun.
  inversion Hrun; subst. exists text, examples. auto.
Qed.

(** C7, as the code has it.  The retrieval stage writes
    [retrieved_examples], [retrieval_time] and [messages]; the generation
    stage writes [predicted_label], [predicted_category], [confidence],
    [reasoning], [classification_time] and [messages].  [messages] is the
    one field both write, and it is appended to: what was there stays, in
    order.  Every other field has one writer, and at the end of a run
    holds the value its writer returned; a field neither stage names, the
    input [text] among them, is as it was at creation. *)
Theorem fields_have_one_writer_except_messages (s final : gmap string value) (w w' : W) :
  LangGraph.invoke classifier_graph s w = (Ok final, w') ->
  exists upd1 upd2 w1 w2 w3,
    retrieve_node s w1 = (Ok upd1, w2) /\
    classify_node (LangGraph.apply_update ["messages"] s upd1) w3 = (Ok upd2, w') /\
    keys upd1 = ["retrieved_examples"; "retrieval_time"; "messages"] /\
    keys upd2 = ["predicted_label"; "predicted_category"; "confidence"; "reasoning";
                 "classification_time"; "messages"] /\
    (forall k v, k <> "messages" -> LangGraph.assoc k upd1 = Some v -> final !! k = Some v) /\
    (forall k v, k <> "messages" -> LangGraph.assoc k upd2 = Some v -> final !! k = Some v) /\
    (forall k, k ∉ keys upd1 -> k ∉ keys upd2 -> final !! k = s !! k) /\
    final !! "text" = s !! "text" /\
    (forall old, s !! "messages" = Some (VMessages old) ->
       exists m1 m2,
         LangGraph.assoc "messages" upd1 = Some (VMessages [m1]) /\
         LangGraph.assoc "messages" upd2 = Some (VMessages [m2]) /\
         final !! "messages" = Some (VMessages (old ++ [m1; m2]))).
Proof.
  intros Hrun. rewrite invoke_classifier in Hrun.
  unfold two_stage, bind, log, ret in Hrun.
  match type of Hrun with context [retrieve_node s ?w0] =>
    destruct (retrieve_node s w0) as [[upd1|e] w1] eqn:Hretrieve; [|discriminate];
    exists upd1; pose proof Hretrieve as Hfirst
  end.
  apply retrieve_node_ok_inv in Hretrieve as (text & query & hits & Ht & _ & _ & Hupd1 & _).
  match type of Hrun with context [classify_node ?s1 ?w0] =>
    destruct (classify_node s1 w0) as [[upd2|e] w2] eqn:Hclassify; [|discriminate];
    exists upd2; pose proof Hclassify as Hsecond
  end.
  apply classify_node_ok_inv in Hclassify as (text' & examples & _ & _ & Hupd2 & _).
  inversion Hrun as [[Hfinal Hw]]. clear Hrun. rewrite Hw in Hsecond.
  assert (keys upd1 = ["retrieved_examples"; "retrieval_time"; "messages"]) as Hk1
    by (rewrite Hupd1; reflexivity).
  assert (keys upd2 = ["predicted_label"; "predicted_category"; "confidence"; "reasoning";
                       "classification_time"; "messages"]) as Hk2
    by (rewrite Hupd2; apply classify_update_keys).
  assert (NoDup (keys upd1)) as Hnd1
    by (rewrite Hk1; apply (bool_decide_unpack _); vm_compute; exact I).
  assert (NoDup (keys upd2)) as Hnd2
    by (rewrite Hk2; apply (bool_decide_unpack _); vm_compute; exact I).
  assert (forall k, k <> "messages" -> k ∉ ["messages"]) as Hout
    by (intros k Hne Hin; apply list_elem_of_singleton in Hin; contradiction).
  eexists _, _, _. split; [exact Hfirst|]. split; [exact Hsecond|].
  split; [exact Hk1|]. split; [exact Hk2|].
  split; [|split; [|split; [|split]]].
  - intros k v Hne Hk.
    rewrite apply_update_frame.
    + apply apply_update_written; auto.
    + apply assoc_Some_in in Hk. fold (keys upd1) in Hk. rewrite Hk1 in Hk. rewrite Hk2.
      intros Hin. revert Hk Hin. rewrite !elem_of_cons, !elem_of_nil.
      intros Hk Hin. destruct Hk as [-> | [-> | [-> | []]]]; intuition discriminate.
  - intros k v Hne Hk. apply apply_update_written; auto.
  - intros k Hk1' Hk2'. rewrite !apply_update_frame by assumption. reflexivity.
  - rewrite !apply_update_frame; [reflexivity| |].
    + rewrite Hk1, !elem_of_cons, elem_of_nil. intuition discriminate.
    + rewrite Hk2, !elem_of_cons, elem_of_nil. intuition discriminate.
  - intros old Hold. rewrite Hupd1, Hupd2.
    destruct (outcome _) as [[[l c] q] r]. eexists _, _.
    split; [reflexivity|]. split; [reflexivity|].
    match goal with
    | |- _ = Some (VMessages (old ++ [?a; ?b])) =>
        change (old ++ [a; b]) with (old ++ [a] ++ [b]); rewrite (app_assoc old [a] [b])
    end.
    apply apply_update_appended.
    + apply (bool_decide_unpack _); vm_compute; exact I.
    + apply list_elem_of_singleton. reflexivity.
    + apply apply_update_appended.
      * apply (bool_decide_unpack _); vm_compute; exact I.
      * apply list_elem_of_singleton. reflexivity.
      * exact Hold.
      * reflexivity.
    + reflexivity.
Qed.

(** The clock readings of a run: the generation stage takes its start
    reading after the retrieval stage has taken its end reading, so with
    a clock that does not go back generation starts no earlier than
    retrieval ends. *)
Lemma generation_starts_after_retrieval_ends (s final : gmap string value) (w w' : W) :
  LangGraph.invoke classifier_graph s w = (Ok final, w') ->
  final !! "retrieval_time" = Some (VFloat (clock (S (ticks w)) - clock (ticks w))%Q) /\
  final !! "classification_time"
    = Some (VFloat (clock (S (S (S (ticks w)))) - clock (S (S (ticks w))))%Q) /\
  ((forall m n, m <= n -> (clock m <= clock n)%Q) ->
   (clock (S (ticks w)) <= clock (S (S (ticks w))))%Q).
Proof.
  intros Hrun. rewrite invoke_classifier in Hrun.
  unfold two_stage, bind, log, ret in Hrun.
  match type of Hrun with context [retrieve_node s ?w0] =>
    destruct (retrieve_node s w0) as [[upd1|e] w1] eqn:Hretrieve; [|discriminate]
  end.
  apply retrieve_node_ok_inv in Hretrieve as (text & query & hits & _ & _ & _ & Hupd1 & Hw1).
  match type of Hrun with context [classify_node ?s1 ?w0] =>
    destruct (classify_node s1 w0) as [[upd2|e] w2] eqn:Hclassify; [|discriminate]
  end.
  apply classify_node_ok_inv in Hclassify as (text' & examples & _ & _ & Hupd2 & _).
  inversion Hrun as [[Hfinal Hw]]. clear Hrun Hfinal.
  rewrite Hupd1, Hupd2, Hw1. cbn [ticks].
  destruct (outcome _) as [[[l c] q] r].
  split; [|split].
  - rewrite apply_update_frame.
    + apply apply_update_written; [apply retrieve_update_keys| |reflexivity].
      rewrite list_elem_of_singleton. discriminate.
    + unfold keys. cbn. rewrite !elem_of_cons, elem_of_nil. intuition discriminate.
  - apply apply_update_written; [| |reflexivity].
    + apply (bool_decide_unpack _); vm_compute; exact I.
    + rewrite list_elem_of_singleton. discriminate.
  - intros Hmonotone. apply Hmonotone. lia.
Qed.

End Frame.


(** ** A run whose retrieval succeeds *)

Section FullRun.
Import Task1.
Context `{Providers}.

Lemma invoke_classifier_ok (s : gmap string value) (text : string) (query : list Q)
    (hits : list ScoredPoint) (w : W) :
  s !! "text" = Some (VStr text) ->
  embed_oracle text = inr query ->
  search_oracle query 5 (6 # 10) = inr hits ->
  exists retrieval_time classification_time,
    LangGraph.invoke classifier_graph s w =
      (Ok (LangGraph.apply_update ["messages"]
             (LangGraph.apply_update ["messages"] s
                (retrieve_update (map example_of hits) retrieval_time))
             (classify_update (outcome (classify_messages text (map example_of hits)))
                              classification_time)),
       mkWorld (S (S (S (S (ticks w)))))
               (trace w ++
                [EvNode "retrieve"; EvEmbed text; EvSearch 5 (6 # 10); EvNode "classify";
                 EvLLM (classify_messages text (map example_of hits))])
               (db_pending w) (db_rows w)).
Proof.
  intros Ht He Hs.
  rewrite invoke_classifier. unfold two_stage, bind, log, ret.
  rewrite (retrieve_node_run s text _ Ht), He, Hs.
  cbn [ticks trace db_pending db_rows].
  match goal with
  | |- context [classify_node ?s1 ?w1] =>
      assert (s1 !! "text" = Some (VStr text)) as Ht1;
      [|assert (s1 !! "retrieved_examples" = Some (VExamples (map example_of hits))) as Hx1;
        [|rewrite (classify_node_run s1 text (map example_of hits) w1 Ht1 Hx1)]]
  end.
  - rewrite apply_update_frame; [exact Ht|].
    unfold keys. cbn. rewrite !elem_of_cons, elem_of_nil. intuition discriminate.
  - apply apply_update_written; [apply retrieve_update_keys| |reflexivity].
    rewrite list_elem_of_singleton. discriminate.
  - eexists _, _. cbn [ticks trace db_pending db_rows].
    rewrite <- !app_assoc. reflexivity.
Qed.

End FullRun.

(** ** A request whose retrieval succeeds *)

Section Success.
Import Task1.
Context `{Providers}.


End Success.

(** ** Retrieval that finds nothing *)

Section EmptyRetrieval.
Import Task1.
Context `{Providers}.


End EmptyRetrieval.

(** ** The context of the chatbot *)




Section ChatContext.
Import Task2.


End ChatContext.

(** ** The reference index honours the contract *)

Section ReferenceIndex.
Import Task1 Reference.


Lemma rank_insert_Forall (P : ScoredPoint -> Prop) (hit : ScoredPoint)
    (ranked : list ScoredPoint) :
  P hit -> Forall P ranked -> Forall P (rank_insert hit ranked).
Proof.
  intros Hhit Hall. induction Hall as [|other rest Hother Hrest IH]; simpl.
  - constructor; [exact Hhit | constructor].
  - destruct (Qle_bool (sp_score other) (sp_score hit)).
    + constructor; [exact Hhit|]. constructor; assumption.
    + constructor; assumption.
Qed.

Lemma rank_Forall (P : ScoredPoint -> Prop) (hits : list ScoredPoint) :
  Forall P hits -> Forall P (rank hits).
Proof.
  intros Hall. induction Hall as [|hit rest Hhit Hrest IH]; simpl.
  - constructor.
  - apply rank_insert_Forall; assumption.
Qed.



Lemma Forall_list_filter {A} (P : A -> Prop) (f : A -> bool) (l : list A) :
  Forall P l -> Forall P (List.filter f l).
Proof.
  intros Hall. induction Hall as [|x l Hx Hl IH]; simpl; [constructor|].
  destruct (f x); [constructor|]; assumption.
Qed.






End ReferenceIndex.

(** ** What retrieval returns *)

Section Retrieval.
Import Task1.
Context `{Providers}.




End Retrieval.

(** ** The properties on concrete collaborators *)




Lemma retrieval_failure_aborts_run_witness :
  exists w' evs,
    Task1.classify_text (H := Demo.embedding_down) (Task1.mkRequest Demo.article) false Demo.fresh =
      (Raise (HTTPException 500 ("Classification failed: " +:+ "Connection error.")), w') /\
    trace w' = trace Demo.fresh ++ evs /\
    started evs = ["retrieve"] /\
    prompts evs = [] /\
    (EvDbAdd ∉ evs) /\ (EvDbCommit ∉ evs) /\
    db_pending w' = [] /\
    db_rows w' = db_rows Demo.fresh /\
    (Task1.message_valid Demo.article = true ->
     Task1.post_classify (H := Demo.embedding_down) Demo.article false Demo.fresh
       = (Task1.HttpError 500 ("Classification failed: " +:+ "Connection error."), w')).
Proof.
  apply (retrieval_failure_aborts_run (H := Demo.embedding_down) (Task1.mkRequest Demo.article)
           false Demo.fresh (PyExc "APIConnectionError" "Connection error.")).
  left. reflexivity.
Defined.

Lemma invalid_request_is_rejected_witness :
  Task1.parse_ClassifyRequest "" = None /\
  Task1.post_classify (H := Demo.healthy) "" true Demo.fresh
    = (Task1.HttpError 422 "Unprocessable Entity", Demo.fresh).
Proof.
  apply (invalid_request_is_rejected (H := Demo.healthy) "" true Demo.fresh).
  left. reflexivity.
Defined.

Lemma generation_absorbs_provider_failure_witness :
  (exists upd w' first,
     Task1.classify_node (H := Demo.llm_down) Demo.initial_state Demo.fresh = (Ok upd, w') /\
     Task1.settings_categories !! 0%Z = Some first /\
     LangGraph.assoc "predicted_label" upd = Some (VInt 0) /\
     LangGraph.assoc "predicted_category" upd = Some (VStr first) /\
     LangGraph.assoc "confidence" upd = Some (VFloat 0) /\
     LangGraph.assoc "reasoning" upd
       = Some (VStr ("Error during classification: " +:+ "Request timed out.")))
  /\
  (exists upd w',
     Task2.generate_response_node (H := Demo.chat_down) DemoChat.initial_state Demo.fresh_chat
       = (Ok upd, w') /\
     LangGraph.assoc "assistant_response" upd
       = Some (VStr "I apologize, but I encountered an error generating a response. Please try again.")).
Proof.
  destruct (@generation_absorbs_provider_failure Demo.llm_down Demo.chat_down) as [Hc Hb].
  split.
  - apply (Hc Demo.initial_state Demo.article [] Demo.fresh
              (PyExc "APITimeoutError" "Request timed out."));
      [reflexivity | reflexivity | left; reflexivity].
  - apply (Hb DemoChat.initial_state "" "Hello! How are you?" Demo.fresh_chat
              (PyExc "RateLimitError" "Rate limit reached."));
      reflexivity.
Defined.

Lemma stages_run_in_order_witness :
  exists r w',
    LangGraph.invoke (Task1.classifier_graph (H := Demo.healthy)) Demo.initial_state Demo.fresh
      = (r, w') /\
    ordered_run ["messages"] "retrieve" (Task1.retrieve_node (H := Demo.healthy))
                "classify" (Task1.classify_node (H := Demo.healthy))
                Demo.initial_state Demo.fresh r w'.
Proof.
  destruct (LangGraph.invoke (Task1.classifier_graph (H := Demo.healthy)) Demo.initial_state
              Demo.fresh) as [r w'] eqn:Hrun.
  exists r, w'. split; [reflexivity|].
  apply (proj1 (@stages_run_in_order Demo.healthy Demo.chat_up)). exact Hrun.
Defined.




Lemma fields_have_one_writer_except_messages_witness :
  exists final w' upd1 upd2,
    LangGraph.invoke (Task1.classifier_graph (H := Demo.healthy)) Demo.initial_state Demo.fresh
      = (Ok final, w') /\
    keys upd1 = ["retrieved_examples"; "retrieval_time"; "messages"] /\
    keys upd2 = ["predicted_label"; "predicted_category"; "confidence"; "reasoning";
                 "classification_time"; "messages"] /\
    final !! "text" = Demo.initial_state !! "text" /\
    exists m1 m2, final !! "messages" = Some (VMessages ([] ++ [m1; m2])).
Proof.
  destruct (invoke_classifier_ok (H := Demo.healthy) Demo.initial_state Demo.article
              (Demo.embed Demo.article)
              (Reference.search Demo.points (Demo.embed Demo.article) 5 (6 # 10)) Demo.fresh
              eq_refl eq_refl eq_refl) as (t1 & t2 & Hrun).
  destruct (fields_have_one_writer_except_messages (H := Demo.healthy) _ _ _ _ Hrun)
    as (upd1 & upd2 & w1 & w2 & w3 & _ & _ & Hk1 & Hk2 & _ & _ & _ & Htext & Hmessages).
  destruct (Hmessages [] eq_refl) as (m1 & m2 & _ & _ & Hfinal).
  eexists _, _, upd1, upd2. split; [exact Hrun|].
  split; [exact Hk1|]. split; [exact Hk2|]. split; [exact Htext|].
  exists m1, m2. exact Hfinal.
Defined.


(** The formatted context of the twelve-message conversation: the first
    two messages are gone. *)
Example twelve_messages_context :
  Task2.format_history DemoChat.history
  = join nl ["User: three"; "Assistant: four"; "User: five"; "Assistant: six";
             "User: seven"; "Assistant: eight"; "User: nine"; "Assistant: ten";
             "User: eleven"; "Assistant: twelve"].
Proof. vm_compute. reflexivity. Qed.

(** C7 as stated fails: on the run of the demonstration article the
    retrieval stage also writes [messages], outside its two fields, and so
    does the generation stage: [messages] has two writers. *)
Lemma messages_has_two_writers :
  exists upd1 w1 upd2 w2,
    Task1.retrieve_node (H := Demo.healthy) Demo.initial_state Demo.fresh = (Ok upd1, w1) /\
    Task1.classify_node (H := Demo.healthy)
      (LangGraph.apply_update ["messages"] Demo.initial_state upd1) w1 = (Ok upd2, w2) /\
    ~ writes_only upd1 ["retrieved_examples"; "retrieval_time"] /\
    ~ writes_only upd2 ["predicted_label"; "predicted_category"; "confidence"; "reasoning";
                        "classification_time"] /\
    "messages" ∈ keys upd1 /\ "messages" ∈ keys upd2.
Proof.
  eexists _, _, _, _.
  split; [apply (retrieve_node_run (H := Demo.healthy)); reflexivity|].
  cbn match.
  split.
  { apply (classify_node_run (H := Demo.healthy)).
    - rewrite apply_update_frame; [reflexivity|].
      unfold keys. cbn. rewrite !elem_of_cons, elem_of_nil. intuition discriminate.
    - apply apply_update_written; [apply retrieve_update_keys| |reflexivity].
      rewrite list_elem_of_singleton. discriminate. }
  assert (forall o t, "messages" ∈ keys (Task1.classify_update o t)) as Hin2.
  { intros o t. rewrite classify_update_keys. rewrite !elem_of_cons. auto 10. }
  assert (forall exs t, "messages" ∈ keys (Task1.retrieve_update exs t)) as Hin1.
  { intros exs t. unfold keys. cbn. rewrite !elem_of_cons. auto. }
  split; [|split; [|split]].
  - intros Hw. specialize (Hw "messages" (Hin1 _ _)).
    revert Hw. rewrite !elem_of_cons, elem_of_nil. intuition discriminate.
  - intros Hw. specialize (Hw "messages" (Hin2 _ _)).
    revert Hw. rewrite !elem_of_cons, elem_of_nil. intuition discriminate.
  - apply Hin1.
  - apply Hin2.
Qed.

(** * Further properties of the classifier service *)

Section RequestOutcome.
Import Task1.
Context `{Providers}.

(** The closed form of a request whose retrieval succeeds. *)
Lemma classify_text_success (request : ClassifyRequest) (include_examples : bool)
    (query : list Q) (hits : list ScoredPoint) (w : W) :
  embed_oracle (message request) = inr query ->
  search_oracle query 5 (6 # 10) = inr hits ->
  db_pending w = [] ->
  exists retrieval_ms classification_ms total_ms,
    classify_text request include_examples w =
      (let examples := map example_of hits in
       let '(l, c, q, r) := outcome (classify_messages (message request) examples) in
       (Ok (mkResponse (VInt l) (VStr c) (VFloat q) (VStr r) (message request)
              (if include_examples then Some (map RetrievedExample_of examples) else None)
              retrieval_ms classification_ms),
        mkWorld (S (S (S (S (S (S (ticks w)))))))
          (trace w ++
           [EvNode "retrieve"; EvEmbed (message request); EvSearch 5 (6 # 10);
            EvNode "classify"; EvLLM (classify_messages (message request) examples);
            EvDbAdd; EvDbCommit])
          []
          (db_rows w ++
           [mkHistory (Some (Z.of_nat (length (db_rows w)) + 1)%Z) (message request)
              (VInt l) (VStr c) (VFloat q) (VStr r) (VExamples examples) (length examples)
              "gpt-4.1" "v1.0" retrieval_ms classification_ms total_ms]))).
Proof.
  intros He Hs Hpending.
  unfold classify_text, try_except, bind at 1, time_time at 1.
  unfold bind at 1.
  match goal with
  | |- context [LangGraph.invoke classifier_graph ?s0 ?w0] =>
      destruct (invoke_classifier_ok s0 (message request) query hits w0 eq_refl He Hs)
        as (t1 & t2 & Hrun); rewrite Hrun; clear Hrun
  end.
  destruct (outcome (classify_messages (message request) (map example_of hits)))
    as [[[l c] q] r].
  set (final := LangGraph.apply_update ["messages"]
                  (LangGraph.apply_update ["messages"] _ _) _).
  assert (final !! "retrieved_examples" = Some (VExamples (map example_of hits))
          /\ final !! "retrieval_time" = Some (VFloat t1)
          /\ final !! "classification_time" = Some (VFloat t2)
          /\ final !! "predicted_label" = Some (VInt l)
          /\ final !! "predicted_category" = Some (VStr c)
          /\ final !! "confidence" = Some (VFloat q)
          /\ final !! "reasoning" = Some (VStr r))
    as (Hx & Hrt & Hct & Hl & Hc & Hq & Hr); [unfold final|clearbody final].
  { assert (NoDup (keys (classify_update (l, c, q, r) t2))) as Hnd
      by (apply (bool_decide_unpack _); vm_compute; exact I).
    assert (forall k v, k ∉ keys (classify_update (l, c, q, r) t2) ->
              LangGraph.assoc k (retrieve_update (map example_of hits) t1) = Some v ->
              k <> "messages" ->
              LangGraph.apply_update ["messages"]
                (LangGraph.apply_update ["messages"]
                   (list_to_map
                      [("text", VStr (message request)); ("messages", VMessages []);
                       ("retrieved_examples", VExamples []);
                       ("predicted_label", VNone); ("predicted_category", VNone);
                       ("confidence", VNone); ("reasoning", VNone);
                       ("retrieval_time", VFloat 0); ("classification_time", VFloat 0)])
                   (retrieve_update (map example_of hits) t1))
                (classify_update (l, c, q, r) t2) !! k = Some v) as Hfirst.
    { intros k v Hout Hk Hne. rewrite apply_update_frame by exact Hout.
      apply apply_update_written; [apply retrieve_update_keys| |exact Hk].
      rewrite list_elem_of_singleton. exact Hne. }
    repeat split;
      try (apply Hfirst; [|reflexivity|discriminate];
           unfold keys; cbn; rewrite !elem_of_cons, elem_of_nil; intuition discriminate);
      (apply apply_update_written;
       [exact Hnd | rewrite list_elem_of_singleton; discriminate | reflexivity]). }
  unfold bind, time_time, to_ms, get_or, getitem, as_examples, db_add, db_commit, ret, raise.
  rewrite Hx, Hrt, Hct, Hl, Hc, Hq, Hr.
  cbn [default ticks trace db_pending db_rows response_valid].
  rewrite Hpending.
  destruct include_examples; cbn [default ticks trace db_pending db_rows app flush with_id
    h_text h_predicted_label h_predicted_category h_confidence h_reasoning
    h_retrieved_examples h_num_retrieved_examples h_model_used h_graph_version
    h_retrieval_time_ms h_classification_time_ms h_total_time_ms];
    eexists _, _, _; cbn -[classify_messages int_of_float Qmult Qminus];
    rewrite <- !app_assoc; reflexivity.
Qed.

End RequestOutcome.

Section RequestCases.
Import Task1.
Context `{Providers}.

(** The three ways a request can end, in closed form. *)
Lemma post_classify_cases (text : string) (include_examples : bool) (w : W) :
  db_pending w = [] ->
  (message_valid text = false /\
   post_classify text include_examples w = (HttpError 422 "Unprocessable Entity", w))
  \/
  (message_valid text = true /\
   exists e w',
     retrieval_fails text e /\
     post_classify text include_examples w
       = (HttpError 500 ("Classification failed: " +:+ str_exn e), w') /\
     db_rows w' = db_rows w /\ db_pending w' = [])
  \/
  (message_valid text = true /\
   exists query hits retrieval_ms classification_ms total_ms l c q r,
     embed_oracle text = inr query /\
     search_oracle query 5 (6 # 10) = inr hits /\
     outcome (classify_messages text (map example_of hits)) = (l, c, q, r) /\
     post_classify text include_examples w =
       (Http200
          (mkResponse (VInt l) (VStr c) (VFloat q) (VStr r) text
             (if include_examples
              then Some (map RetrievedExample_of (map example_of hits)) else None)
             retrieval_ms classification_ms),
        mkWorld (S (S (S (S (S (S (ticks w)))))))
          (trace w ++
           [EvNode "retrieve"; EvEmbed text; EvSearch 5 (6 # 10);
            EvNode "classify"; EvLLM (classify_messages text (map example_of hits));
            EvDbAdd; EvDbCommit])
          []
          (db_rows w ++
           [mkHistory (Some (Z.of_nat (length (db_rows w)) + 1)%Z) text
              (VInt l) (VStr c) (VFloat q) (VStr r) (VExamples (map example_of hits))
              (length (map example_of hits))
              "gpt-4.1" "v1.0" retrieval_ms classification_ms total_ms]))).
Proof.
  intros Hpending. unfold post_classify, parse_ClassifyRequest.
  destruct (message_valid text) eqn:Hvalid; [right|left; auto].
  destruct (embed_oracle text) as [e|query] eqn:He.
  { left. split; [reflexivity|].
    destruct (classify_text_retrieval_fails (mkRequest text) include_examples w e
                (or_introl He)) as (evs & Hrun & _).
    rewrite Hrun. exists e. eexists. split; [left; exact He|]. repeat split; reflexivity. }
  destruct (search_oracle query 5 (6 # 10)) as [e|hits] eqn:Hs.
  { left. split; [reflexivity|].
    destruct (classify_text_retrieval_fails (mkRequest text) include_examples w e)
      as (evs & Hrun & _).
    { right. exists query. auto. }
    rewrite Hrun. exists e. eexists. split; [right; exists query; auto|].
    repeat split; reflexivity. }
  right. split; [reflexivity|].
  destruct (classify_text_success (mkRequest text) include_examples query hits w He Hs Hpending)
    as (rt & ct & tt & Hrun).
  rewrite Hrun. cbn [message].
  destruct (outcome _) as [[[l c] q] r] eqn:Hout.
  exists query, hits, rt, ct, tt, l, c, q, r. auto.
Qed.

End RequestCases.

Section RequestProperties.
Import Task1.
Context `{Providers}.

(** X1. Whatever the provider answers, the label written by the classify
    node is an integer of 0..4 and the confidence a number of [0, 1]:
    an answer within the schema has them by validation, and the fallback
    values are 0 and 0.0. *)
Theorem classify_output_within_schema (s : gmap string value) (text : string)
    (examples : list Example) (w : W) :
  s !! "text" = Some (VStr text) ->
  s !! "retrieved_examples" = Some (VExamples examples) ->
  exists upd w' predicted_label confidence,
    classify_node s w = (Ok upd, w') /\
    LangGraph.assoc "predicted_label" upd = Some (VInt predicted_label) /\
    LangGraph.assoc "confidence" upd = Some (VFloat confidence) /\
    (0 <= predicted_label <= 4)%Z /\
    (0 <= confidence)%Q /\ (confidence <= 1)%Q.
Proof.
  intros Ht Hx.
  assert (forall e, fallback e = (0%Z, "Politics", 0%Q,
                                  "Error during classification: " +:+ str_exn e)) as Hfb
    by reflexivity.
  destruct (outcome (classify_messages text examples)) as [[[l c] q] r] eqn:Hout.
  eexists _, _, l, q.
  split; [apply (classify_node_run s text examples w Ht Hx)|].
  rewrite Hout. split; [reflexivity|]. split; [reflexivity|].
  unfold outcome in Hout.
  destruct (llm_oracle (classify_messages text examples)) as [e|answer].
  - rewrite Hfb in Hout. inversion Hout; subst. repeat split; try lia; discriminate.
  - destruct (schema_valid answer) eqn:Hvalid.
    + inversion Hout; subst. unfold schema_valid in Hvalid.
      apply andb_prop in Hvalid as [Hvalid Hq1].
      apply andb_prop in Hvalid as [Hvalid Hq0].
      apply andb_prop in Hvalid as [Hl0 Hl4].
      apply Z.leb_le in Hl0, Hl4. apply Qle_bool_iff in Hq0, Hq1. auto.
    + rewrite Hfb in Hout. inversion Hout; subst. repeat split; try lia; discriminate.
Qed.

(** X2. A request ends in exactly one of three ways: it is invalid and
    answered 422 with nothing done; its retrieval fails and it is
    answered 500 with the history table unchanged; or it is answered 200
    and exactly one row, numbered after the rows already there, is added
    to the history table.  A failure of the language model is never an
    error response.  (The session of the model stores every row it is
    given.) *)
Theorem request_has_three_outcomes (text : string) (include_examples : bool) (w : W) :
  db_pending w = [] ->
  (message_valid text = false /\
   post_classify text include_examples w = (HttpError 422 "Unprocessable Entity", w))
  \/
  (message_valid text = true /\
   exists e w',
     retrieval_fails text e /\
     post_classify text include_examples w
       = (HttpError 500 ("Classification failed: " +:+ str_exn e), w') /\
     db_rows w' = db_rows w /\ db_pending w' = [])
  \/
  (message_valid text = true /\
   exists response row w',
     post_classify text include_examples w = (Http200 response, w') /\
     db_rows w' = db_rows w ++ [row] /\ db_pending w' = [] /\
     h_id row = Some (Z.of_nat (length (db_rows w)) + 1)%Z /\
     h_text row = text).
Proof.
  intros Hpending.
  destruct (post_classify_cases text include_examples w Hpending)
    as [Hinvalid | [Hfailed | (Hvalid & query & hits & rt & ct & tt & l & c & q & r
                               & _ & _ & _ & Hrun)]].
  - left. exact Hinvalid.
  - right. left. exact Hfailed.
  - right. right. split; [exact Hvalid|]. rewrite Hrun.
    eexists _, _, _. repeat split; reflexivity.
Qed.

(** X3. Degraded success: when retrieval succeeds and the call to the
    language model fails, the request is still answered 200, with label
    0, the first category, confidence 0.0 and the diagnostic as
    reasoning, and the row added to the history table holds the same
    four values. *)
Theorem llm_failure_is_answered_and_recorded (text : string) (include_examples : bool)
    (query : list Q) (hits : list ScoredPoint) (failure : exn) (w : W) :
  message_valid text = true ->
  db_pending w = [] ->
  embed_oracle text = inr query ->
  search_oracle query 5 (6 # 10) = inr hits ->
  llm_oracle (classify_messages text (map example_of hits)) = inl failure ->
  exists response row w',
    post_classify text include_examples w = (Http200 response, w') /\
    db_rows w' = db_rows w ++ [row] /\
    (r_predicted_label response, r_predicted_category response,
     r_confidence response, r_reasoning response)
    = (VInt 0, VStr "Politics", VFloat 0,
       VStr ("Error during classification: " +:+ str_exn failure)) /\
    (h_predicted_label row, h_predicted_category row, h_confidence row, h_reasoning row)
    = (VInt 0, VStr "Politics", VFloat 0,
       VStr ("Error during classification: " +:+ str_exn failure)).
Proof.
  intros Hvalid Hpending He Hs Hllm.
  unfold post_classify, parse_ClassifyRequest. rewrite Hvalid.
  destruct (classify_text_success (mkRequest text) include_examples query hits w He Hs Hpending)
    as (rt & ct & tt & Hrun).
  rewrite Hrun. cbn [message]. unfold outcome. rewrite Hllm. unfold fallback.
  eexists _, _, _. repeat split; reflexivity.
Qed.

(** X4. The retrieved examples are in the response only when asked for:
    without [include_examples] the field is absent; with it, it lists one
    entry per hit of the index, in order, each with the text, label and
    category of the hit's payload and the hit's score. *)
Theorem include_examples_controls_payload (text : string) (include_examples : bool)
    (query : list Q) (hits : list ScoredPoint) (w : W) :
  message_valid text = true ->
  db_pending w = [] ->
  embed_oracle text = inr query ->
  search_oracle query 5 (6 # 10) = inr hits ->
  exists response w',
    post_classify text include_examples w = (Http200 response, w') /\
    r_retrieved_examples response =
      (if include_examples
       then Some (map (fun hit => mkRetrievedExample (p_text (sp_payload hit))
                                    (p_label (sp_payload hit))
                                    (p_category (sp_payload hit)) (sp_score hit)) hits)
       else None).
Proof.
  intros Hvalid Hpending He Hs.
  unfold post_classify, parse_ClassifyRequest. rewrite Hvalid.
  destruct (classify_text_success (mkRequest text) include_examples query hits w He Hs Hpending)
    as (rt & ct & tt & Hrun).
  rewrite Hrun. cbn [message]. destruct (outcome _) as [[[l c] q] r].
  eexists _, _. split; [reflexivity|]. cbn [r_retrieved_examples].
  destruct include_examples; [|reflexivity].
  rewrite map_map. reflexivity.
Qed.

(** X5. A request whose retrieval succeeds calls each collaborator
    exactly once, in this order: one embedding of the text, one search of
    the index with limit 5 and threshold 0.6, one prompt to the language
    model, then one [db.add] and one [db.commit]; it never rolls back and
    never retries. *)
Theorem one_call_per_collaborator (text : string) (include_examples : bool)
    (query : list Q) (hits : list ScoredPoint) (w : W) :
  db_pending w = [] ->
  embed_oracle text = inr query ->
  search_oracle query 5 (6 # 10) = inr hits ->
  exists response w',
    classify_text (mkRequest text) include_examples w = (Ok response, w') /\
    trace w' = trace w ++
      [EvNode "retrieve"; EvEmbed text; EvSearch 5 (6 # 10); EvNode "classify";
       EvLLM (classify_messages text (map example_of hits)); EvDbAdd; EvDbCommit].
Proof.
  intros Hpending He Hs.
  destruct (classify_text_success (mkRequest text) include_examples query hits w He Hs Hpending)
    as (rt & ct & tt & Hrun).
  rewrite Hrun. cbn [message]. destruct (outcome _) as [[[l c] q] r].
  eexists _, _. split; reflexivity.
Qed.

End RequestProperties.

(** ** The history endpoint *)

Section HistoryPages.
Import Task1 History.

Lemma validate_all_app (rows1 rows2 : list ClassificationHistory) :
  validate_all (rows1 ++ rows2)
  = match validate_all rows1, validate_all rows2 with
    | Some records1, Some records2 => Some (records1 ++ records2)
    | _, _ => None
    end.
Proof.
  induction rows1 as [|row rows1 IH]; simpl.
  - destruct (validate_all rows2); reflexivity.
  - rewrite IH. destruct (model_validate row); [|reflexivity].
    destruct (validate_all rows1); [|reflexivity].
    destruct (validate_all rows2); reflexivity.
Qed.


Lemma validate_all_valid (rows : list ClassificationHistory) :
  Forall (fun row => is_Some (model_validate row)) rows ->
  is_Some (validate_all rows).
Proof.
  intros Hall. induction Hall as [|row rows [record Hrow] Hrows [records IH]]; simpl.
  - eauto.
  - rewrite Hrow, IH. eauto.
Qed.

Lemma table_ok_valid (rows : list ClassificationHistory) :
  table_ok rows -> Forall (fun row => is_Some (model_validate row)) rows.
Proof.
  intros Hok. apply Forall_lookup. intros i row Hrow. apply (Hok i row Hrow).
Qed.

Lemma page_valid (skip limit : nat) (rows : list ClassificationHistory) :
  table_ok rows -> is_Some (validate_all (page skip limit rows)).
Proof.
  intros Hok. apply validate_all_valid. unfold page.
  apply Forall_take, Forall_drop, Forall_rev, table_ok_valid, Hok.
Qed.

Lemma page_app (skip limit1 limit2 : nat) (rows : list ClassificationHistory) :
  page skip (limit1 + limit2) rows = page skip limit1 rows ++ page (skip + limit1) limit2 rows.
Proof.
  unfold page. rewrite <- drop_drop. symmetry. apply take_take_drop.
Qed.

Lemma get_history_run (skip limit : nat) (w : W) :
  table_ok (db_rows w) ->
  exists records,
    validate_all (page skip limit (db_rows w)) = Some records /\
    get_history skip limit w = (Ok (mkHistoryResponse (length (db_rows w)) records), w).
Proof.
  intros Hok. destruct (page_valid skip limit (db_rows w) Hok) as [records Hrecords].
  exists records. split; [exact Hrecords|].
  unfold get_history, try_except. rewrite Hrecords. reflexivity.
Qed.


(** X7. Consecutive pages tile the history: the page of [limit1] records
    at [skip] followed by the page of [limit2] records at
    [skip + limit1] is the page of [limit1 + limit2] records at [skip];
    no record is repeated and none is skipped. *)
Theorem history_pages_tile (skip limit1 limit2 : nat) (w : W) :
  table_ok (db_rows w) ->
  exists first second both,
    get_history skip limit1 w = (Ok first, w) /\
    get_history (skip + limit1) limit2 w = (Ok second, w) /\
    get_history skip (limit1 + limit2) w = (Ok both, w) /\
    records both = records first ++ records second.
Proof.
  intros Hok.
  destruct (get_history_run skip limit1 w Hok) as (recs1 & Hrecs1 & Hrun1).
  destruct (get_history_run (skip + limit1) limit2 w Hok) as (recs2 & Hrecs2 & Hrun2).
  destruct (get_history_run skip (limit1 + limit2) w Hok) as (recs & Hrecs & Hrun).
  eexists _, _, _. repeat (split; [eassumption|]). cbn [records].
  rewrite page_app, validate_all_app, Hrecs1, Hrecs2 in Hrecs. congruence.
Qed.

End HistoryPages.

Section HistoryRoundTrip.
Import Task1 History.
Context `{Providers}.

Lemma post_classify_keeps_table (text : string) (include_examples : bool) (w : W) :
  table_ok (db_rows w) -> db_pending w = [] ->
  table_ok (db_rows (snd (post_classify text include_examples w))) /\
  db_pending (snd (post_classify text include_examples w)) = [] /\
  length (db_rows (snd (post_classify text include_examples w))) <= S (length (db_rows w)).
Proof.
  intros Hok Hpending.
  destruct (post_classify_cases text include_examples w Hpending)
    as [[_ Hrun] | [(_ & e & w' & _ & Hrun & Hrows & Hp)
                   | (_ & query & hits & rt & ct & tt & l & c & q & r & _ & _ & _ & Hrun)]];
    rewrite Hrun; cbn [snd db_rows db_pending].
  - auto.
  - rewrite Hrows, Hp. auto.
  - split; [|split; [reflexivity|rewrite length_app; simpl; lia]].
    intros i row Hrow. apply lookup_app_Some in Hrow as [Hrow | [Hlen Hrow]].
    + apply (Hok i row Hrow).
    + apply list_lookup_singleton_Some in Hrow as [Hi <-].
      split; [cbn [h_id]; f_equal; lia|]. eexists. reflexivity.
Qed.

Lemma after_requests_keeps_table (requests : list (string * bool)) (w : W) :
  table_ok (db_rows w) -> db_pending w = [] ->
  table_ok (db_rows (after_requests requests w)) /\
  length (db_rows (after_requests requests w)) <= length (db_rows w) + length requests.
Proof.
  revert w. induction requests as [|[text flag] requests IH]; intros w Hok Hpending.
  - split; [exact Hok|simpl; lia].
  - destruct (post_classify_keeps_table text flag w Hok Hpending) as (Hok' & Hpending' & Hlen).
    destruct (IH _ Hok' Hpending') as [Hfinal Hlen'].
    change (after_requests ((text, flag) :: requests) w)
      with (after_requests requests (snd (post_classify text flag w))).
    split; [exact Hfinal|]. cbn [length]. lia.
Qed.

(** X8. Round trip through the history: after a request answered 200,
    the first record of the history is that classification -- the text,
    the label and the category of the response, the number of retrieved
    examples -- and [total] has grown by one. *)
Theorem classification_is_first_in_history (text : string) (include_examples : bool)
    (query : list Q) (hits : list ScoredPoint) (w : W) :
  message_valid text = true ->
  db_pending w = [] ->
  embed_oracle text = inr query ->
  search_oracle query 5 (6 # 10) = inr hits ->
  exists response w' body record,
    post_classify text include_examples w = (Task1.Http200 response, w') /\
    get_history_route None (Some 1%Z) w' = (Http200 body, w') /\
    total body = S (length (db_rows w)) /\
    records body = [record] /\
    hr_id record = (Z.of_nat (length (db_rows w)) + 1)%Z /\
    hr_text record = text /\
    VInt (hr_predicted_label record) = r_predicted_label response /\
    VStr (hr_predicted_category record) = r_predicted_category response /\
    hr_num_retrieved_examples record = length hits.
Proof.
  intros Hvalid Hpending He Hs.
  destruct (post_classify_cases text include_examples w Hpending)
    as [[Hinvalid _] | [(_ & e & w' & Hfail & _)
                       | (_ & query' & hits' & rt & ct & tt & l & c & q & r
                          & He' & Hs' & _ & Hrun)]].
  - congruence.
  - exfalso. destruct Hfail as [Hfail | (query' & He' & Hs')]; [congruence|].
    rewrite He in He'. inversion He'; subst. congruence.
  - rewrite He in He'. inversion He'; subst query'.
    rewrite Hs in Hs'. inversion Hs'; subst hits'.
    rewrite Hrun. eexists _, _, _, _. split; [reflexivity|].
    unfold get_history_route, get_history, try_except, page.
    cbn -[Z.of_nat classify_messages].
    rewrite rev_app_distr. cbn -[Z.of_nat classify_messages].
    split; [reflexivity|]. cbn [total records].
    split; [rewrite length_app; cbn [length]; lia|].
    repeat split; try reflexivity.
    cbn [hr_num_retrieved_examples]. apply length_map.
Qed.

(** X9. The history endpoint cannot fail on a table the service filled:
    starting from an empty table, after any sequence of classification
    requests -- valid or not, with retrieval or the language model
    failing or not -- every valid page request is answered 200, and
    [total] is at most the number of requests made. *)
Theorem history_never_fails_after_requests (requests : list (string * bool))
    (skip limit : Z) (w : W) :
  db_rows w = [] -> db_pending w = [] ->
  query_valid skip limit = true ->
  exists body,
    get_history_route (Some skip) (Some limit) (after_requests requests w)
      = (Http200 body, after_requests requests w) /\
    total body <= length requests.
Proof.
  intros Hrows Hpending Hvalid.
  assert (table_ok (db_rows w)) as Hok.
  { rewrite Hrows. intros i row Hrow. discriminate. }
  destruct (after_requests_keeps_table requests w Hok Hpending) as [Hfinal Hlen].
  destruct (get_history_run (Z.to_nat skip) (Z.to_nat limit) _ Hfinal) as (recs & _ & Hrun).
  eexists. unfold get_history_route. cbn -[get_history query_valid Z.to_nat].
  rewrite Hvalid, Hrun. split; [reflexivity|]. cbn [total]. rewrite Hrows in Hlen.
  simpl in Hlen. lia.
Qed.

End HistoryRoundTrip.

(** * Indexing the training data *)

Section Upsert.
Import Task1 Reference Vectorstore.

Lemma ids_increase_snoc (points : list Point) (p : Point) :
  ids_increase points -> Forall (fun q => (pt_id q < pt_id p)%Z) points ->
  ids_increase (points ++ [p]).
Proof.
  intros Hsorted Hbelow. induction Hsorted as [|q rest Hrest IH Hq]; simpl.
  - constructor; constructor.
  - apply Forall_cons in Hbelow as [Hqp Hbelow].
    constructor; [apply IH; exact Hbelow|].
    apply Forall_app. split; [exact Hq|]. constructor; [exact Hqp|constructor].
Qed.

Lemma ids_increase_app_inv (stored batch : list Point) :
  ids_increase (stored ++ batch) ->
  ids_increase stored /\ ids_increase batch /\
  Forall (fun p => Forall (fun q => (pt_id q < pt_id p)%Z) stored) batch.
Proof.
  induction stored as [|q stored IH]; simpl; intros Hsorted.
  - split; [constructor|]. split; [exact Hsorted|].
    apply Forall_forall. intros p _. constructor.
  - inversion Hsorted as [|? ? Hrest Hq]; subst.
    destruct (IH Hrest) as (Hstored & Hbatch & Hbelow).
    apply Forall_app in Hq as [Hq1 Hq2].
    split; [constructor; assumption|]. split; [exact Hbatch|].
    apply Forall_forall. intros p Hp. constructor.
    + eapply Forall_forall in Hq2; eassumption.
    + eapply Forall_forall in Hbelow; eassumption.
Qed.

Lemma upsert_point_fresh (p : Point) (points : list Point) :
  Forall (fun q => (pt_id q < pt_id p)%Z) points -> upsert_point p points = points ++ [p].
Proof.
  intros Hbelow. induction Hbelow as [|q rest Hq Hrest IH]; simpl; [reflexivity|].
  destruct (Z.eqb_spec (pt_id q) (pt_id p)) as [Heq | _]; [lia|]. rewrite IH. reflexivity.
Qed.

Lemma upsert_points_fresh (batch stored : list Point) :
  ids_increase (stored ++ batch) -> upsert_points batch stored = stored ++ batch.
Proof.
  revert stored. induction batch as [|p batch IH]; intros stored Hsorted.
  - rewrite app_nil_r. reflexivity.
  - unfold upsert_points. simpl. fold (upsert_points batch (upsert_point p stored)).
    replace (stored ++ p :: batch) with ((stored ++ [p]) ++ batch) in *
      by (rewrite <- app_assoc; reflexivity).
    destruct (ids_increase_app_inv _ _ Hsorted) as (Hsp & _ & _).
    destruct (ids_increase_app_inv _ _ Hsp) as (_ & _ & Hbelow).
    apply Forall_cons in Hbelow as [Hbelow _].
    rewrite (upsert_point_fresh p stored Hbelow). apply IH. exact Hsorted.
Qed.

Lemma upsert_point_present (p : Point) (points : list Point) :
  ids_increase points -> p ∈ points -> upsert_point p points = points.
Proof.
  intros Hsorted. induction Hsorted as [|q rest Hrest IH Hq]; intros Hin.
  - apply elem_of_nil in Hin. contradiction.
  - simpl. apply elem_of_cons in Hin as [-> | Hin].
    + rewrite Z.eqb_refl. reflexivity.
    + destruct (Z.eqb_spec (pt_id q) (pt_id p)) as [Heq | _].
      * eapply Forall_forall in Hq; [|exact Hin]. lia.
      * rewrite IH by exact Hin. reflexivity.
Qed.

Lemma upsert_points_present (batch points : list Point) :
  ids_increase points -> Forall (fun p => p ∈ points) batch ->
  upsert_points batch points = points.
Proof.
  intros Hsorted Hall. induction Hall as [|p batch Hp Hbatch IH]; [reflexivity|].
  unfold upsert_points. simpl. rewrite (upsert_point_present p points Hsorted Hp). exact IH.
Qed.

Lemma index_from_app (next_id : Z) (docs1 docs2 : list (list Q * Payload)) :
  index_from next_id (docs1 ++ docs2)
  = index_from next_id docs1 ++ index_from (next_id + Z.of_nat (length docs1)) docs2.
Proof.
  revert next_id. induction docs1 as [|[vector payload] docs1 IH]; intros next_id; simpl.
  - f_equal. lia.
  - rewrite IH. do 3 f_equal. lia.
Qed.

Lemma index_from_length (next_id : Z) (docs : list (list Q * Payload)) :
  length (index_from next_id docs) = length docs.
Proof.
  revert next_id. induction docs as [|[vector payload] docs IH]; intros next_id; simpl;
    [reflexivity|]. rewrite IH. reflexivity.
Qed.

Lemma index_from_take (next_id : Z) (n : nat) (docs : list (list Q * Payload)) :
  take n (index_from next_id docs) = index_from next_id (take n docs).
Proof.
  revert next_id n. induction docs as [|[vector payload] docs IH]; intros next_id [|n]; simpl;
    try reflexivity. rewrite IH. reflexivity.
Qed.

Lemma index_from_ids (next_id : Z) (docs : list (list Q * Payload)) :
  Forall (fun p => (next_id <= pt_id p)%Z) (index_from next_id docs) /\
  ids_increase (index_from next_id docs).
Proof.
  revert next_id. induction docs as [|[vector payload] docs IH]; intros next_id; simpl.
  - split; constructor.
  - destruct (IH (next_id + 1)%Z) as [Hge Hsorted]. split.
    + constructor; [simpl; lia|]. eapply Forall_impl; [exact Hge|]. simpl. intros; lia.
    + constructor; [exact Hsorted|]. eapply Forall_impl; [exact Hge|]. simpl. intros; lia.
Qed.

End Upsert.

Section Indexing.
Import Task1 Reference Vectorstore.
Context `{Providers}.

Lemma doc_of_Some (row : TrainingRow) (doc : list Q * Payload) :
  doc_of row = Some doc ->
  exists category embedding,
    settings_categories !! Label row = Some category /\
    embed_oracle (Text row) = inr embedding /\
    doc = (embedding, mkPayload (slice_to 1000 (Text row)) (Text row) (Label row) category).
Proof.
  unfold doc_of. destruct (settings_categories !! Label row) as [category|]; [|discriminate].
  destruct (embed_oracle (Text row)) as [e|embedding]; [discriminate|].
  intros Hdoc. inversion Hdoc. eauto.
Qed.

Lemma client_upsert_fresh (name : string) (batch stored : list Point)
    (store : gmap string (list Point)) :
  store !! name = Some stored -> ids_increase (stored ++ batch) ->
  client_upsert name batch store = (Ok tt, <[name := stored ++ batch]> store).
Proof.
  intros Hstore Hsorted. unfold client_upsert. rewrite Hstore.
  rewrite upsert_points_fresh by exact Hsorted. reflexivity.
Qed.

(** The loop on rows that all index: the points built are added after
    the stored ones, in row order, whatever the batch size. *)
Lemma index_rows_ok (name : string) (batch_size : Z) (rows : list TrainingRow)
    (docs : list (list Q * Payload)) :
  Forall2 (fun row doc => doc_of row = Some doc) rows docs ->
  forall (idx : Z) (points stored : list Point) (store : gmap string (list Point)),
    store !! name = Some stored ->
    ids_increase (stored ++ points) ->
    Forall (fun p => (pt_id p < idx)%Z) (stored ++ points) ->
    index_rows name batch_size idx rows points store
    = (Ok tt, <[name := stored ++ points ++ index_from idx docs]> store).
Proof.
  intros Hdocs. induction Hdocs as [|row doc rows docs Hdoc Hrest IH];
    intros idx points stored store Hstore Hsorted Hbelow.
  - simpl. rewrite app_nil_r. destruct points as [|p points].
    + rewrite app_nil_r. rewrite insert_id by exact Hstore. reflexivity.
    + apply client_upsert_fresh; assumption.
  - apply doc_of_Some in Hdoc as (category & embedding & Hcategory & Hembed & ->).
    cbn [index_rows]. rewrite Hcategory, Hembed. cbn zeta.
    set (p := make_point idx row category embedding).
    assert (ids_increase (stored ++ points ++ [p])) as Hsorted'.
    { rewrite app_assoc. apply ids_increase_snoc; [exact Hsorted|].
      eapply Forall_impl; [exact Hbelow|]. simpl. intros; lia. }
    assert (Forall (fun q => (pt_id q < idx + 1)%Z) (stored ++ points ++ [p])) as Hbelow'.
    { rewrite app_assoc. apply Forall_app. split.
      - eapply Forall_impl; [exact Hbelow|]. simpl. intros; lia.
      - constructor; [simpl; lia|constructor]. }
    destruct (batch_size <=? Z.of_nat (length (points ++ [p])))%Z.
    + rewrite (client_upsert_fresh name (points ++ [p]) stored store Hstore Hsorted').
      rewrite (IH (idx + 1)%Z [] (stored ++ points ++ [p])).
      * rewrite insert_insert_eq. cbn [index_from app]. f_equal. f_equal.
        rewrite <- !app_assoc. reflexivity.
      * apply lookup_insert_eq.
      * rewrite app_nil_r. exact Hsorted'.
      * rewrite app_nil_r. exact Hbelow'.
    + rewrite (IH (idx + 1)%Z (points ++ [p]) stored store Hstore Hsorted' Hbelow').
      cbn [index_from]. f_equal. f_equal. rewrite <- !app_assoc. reflexivity.
Qed.

Lemma row_error_raises (name : string) (batch_size idx : Z) (row : TrainingRow)
    (rest : list TrainingRow) (points : list Point) (store : gmap string (list Point))
    (e : exn) :
  row_error row = Some e ->
  index_rows name batch_size idx (row :: rest) points store = (Raise e, store).
Proof.
  unfold row_error. cbn [index_rows].
  destruct (settings_categories !! Label row) as [category|].
  - destruct (embed_oracle (Text row)) as [e'|embedding]; [|discriminate].
    intros He. inversion He. reflexivity.
  - intros He. inversion He. reflexivity.
Qed.

(** The loop on rows that index up to one that fails: the exception of
    that row ends the loop, and what is stored is what whole batches have
    uploaded. *)
Lemma index_rows_fails (name : string) (b : nat) (good : list TrainingRow)
    (docs : list (list Q * Payload)) (bad : TrainingRow) (rest : list TrainingRow) (e : exn) :
  1 <= b ->
  Forall2 (fun row doc => doc_of row = Some doc) good docs ->
  row_error bad = Some e ->
  forall (idx : Z) (points stored : list Point) (store : gmap string (list Point)),
    store !! name = Some stored ->
    ids_increase (stored ++ points) ->
    Forall (fun p => (pt_id p < idx)%Z) (stored ++ points) ->
    length points < b ->
    exists batches,
      index_rows name (Z.of_nat b) idx (good ++ bad :: rest) points store
      = (Raise e,
         <[name := stored ++ take (batches * b) (points ++ index_from idx docs)]> store) /\
      batches * b <= length points + length docs < batches * b + b.
Proof.
  intros Hb Hdocs Hbad. induction Hdocs as [|row doc rows docs Hdoc Hrest IH];
    intros idx points stored store Hstore Hsorted Hbelow Hpending.
  - exists 0. cbn [app]. rewrite (row_error_raises _ _ _ _ _ _ _ _ Hbad).
    cbn [Nat.mul take]. rewrite app_nil_r, insert_id by exact Hstore.
    split; [reflexivity|]. cbn [index_from length]. lia.
  - apply doc_of_Some in Hdoc as (category & embedding & Hcategory & Hembed & ->).
    cbn [app index_rows]. rewrite Hcategory, Hembed. cbn zeta.
    set (p := make_point idx row category embedding).
    assert (ids_increase (stored ++ points ++ [p])) as Hsorted'.
    { rewrite app_assoc. apply ids_increase_snoc; [exact Hsorted|].
      eapply Forall_impl; [exact Hbelow|]. simpl. intros; lia. }
    assert (Forall (fun q => (pt_id q < idx + 1)%Z) (stored ++ points ++ [p])) as Hbelow'.
    { rewrite app_assoc. apply Forall_app. split.
      - eapply Forall_impl; [exact Hbelow|]. simpl. intros; lia.
      - constructor; [simpl; lia|constructor]. }
    assert (length (points ++ [p]) = S (length points)) as Hlen
      by (rewrite length_app; simpl; lia).
    destruct (Z.leb_spec (Z.of_nat b) (Z.of_nat (length (points ++ [p])))) as [Hfull | Hroom].
    + assert (length (points ++ [p]) = b) as Hexact by lia.
      rewrite (client_upsert_fresh name (points ++ [p]) stored store Hstore Hsorted').
      destruct (IH (idx + 1)%Z [] (stored ++ points ++ [p])
                  (<[name := stored ++ points ++ [p]]> store)) as (batches & Hrun & Hbound).
      * apply lookup_insert_eq.
      * rewrite app_nil_r. exact Hsorted'.
      * rewrite app_nil_r. exact Hbelow'.
      * simpl. lia.
      * exists (S batches). rewrite Hrun, insert_insert_eq. split.
        -- f_equal. f_equal. cbn [app].
           change (index_from idx (_ :: docs)) with ([p] ++ index_from (idx + 1) docs).
           rewrite (app_assoc points [p]).
           replace (S batches * b) with (length (points ++ [p]) + batches * b)
             by (rewrite Hexact; simpl; lia).
           rewrite take_app_add. rewrite <- !app_assoc. reflexivity.
        -- cbn [length] in *. simpl. lia.
    + destruct (IH (idx + 1)%Z (points ++ [p]) stored store Hstore Hsorted' Hbelow')
        as (batches & Hrun & Hbound); [lia|].
      exists batches. rewrite Hrun. split.
      * change (index_from idx (_ :: docs)) with ([p] ++ index_from (idx + 1) docs).
        rewrite <- !app_assoc. reflexivity.
      * cbn [length]. lia.
Qed.

(** The loop on a collection that already holds the points of the rows:
    every upload replaces points by themselves. *)
Lemma index_rows_again (name : string) (batch_size : Z) (rows : list TrainingRow)
    (docs : list (list Q * Payload)) (full : list Point) :
  ids_increase full ->
  Forall2 (fun row doc => doc_of row = Some doc) rows docs ->
  forall (idx : Z) (points : list Point) (store : gmap string (list Point)),
    store !! name = Some full ->
    Forall (fun p => p ∈ full) (points ++ index_from idx docs) ->
    index_rows name batch_size idx rows points store = (Ok tt, store).
Proof.
  intros Hsorted Hdocs. induction Hdocs as [|row doc rows docs Hdoc Hrest IH];
    intros idx points store Hstore Hin.
  - simpl. rewrite app_nil_r in Hin. destruct points as [|p points]; [reflexivity|].
    unfold client_upsert. rewrite Hstore.
    rewrite (upsert_points_present _ _ Hsorted Hin), insert_id by exact Hstore. reflexivity.
  - apply doc_of_Some in Hdoc as (category & embedding & Hcategory & Hembed & ->).
    cbn [index_rows]. rewrite Hcategory, Hembed. cbn zeta.
    change (index_from idx (_ :: docs))
      with ([make_point idx row category embedding] ++ index_from (idx + 1) docs) in Hin.
    rewrite app_assoc in Hin.
    destruct (batch_size <=? _)%Z.
    + unfold client_upsert. rewrite Hstore.
      apply Forall_app in Hin as [Hbatch Hnew].
      rewrite (upsert_points_present _ _ Hsorted Hbatch), insert_id by exact Hstore.
      apply IH; [exact Hstore|exact Hnew].
    + apply IH; assumption.
Qed.

End Indexing.

Section IndexingTheorems.
Import Task1 Reference Vectorstore.
Context `{Providers}.

(** X10. Indexing into a collection that does not exist yet, when every
    row has a known label and an embedding: the call returns, and the
    collection then holds one point per row, in row order, with the row
    number as id -- the same collection whatever the batch size, also a
    zero or negative one.  The other collections are untouched. *)
Theorem indexing_stores_every_row_in_order (name : string) (rows : list TrainingRow)
    (docs : list (list Q * Payload)) (batch_size : Z)
    (store : gmap string (list Point)) :
  store !! name = None ->
  Forall2 (fun row doc => doc_of row = Some doc) rows docs ->
  exists store',
    index_training_data name rows batch_size store = (Ok tt, store') /\
    store' !! name = Some (build_index docs) /\
    (forall other, other <> name -> store' !! other = store !! other).
Proof.
  intros Hfresh Hdocs. unfold index_training_data, create_collection. rewrite Hfresh.
  rewrite (index_rows_ok name batch_size rows docs Hdocs 0%Z [] []).
  - eexists. split; [reflexivity|]. rewrite insert_insert_eq. split.
    + apply lookup_insert_eq.
    + intros other Hne. apply lookup_insert_ne. congruence.
  - apply lookup_insert_eq.
  - constructor.
  - constructor.
Qed.

(** X11. Indexing stops at the first row that cannot be indexed (an
    unknown label, or an embedding that fails) with that row's exception;
    with a batch size of at least 1 the collection then holds the rows of
    the batches already uploaded and nothing else: a whole number of
    batches, fewer than one batch short of the failing row. *)
Theorem indexing_failure_keeps_whole_batches (name : string) (batch_size : nat)
    (good : list TrainingRow) (docs : list (list Q * Payload))
    (bad : TrainingRow) (rest : list TrainingRow) (e : exn)
    (store : gmap string (list Point)) :
  1 <= batch_size ->
  store !! name = None ->
  Forall2 (fun row doc => doc_of row = Some doc) good docs ->
  row_error bad = Some e ->
  exists store' batches,
    index_training_data name (good ++ bad :: rest) (Z.of_nat batch_size) store
      = (Raise e, store') /\
    store' !! name = Some (build_index (take (batches * batch_size) docs)) /\
    batches * batch_size <= length good < batches * batch_size + batch_size.
Proof.
  intros Hb Hfresh Hdocs Hbad. unfold index_training_data, create_collection. rewrite Hfresh.
  destruct (index_rows_fails name batch_size good docs bad rest e Hb Hdocs Hbad
              0%Z [] [] (<[name := []]> store)) as (batches & Hrun & Hbound).
  - apply lookup_insert_eq.
  - constructor.
  - constructor.
  - simpl. lia.
  - eexists _, batches. split; [exact Hrun|]. split.
    + rewrite insert_insert_eq, lookup_insert_eq. cbn [app].
      rewrite index_from_take. reflexivity.
    + apply Forall2_length in Hdocs. cbn [length] in Hbound. lia.
Qed.

(** X12. Indexing the same rows again changes nothing: the second run
    returns, and leaves every collection as the first run left it, for
    any two batch sizes.  No point is duplicated. *)
Theorem reindexing_is_idempotent (name : string) (rows : list TrainingRow)
    (docs : list (list Q * Payload)) (batch_size1 batch_size2 : Z)
    (store : gmap string (list Point)) :
  store !! name = None ->
  Forall2 (fun row doc => doc_of row = Some doc) rows docs ->
  exists store',
    index_training_data name rows batch_size1 store = (Ok tt, store') /\
    index_training_data name rows batch_size2 store' = (Ok tt, store').
Proof.
  intros Hfresh Hdocs.
  assert (index_training_data name rows batch_size1 store
          = (Ok tt, <[name := build_index docs]> store)) as Hfirst.
  { unfold index_training_data, create_collection. rewrite Hfresh.
    rewrite (index_rows_ok name batch_size1 rows docs Hdocs 0%Z [] []).
    - rewrite insert_insert_eq. reflexivity.
    - apply lookup_insert_eq.
    - constructor.
    - constructor. }
  eexists. split; [exact Hfirst|].
  unfold index_training_data, create_collection. rewrite lookup_insert_eq.
  apply (index_rows_again name batch_size2 rows docs (build_index docs)).
  - apply index_from_ids.
  - exact Hdocs.
  - apply lookup_insert_eq.
  - apply Forall_forall. intros p Hp. exact Hp.
Qed.

End IndexingTheorems.

Section IndexedExamples.
Import Task1 Reference Vectorstore.
Context `{Providers}.

Lemma search_payloads (P : Payload -> Prop) (docs : list (list Q * Payload))
    (query : list Q) (limit : nat) (score_threshold : Q) :
  Forall (fun doc => P (snd doc)) docs ->
  Forall (fun hit => P (sp_payload hit)) (search (build_index docs) query limit score_threshold).
Proof.
  intros Hdocs. unfold search, build_index.
  apply Forall_take, rank_Forall, Forall_list_filter.
  generalize 0%Z. induction Hdocs as [|[vector payload] docs Hdoc Hrest IH]; intros next_id;
    simpl; constructor; [exact Hdoc|apply IH].
Qed.

(** X13. What retrieval can return from a collection filled by
    [index_training_data]: every example has a text of at most 1000
    characters, which is the beginning of its full text, and a category
    that is the name of its label in the settings. *)
Theorem indexed_examples_are_bounded_and_labelled (name : string)
    (rows : list TrainingRow) (docs : list (list Q * Payload)) (batch_size : Z)
    (store : gmap string (list Point)) (query : list Q) (limit : nat) (score_threshold : Q) :
  store !! name = None ->
  Forall2 (fun row doc => doc_of row = Some doc) rows docs ->
  exists store' stored,
    index_training_data name rows batch_size store = (Ok tt, store') /\
    store' !! name = Some stored /\
    Forall (fun ex =>
              String.length (ex_text ex) <= 1000 /\
              (exists rest, ex_full_text ex = ex_text ex +:+ rest) /\
              settings_categories !! ex_label ex = Some (ex_category ex))
           (map example_of (search stored query limit score_threshold)).
Proof.
  intros Hfresh Hdocs.
  exists (<[name := build_index docs]> store), (build_index docs).
  split.
  { unfold index_training_data, create_collection. rewrite Hfresh.
    rewrite (index_rows_ok name batch_size rows docs Hdocs 0%Z [] []).
    - rewrite insert_insert_eq. reflexivity.
    - apply lookup_insert_eq.
    - constructor.
    - constructor. }
  split; [apply lookup_insert_eq|].
  apply Forall_map.
  apply (search_payloads
           (fun payload =>
              String.length (p_text payload) <= 1000 /\
              (exists rest, p_full_text payload = p_text payload +:+ rest) /\
              settings_categories !! p_label payload = Some (p_category payload))).
  clear Hfresh. induction Hdocs as [|row doc rows docs Hdoc Hrest IH]; constructor;
    [|exact IH].
  apply doc_of_Some in Hdoc as (category & embedding & Hcategory & _ & ->).
  cbn [snd p_text p_full_text p_label p_category].
  split; [apply slice_to_length|]. split; [apply slice_to_prefix|exact Hcategory].
Qed.

End IndexedExamples.

(** ** Indexing on concrete rows *)

Lemma demo_rows_index :
  Forall2 (fun row doc => Vectorstore.doc_of (H := Demo.healthy) row = Some doc)
          DemoIndex.rows DemoIndex.docs.
Proof. repeat constructor. Qed.

Lemma indexing_stores_every_row_in_order_witness :
  exists store',
    Vectorstore.index_training_data (H := Demo.healthy) DemoIndex.collection_name
      DemoIndex.rows 100 DemoIndex.empty_store = (Ok tt, store') /\
    store' !! DemoIndex.collection_name = Some (Reference.build_index DemoIndex.docs) /\
    (forall other, other <> DemoIndex.collection_name -> store' !! other = DemoIndex.empty_store !! other).
Proof.
  apply (indexing_stores_every_row_in_order (H := Demo.healthy) DemoIndex.collection_name
           DemoIndex.rows DemoIndex.docs 100 DemoIndex.empty_store).
  - reflexivity.
  - exact demo_rows_index.
Defined.

Lemma indexing_failure_keeps_whole_batches_witness :
  exists store' batches,
    Vectorstore.index_training_data (H := Demo.healthy) DemoIndex.collection_name
      (DemoIndex.rows ++ DemoIndex.unlabelled :: DemoIndex.rows) (Z.of_nat 2) DemoIndex.empty_store
      = (Raise (PyExc "KeyError" "9"), store') /\
    store' !! DemoIndex.collection_name
      = Some (Reference.build_index (take (batches * 2) DemoIndex.docs)) /\
    batches * 2 <= length DemoIndex.rows < batches * 2 + 2.
Proof.
  apply (indexing_failure_keeps_whole_batches (H := Demo.healthy) DemoIndex.collection_name 2
           DemoIndex.rows DemoIndex.docs DemoIndex.unlabelled DemoIndex.rows
           (PyExc "KeyError" "9") DemoIndex.empty_store).
  - lia.
  - reflexivity.
  - exact demo_rows_index.
  - reflexivity.
Defined.

Lemma reindexing_is_idempotent_witness :
  exists store',
    Vectorstore.index_training_data (H := Demo.healthy) DemoIndex.collection_name
      DemoIndex.rows 100 DemoIndex.empty_store = (Ok tt, store') /\
    Vectorstore.index_training_data (H := Demo.healthy) DemoIndex.collection_name
      DemoIndex.rows 2 store' = (Ok tt, store').
Proof.
  apply (reindexing_is_idempotent (H := Demo.healthy) DemoIndex.collection_name
           DemoIndex.rows DemoIndex.docs 100 2 DemoIndex.empty_store).
  - reflexivity.
  - exact demo_rows_index.
Defined.

Lemma indexed_examples_are_bounded_and_labelled_witness :
  exists store' stored,
    Vectorstore.index_training_data (H := Demo.healthy) DemoIndex.collection_name
      DemoIndex.rows 100 DemoIndex.empty_store = (Ok tt, store') /\
    store' !! DemoIndex.collection_name = Some stored /\
    Forall (fun ex =>
              String.length (ex_text ex) <= 1000 /\
              (exists rest, ex_full_text ex = ex_text ex +:+ rest) /\
              Task1.settings_categories !! ex_label ex = Some (ex_category ex))
           (map Task1.example_of
                (Reference.search stored (Demo.embed Demo.article) 5 (6 # 10))).
Proof.
  apply (indexed_examples_are_bounded_and_labelled (H := Demo.healthy)
           DemoIndex.collection_name DemoIndex.rows DemoIndex.docs 100 DemoIndex.empty_store).
  - reflexivity.
  - exact demo_rows_index.
Defined.

(** * Predictions for a test set *)

Section PredictionRuns.
Import Task1 Predictions.
Context `{Providers}.

Lemma final_fields (s : gmap string value) (examples : list Example) (t1 t2 : Q)
    (l : Z) (c : string) (q : Q) (r : string) :
  let final := LangGraph.apply_update ["messages"]
                 (LangGraph.apply_update ["messages"] s (retrieve_update examples t1))
                 (classify_update (l, c, q, r) t2) in
  final !! "retrieved_examples" = Some (VExamples examples) /\
  final !! "predicted_label" = Some (VInt l) /\
  final !! "predicted_category" = Some (VStr c) /\
  final !! "confidence" = Some (VFloat q).
Proof.
  intros final. unfold final.
  assert (NoDup (keys (classify_update (l, c, q, r) t2))) as Hnd
    by (apply (bool_decide_unpack _); vm_compute; exact I).
  split.
  { rewrite apply_update_frame.
    - apply apply_update_written; [apply retrieve_update_keys| |reflexivity].
      rewrite list_elem_of_singleton. discriminate.
    - unfold keys. cbn. rewrite !elem_of_cons, elem_of_nil. intuition discriminate. }
  repeat split;
    (apply apply_update_written;
     [exact Hnd | rewrite list_elem_of_singleton; discriminate | reflexivity]).
Qed.

Lemma invoke_classifier_fails (s : gmap string value) (text : string) (e : exn) (w : W) :
  s !! "text" = Some (VStr text) ->
  retrieval_fails text e ->
  exists w', LangGraph.invoke classifier_graph s w = (Raise e, w').
Proof.
  intros Ht Hfail. rewrite invoke_classifier. unfold two_stage, bind, log.
  rewrite (retrieve_node_run s text _ Ht).
  destruct Hfail as [He | (query & He & Hs)].
  - rewrite He. eexists. reflexivity.
  - rewrite He, Hs. eexists. reflexivity.
Qed.

Lemma outcome_label_range (messages : list Message) :
  let '(l, _, _, _) := outcome messages in (0 <= l <= 4)%Z.
Proof.
  unfold outcome. destruct (llm_oracle messages) as [e|answer].
  - cbn. lia.
  - destruct (schema_valid answer) eqn:Hvalid; [|cbn; lia].
    unfold schema_valid in Hvalid.
    apply andb_prop in Hvalid as [Hvalid _].
    apply andb_prop in Hvalid as [Hvalid _].
    apply andb_prop in Hvalid as [Hlo Hhi]. lia.
Qed.

Lemma row_label_range (batch_size : Z) (text : string) :
  (0 <= row_label batch_size text <= 4)%Z.
Proof.
  unfold row_label. destruct (batch_size =? 0)%Z; [lia|].
  destruct (embed_oracle text) as [e|query]; [lia|].
  destruct (search_oracle query 5 (6 # 10)) as [e|hits]; [lia|].
  pose proof (outcome_label_range (classify_messages text (map example_of hits))) as Hrange.
  destruct (outcome _) as [[[l c] q] r]. exact Hrange.
Qed.

Lemma row_label_fails (batch_size : Z) (text : string) (e : exn) :
  retrieval_fails text e -> row_label batch_size text = 0%Z.
Proof.
  intros Hfail. unfold row_label. destruct (batch_size =? 0)%Z; [reflexivity|].
  destruct Hfail as [He | (query & He & Hs)].
  - rewrite He. reflexivity.
  - rewrite He, Hs. reflexivity.
Qed.

(** One turn of the loop in closed form: it never raises, and sets the
    label of its row; it writes the file only at a multiple of the
    interval. *)
Lemma predict_row_run (batch_size : Z) (i : nat) (text : string)
    (output_df : list value) (saved : list (list value)) (w : W) :
  exists saved' w',
    predict_row batch_size i text (output_df, saved) w
    = (Ok (<[i := VInt (row_label batch_size text)]> output_df, saved'), w') /\
    (saved' = saved \/
     (batch_size <> 0%Z /\ ((Z.of_nat i + 1) mod batch_size = 0)%Z /\
      saved' = saved ++ [<[i := VInt (row_label batch_size text)]> output_df])).
Proof.
  unfold predict_row, try_except, row_label. unfold bind at 1.
  destruct (embed_oracle text) as [e|query] eqn:He.
  { destruct (invoke_classifier_fails (initial_state text) text e w eq_refl (or_introl He))
      as (w' & Hrun).
    rewrite Hrun. destruct (batch_size =? 0)%Z; eexists _, _; split; try reflexivity; auto. }
  destruct (search_oracle query 5 (6 # 10)) as [e|hits] eqn:Hs.
  { destruct (invoke_classifier_fails (initial_state text) text e w eq_refl) as (w' & Hrun).
    { right. exists query. auto. }
    rewrite Hrun. destruct (batch_size =? 0)%Z; eexists _, _; split; try reflexivity; auto. }
  destruct (invoke_classifier_ok (initial_state text) text query hits w eq_refl He Hs)
    as (t1 & t2 & Hrun).
  rewrite Hrun. clear Hrun.
  destruct (outcome (classify_messages text (map example_of hits))) as [[[l c] q] r].
  destruct (final_fields (initial_state text) (map example_of hits) t1 t2 l c q r)
    as (Hx & Hl & Hc & Hq).
  unfold bind, getitem, get_or, as_examples, format_confidence, ret, raise.
  rewrite Hx, Hl, Hc, Hq. cbn [default].
  destruct (Z.eqb_spec batch_size 0) as [-> | Hne].
  - eexists _, _. split; [reflexivity|]. auto.
  - destruct (Z.eqb_spec ((Z.of_nat i + 1) mod batch_size) 0) as [Hmod | Hmod];
      eexists _, _; (split; [reflexivity|]); auto.
Qed.

End PredictionRuns.

Section PredictionLoop.
Import Task1 Predictions.
Context `{Providers}.
Variable batch_size : Z.

Local Abbreviation labelled := (Predictions.labelled batch_size).
Local Abbreviation checkpoint := (Predictions.checkpoint batch_size).

Lemma predict_rows_run (rest : list string) :
  forall (done : list string) (saved : list (list value)) (w : W),
    Forall (checkpoint (done ++ rest)) saved ->
    exists saved' w',
      predict_rows batch_size (length done) rest
        (labelled done (length (done ++ rest)), saved) w
      = (Ok (labelled (done ++ rest) (length (done ++ rest)), saved'), w') /\
      Forall (checkpoint (done ++ rest)) saved' /\
      (batch_size = 0%Z -> saved' = saved).
Proof.
  induction rest as [|text rest IH]; intros done saved w Hsaved.
  - exists saved, w. cbn [predict_rows]. rewrite !app_nil_r.
    split; [reflexivity|]. rewrite app_nil_r in Hsaved. auto.
  - cbn [predict_rows]. unfold bind at 1.
    destruct (predict_row_run batch_size (length done) text
                (labelled done (length (done ++ text :: rest))) saved w)
      as (saved1 & w1 & Hrow & Hsaved1).
    rewrite Hrow. clear Hrow.
    assert (<[length done := VInt (row_label batch_size text)]>
              (labelled done (length (done ++ text :: rest)))
            = labelled (done ++ [text]) (length (done ++ text :: rest))) as Hinsert.
    { unfold labelled. rewrite map_app, <- app_assoc. cbn [map app].
      rewrite !length_app. cbn [length].
      replace (length done + S (length rest) - length done)%nat with (S (length rest)) by lia.
      replace (length done + S (length rest) - (length done + 1))%nat with (length rest) by lia.
      cbn [replicate].
      rewrite <- (length_map (fun text => VInt (row_label batch_size text)) done) at 1.
      rewrite (insert_app_r_alt _ _ (length (map _ done))) by lia.
      rewrite Nat.sub_diag. reflexivity. }
    rewrite Hinsert in *.
    replace (S (length done)) with (length (done ++ [text]))
      by (rewrite length_app; simpl; lia).
    replace (done ++ text :: rest) with ((done ++ [text]) ++ rest) in *
      by (rewrite <- app_assoc; reflexivity).
    destruct (IH (done ++ [text]) saved1 w1) as (saved' & w' & Hrun & Hsaved' & Hzero).
    { destruct Hsaved1 as [-> | (_ & Hmod & ->)]; [exact Hsaved|].
      apply Forall_app. split; [exact Hsaved|]. constructor; [|constructor].
      exists (length (done ++ [text])). split.
      { rewrite !length_app. cbn [length]. lia. }
      split.
      { rewrite length_app. cbn [length].
        replace (Z.of_nat (length done + 1)) with (Z.of_nat (length done) + 1)%Z by lia.
        exact Hmod. }
      rewrite take_app_length. reflexivity. }
    exists saved', w'. split; [exact Hrun|]. split; [exact Hsaved'|].
    intros Hbs. rewrite (Hzero Hbs). destruct Hsaved1 as [-> | [Hne _]]; [reflexivity|].
    contradiction.
Qed.

(** The script in closed form. *)
Lemma generate_predictions_run (test_df : list string) (w : W) :
  exists saved w',
    generate_predictions test_df batch_size w
    = (match test_df with
       | [] => Raise (PyExc "ZeroDivisionError" "float division by zero")
       | _ => Ok tt
       end,
       saved ++ [map (fun text => VInt (row_label batch_size text)) test_df], w') /\
    Forall (fun snapshot => exists k : nat,
              (0 < k <= length test_df)%nat /\ (Z.of_nat k mod batch_size = 0)%Z /\
              snapshot
              = map (fun text => VInt (row_label batch_size text)) (take k test_df)
                ++ replicate (length test_df - k) VNone) saved /\
    (batch_size = 0%Z -> saved = []).
Proof.
  unfold generate_predictions. unfold bind at 1. unfold time_time at 1. cbn [fst snd].
  destruct (predict_rows_run test_df [] []
              {| ticks := S (ticks w); trace := trace w;
                 db_pending := db_pending w; db_rows := db_rows w |})
    as (saved & w1 & Hrun & Hsaved & Hzero); [constructor|].
  cbn [app length] in Hrun. unfold labelled at 1 in Hrun. cbn [map length app] in Hrun.
  rewrite Nat.sub_0_r in Hrun.
  unfold bind at 1. rewrite Hrun. unfold bind, time_time, ret. cbn [fst snd].
  unfold labelled. rewrite Nat.sub_diag. cbn [replicate]. rewrite app_nil_r.
  exists saved. eexists. split.
  { destruct test_df; reflexivity. }
  split; [|exact Hzero].
  eapply Forall_impl; [exact Hsaved|].
  intros snapshot (k & Hk & Hmod & ->). exists k. cbn [app] in *.
  split; [exact Hk|]. split; [exact Hmod|].
  unfold labelled. rewrite length_take. replace (k `min` length test_df)%nat with k by lia.
  reflexivity.
Qed.

End PredictionLoop.

Section PredictionTheorems.
Import Task1 Predictions.
Context `{Providers}.

(** X14. The prediction script labels every article: whatever the
    collaborators do and whatever the checkpoint interval, the last
    contents written to the output file have one label per article of
    the test set, each an integer of 0..4.  No failure on an article
    stops the loop or leaves a label empty. *)
Theorem every_article_gets_one_label (test_df : list string) (batch_size : Z) (w : W) :
  exists result saved final w',
    generate_predictions test_df batch_size w = (result, saved ++ [final], w') /\
    length final = length test_df /\
    Forall (fun label => exists l : Z, label = VInt l /\ (0 <= l <= 4)%Z) final.
Proof.
  destruct (generate_predictions_run batch_size test_df w) as (saved & w' & Hrun & _).
  eexists _, saved, _, w'. split; [exact Hrun|]. split; [apply length_map|].
  apply Forall_map, Forall_forall. intros text _. eexists. split; [reflexivity|].
  apply row_label_range.
Qed.

(** X15. On an empty test set the script writes an output file without
    rows and then raises [ZeroDivisionError], from the average time per
    article of the summary; on a test set with at least one article it
    returns. *)
Theorem empty_test_set_fails_after_writing (batch_size : Z) (w : W) :
  (exists w',
     generate_predictions [] batch_size w
     = (Raise (PyExc "ZeroDivisionError" "float division by zero"), [[]], w')) /\
  (forall (text : string) (rest : list string),
     exists saved w',
       generate_predictions (text :: rest) batch_size w = (Ok tt, saved, w')).
Proof.
  split.
  - eexists. reflexivity.
  - intros text rest.
    destruct (generate_predictions_run batch_size (text :: rest) w) as (saved & w' & Hrun & _).
    eexists _, w'. exact Hrun.
Qed.

(** X16. With a checkpoint interval of 0 every article is labelled 0,
    also when every collaborator answers: the test of the interval
    raises [ZeroDivisionError] inside the loop's [try], after the label
    is stored, and the handler overwrites the label.  The file is then
    written once, at the end. *)
Theorem zero_interval_labels_every_article_zero (test_df : list string) (w : W) :
  exists result w',
    generate_predictions test_df 0 w
    = (result, [replicate (length test_df) (VInt 0)], w').
Proof.
  destruct (generate_predictions_run 0 test_df w) as (saved & w' & Hrun & _ & Hzero).
  rewrite (Hzero eq_refl) in Hrun. eexists _, w'. rewrite Hrun. f_equal. f_equal.
  cbn [app]. f_equal. clear. induction test_df as [|text rest IH]; [reflexivity|].
  cbn [map length replicate]. rewrite IH. reflexivity.
Qed.

(** X17. An article whose retrieval fails is labelled 0 in the output
    file -- the label of the first category, not a missing value -- and
    the run goes on. *)
Theorem failed_article_is_labelled_zero (test_df : list string) (batch_size : Z)
    (i : nat) (text : string) (e : exn) (w : W) :
  test_df !! i = Some text ->
  retrieval_fails text e ->
  exists saved final w',
    generate_predictions test_df batch_size w = (Ok tt, saved ++ [final], w') /\
    length final = length test_df /\
    final !! i = Some (VInt 0).
Proof.
  intros Hi Hfail.
  destruct (generate_predictions_run batch_size test_df w) as (saved & w' & Hrun & _).
  eexists saved, _, w'. split.
  { rewrite Hrun. destruct test_df; [discriminate Hi | reflexivity]. }
  split; [apply length_map|].
  rewrite list_lookup_fmap, Hi. cbn. rewrite (row_label_fails _ _ e Hfail). reflexivity.
Qed.

(** X18. The script and the endpoint agree: for an article whose
    retrieval succeeds, and a checkpoint interval other than 0, the
    label written to the output file is the [predicted_label] of the
    answer of [POST /classify] to the same text. *)
Theorem script_label_agrees_with_endpoint (test_df : list string) (batch_size : Z)
    (i : nat) (text : string) (query : list Q) (hits : list ScoredPoint)
    (include_examples : bool) (w w0 : W) :
  batch_size <> 0%Z ->
  test_df !! i = Some text ->
  embed_oracle text = inr query ->
  search_oracle query 5 (6 # 10) = inr hits ->
  db_pending w0 = [] ->
  exists saved final w' response w0',
    generate_predictions test_df batch_size w = (Ok tt, saved ++ [final], w') /\
    classify_text (mkRequest text) include_examples w0 = (Ok response, w0') /\
    final !! i = Some (r_predicted_label response).
Proof.
  intros Hbs Hi He Hs Hpending.
  destruct (generate_predictions_run batch_size test_df w) as (saved & w' & Hrun & _).
  destruct (classify_text_success (mkRequest text) include_examples query hits w0
              He Hs Hpending) as (t1 & t2 & t3 & Hrequest).
  cbn [message] in Hrequest.
  assert (row_label batch_size text
          = let '(l, _, _, _) := outcome (classify_messages text (map example_of hits)) in l)
    as Hlabel.
  { unfold row_label. destruct (Z.eqb_spec batch_size 0) as [Hz|_]; [contradiction|].
    rewrite He, Hs. reflexivity. }
  destruct (outcome (classify_messages text (map example_of hits))) as [[[l c] q] r].
  eexists saved, _, w', _, _. split.
  { rewrite Hrun. destruct test_df; [discriminate Hi | reflexivity]. }
  split; [exact Hrequest|].
  rewrite list_lookup_fmap, Hi. cbn. rewrite Hlabel. reflexivity.
Qed.

(** X19. Every checkpoint is a prefix of the final file: it was written
    after a number [k] of articles that is a multiple of the interval,
    holds the final labels of the first [k] articles and no label for
    the others. *)
Theorem checkpoints_are_prefixes_of_final_file (test_df : list string) (batch_size : Z)
    (w : W) :
  exists result saved final w',
    generate_predictions test_df batch_size w = (result, saved ++ [final], w') /\
    Forall (fun snapshot => exists k : nat,
              (0 < k <= length test_df)%nat /\ (Z.of_nat k mod batch_size = 0)%Z /\
              snapshot = take k final ++ replicate (length test_df - k) VNone) saved.
Proof.
  destruct (generate_predictions_run batch_size test_df w) as (saved & w' & Hrun & Hsaved & _).
  eexists _, saved, _, w'. split; [exact Hrun|].
  eapply Forall_impl; [exact Hsaved|].
  intros snapshot (k & Hk & Hmod & ->). exists k. split; [exact Hk|]. split; [exact Hmod|].
  rewrite <- fmap_take. reflexivity.
Qed.

End PredictionTheorems.

(** ** The properties on concrete collaborators *)

Lemma served_table_ok : History.table_ok (db_rows DemoHistory.served).
Proof.
  apply (after_requests_keeps_table (H := Demo.healthy)); [|reflexivity].
  intros i row Hrow. discriminate Hrow.
Qed.

Lemma classify_output_within_schema_witness :
  exists upd w' predicted_label confidence,
    Task1.classify_node (H := Demo.llm_off_schema) Demo.initial_state Demo.fresh
      = (Ok upd, w') /\
    LangGraph.assoc "predicted_label" upd = Some (VInt predicted_label) /\
    LangGraph.assoc "confidence" upd = Some (VFloat confidence) /\
    (0 <= predicted_label <= 4)%Z /\
    (0 <= confidence)%Q /\ (confidence <= 1)%Q.
Proof.
  apply (classify_output_within_schema (H := Demo.llm_off_schema) Demo.initial_state
           Demo.article [] Demo.fresh); reflexivity.
Defined.

Lemma request_has_three_outcomes_witness :
  (Task1.message_valid Demo.article = false /\
   Task1.post_classify (H := Demo.embedding_down) Demo.article false Demo.fresh
     = (Task1.HttpError 422 "Unprocessable Entity", Demo.fresh))
  \/
  (Task1.message_valid Demo.article = true /\
   exists e w',
     Task1.retrieval_fails (H := Demo.embedding_down) Demo.article e /\
     Task1.post_classify (H := Demo.embedding_down) Demo.article false Demo.fresh
       = (Task1.HttpError 500 ("Classification failed: " +:+ Py.str_exn e), w') /\
     db_rows w' = db_rows Demo.fresh /\ db_pending w' = [])
  \/
  (Task1.message_valid Demo.article = true /\
   exists response row w',
     Task1.post_classify (H := Demo.embedding_down) Demo.article false Demo.fresh
       = (Task1.Http200 response, w') /\
     db_rows w' = db_rows Demo.fresh ++ [row] /\ db_pending w' = [] /\
     Task1.h_id row = Some (Z.of_nat (length (db_rows Demo.fresh)) + 1)%Z /\
     Task1.h_text row = Demo.article).
Proof.
  apply (request_has_three_outcomes (H := Demo.embedding_down) Demo.article false Demo.fresh).
  reflexivity.
Defined.

Lemma llm_failure_is_answered_and_recorded_witness :
  exists response row w',
    Task1.post_classify (H := Demo.llm_down) Demo.article false Demo.fresh
      = (Task1.Http200 response, w') /\
    db_rows w' = db_rows Demo.fresh ++ [row] /\
    (Task1.r_predicted_label response, Task1.r_predicted_category response,
     Task1.r_confidence response, Task1.r_reasoning response)
    = (VInt 0, VStr "Politics", VFloat 0,
       VStr ("Error during classification: "
             +:+ Py.str_exn (Py.PyExc "APITimeoutError" "Request timed out."))) /\
    (Task1.h_predicted_label row, Task1.h_predicted_category row,
     Task1.h_confidence row, Task1.h_reasoning row)
    = (VInt 0, VStr "Politics", VFloat 0,
       VStr ("Error during classification: "
             +:+ Py.str_exn (Py.PyExc "APITimeoutError" "Request timed out."))).
Proof.
  apply (llm_failure_is_answered_and_recorded (H := Demo.llm_down) Demo.article false
           (Demo.embed Demo.article)
           (Reference.search Demo.points (Demo.embed Demo.article) 5 (6 # 10))
           (Py.PyExc "APITimeoutError" "Request timed out.") Demo.fresh); reflexivity.
Defined.

Lemma include_examples_controls_payload_witness :
  exists response w',
    Task1.post_classify (H := Demo.healthy) Demo.article true Demo.fresh
      = (Task1.Http200 response, w') /\
    Task1.r_retrieved_examples response =
      Some (map (fun hit => Task1.mkRetrievedExample (Task1.p_text (Task1.sp_payload hit))
                              (Task1.p_label (Task1.sp_payload hit))
                              (Task1.p_category (Task1.sp_payload hit)) (Task1.sp_score hit))
                (Reference.search Demo.points (Demo.embed Demo.article) 5 (6 # 10))).
Proof.
  apply (include_examples_controls_payload (H := Demo.healthy) Demo.article true
           (Demo.embed Demo.article)
           (Reference.search Demo.points (Demo.embed Demo.article) 5 (6 # 10))
           Demo.fresh); reflexivity.
Defined.

Lemma one_call_per_collaborator_witness :
  exists response w',
    Task1.classify_text (H := Demo.healthy) (Task1.mkRequest Demo.article) false Demo.fresh
      = (Ok response, w') /\
    trace w' = trace Demo.fresh ++
      [EvNode "retrieve"; EvEmbed Demo.article; EvSearch 5 (6 # 10); EvNode "classify";
       EvLLM (Task1.classify_messages Demo.article
                (map Task1.example_of
                   (Reference.search Demo.points (Demo.embed Demo.article) 5 (6 # 10))));
       EvDbAdd; EvDbCommit].
Proof.
  apply (one_call_per_collaborator (H := Demo.healthy) Demo.article false
           (Demo.embed Demo.article)
           (Reference.search Demo.points (Demo.embed Demo.article) 5 (6 # 10))
           Demo.fresh); reflexivity.
Defined.


Lemma history_pages_tile_witness :
  exists first second both,
    History.get_history 0 1 DemoHistory.served = (Ok first, DemoHistory.served) /\
    History.get_history (0 + 1) 1 DemoHistory.served = (Ok second, DemoHistory.served) /\
    History.get_history 0 (1 + 1) DemoHistory.served = (Ok both, DemoHistory.served) /\
    History.records both = History.records first ++ History.records second.
Proof.
  apply (history_pages_tile 0 1 1 DemoHistory.served). exact served_table_ok.
Defined.

Lemma classification_is_first_in_history_witness :
  exists response w' body record,
    Task1.post_classify (H := Demo.healthy) Demo.article false Demo.fresh
      = (Task1.Http200 response, w') /\
    History.get_history_route None (Some 1%Z) w' = (History.Http200 body, w') /\
    History.total body = S (length (db_rows Demo.fresh)) /\
    History.records body = [record] /\
    History.hr_id record = (Z.of_nat (length (db_rows Demo.fresh)) + 1)%Z /\
    History.hr_text record = Demo.article /\
    VInt (History.hr_predicted_label record) = Task1.r_predicted_label response /\
    VStr (History.hr_predicted_category record) = Task1.r_predicted_category response /\
    History.hr_num_retrieved_examples record
    = length (Reference.search Demo.points (Demo.embed Demo.article) 5 (6 # 10)).
Proof.
  apply (classification_is_first_in_history (H := Demo.healthy) Demo.article false
           (Demo.embed Demo.article)
           (Reference.search Demo.points (Demo.embed Demo.article) 5 (6 # 10))
           Demo.fresh); reflexivity.
Defined.

Lemma history_never_fails_after_requests_witness :
  exists body,
    History.get_history_route (Some 0%Z) (Some 10%Z)
      (after_requests (H := Demo.llm_down) DemoHistory.requests Demo.fresh)
      = (History.Http200 body,
         after_requests (H := Demo.llm_down) DemoHistory.requests Demo.fresh) /\
    History.total body <= length DemoHistory.requests.
Proof.
  apply (history_never_fails_after_requests (H := Demo.llm_down) DemoHistory.requests 0 10
           Demo.fresh); reflexivity.
Defined.

Lemma failed_article_is_labelled_zero_witness :
  exists saved final w',
    Predictions.generate_predictions (H := Demo.embedding_down) DemoHistory.test_df 2
      Demo.fresh = (Ok tt, saved ++ [final], w') /\
    length final = length DemoHistory.test_df /\
    final !! 1 = Some (VInt 0).
Proof.
  apply (failed_article_is_labelled_zero (H := Demo.embedding_down) DemoHistory.test_df 2 1
           "Liverpool wins the derby" (Py.PyExc "APIConnectionError" "Connection error.")
           Demo.fresh).
  - reflexivity.
  - left. reflexivity.
Defined.

Lemma script_label_agrees_with_endpoint_witness :
  exists saved final w' response w0',
    Predictions.generate_predictions (H := Demo.healthy) DemoHistory.test_df 2 Demo.fresh
      = (Ok tt, saved ++ [final], w') /\
    Task1.classify_text (H := Demo.healthy) (Task1.mkRequest "New laptop chips announced")
      true DemoHistory.served = (Ok response, w0') /\
    final !! 2 = Some (Task1.r_predicted_label response).
Proof.
  apply (script_label_agrees_with_endpoint (H := Demo.healthy) DemoHistory.test_df 2 2
           "New laptop chips announced" (Demo.embed "New laptop chips announced")
           (Reference.search Demo.points (Demo.embed "New laptop chips announced") 5 (6 # 10))
           true Demo.fresh DemoHistory.served).
  - discriminate.
  - reflexivity.
  - reflexivity.
  - reflexivity.
  - reflexivity.
Defined.


(** * The chat endpoints *)

Section ChatGraph.
Import Task2.
Context `{Providers}.

Lemma invoke_chatbot_ok (s : gmap string value) (cid : value)
    (history : list (gmap string string)) (user_text : string) (w : World Empty_set) :
  s !! "conversation_id" = Some cid ->
  s !! "conversation_history" = Some (VHistory history) ->
  s !! "user_message" = Some (VStr user_text) ->
  exists final,
    LangGraph.invoke chatbot_graph s w =
      (Ok final,
       mkWorld (ticks w)
               (trace w ++
                [EvNode "retrieve_context"; EvNode "generate_response";
                 EvLLM (chat_messages (format_history history) user_text)])
               (db_pending w) (db_rows w)) /\
    final !! "assistant_response"
    = Some (VStr (chat_outcome (chat_messages (format_history history) user_text))) /\
    final !! "model_used" = Some (VStr settings_openai_model).
Proof.
  intros Hc Hh Hu.
  rewrite invoke_chatbot. unfold two_stage, bind, log, ret.
  rewrite (retrieve_context_node_run s cid history _ Hc Hh).
  cbn [ticks trace db_pending db_rows].
  match goal with
  | |- context [generate_response_node ?s1 ?w1] =>
      assert (s1 !! "formatted_history" = Some (VStr (format_history history))) as Hf1;
      [|assert (s1 !! "user_message" = Some (VStr user_text)) as Hu1;
        [|rewrite (generate_response_node_run s1 _ user_text w1 Hf1 Hu1)]]
  end.
  - apply apply_update_written; [|rewrite list_elem_of_singleton; discriminate|reflexivity].
    apply (bool_decide_unpack _). vm_compute. exact I.
  - rewrite apply_update_frame; [exact Hu|].
    unfold keys. cbn. rewrite !elem_of_cons, elem_of_nil. intuition discriminate.
  - eexists. split.
    { cbn [ticks trace db_pending db_rows]. rewrite <- !app_assoc. reflexivity. }
    assert (NoDup (keys (respond_update
                           (chat_outcome (chat_messages (format_history history) user_text)))))
      as Hnd by (apply (bool_decide_unpack _); vm_compute; exact I).
    split; (apply apply_update_written;
            [exact Hnd | rewrite list_elem_of_singleton; discriminate | reflexivity]).
Qed.

End ChatGraph.

Section ChatStore.
Import Chat.

Lemma messages_app (rows1 rows2 : list Entity) :
  messages (rows1 ++ rows2) = messages rows1 ++ messages rows2.
Proof. apply omap_app. Qed.

Lemma conversations_app (rows1 rows2 : list Entity) :
  conversations (rows1 ++ rows2) = conversations rows1 ++ conversations rows2.
Proof. apply omap_app. Qed.

Lemma messages_update (c : Conversation) (rows : list Entity) :
  messages (update_conversation c rows) = messages rows.
Proof.
  induction rows as [|[c'|m] rows IH]; [reflexivity| |].
  - cbn. destruct (String.eqb (c_id c') (c_id c)); exact IH.
  - cbn. f_equal. exact IH.
Qed.

Lemma conversations_update (c : Conversation) (rows : list Entity) :
  conversations (update_conversation c rows)
  = map (fun c' => if String.eqb (c_id c') (c_id c) then c else c') (conversations rows).
Proof.
  induction rows as [|[c'|m] rows IH]; [reflexivity| |].
  - cbn. destruct (String.eqb (c_id c') (c_id c)); cbn; f_equal; exact IH.
  - cbn. exact IH.
Qed.

(** The conversations of another id are not touched by an update. *)
Lemma filter_update_other (c : Conversation) (id other : string) (l : list Conversation) :
  other <> id -> c_id c = id ->
  filter (fun c' => c_id c' = other)
         (map (fun c' => if String.eqb (c_id c') id then c else c') l)
  = filter (fun c' => c_id c' = other) l.
Proof.
  intros Hother Hid. induction l as [|c' l IH]; [reflexivity|].
  cbn [map]. rewrite !filter_cons, IH.
  destruct (String.eqb_spec (c_id c') id) as [Heq|Hne]; [|reflexivity].
  destruct (decide (c_id c = other)) as [Hc|Hc]; [congruence|].
  destruct (decide (c_id c' = other)) as [Hc'|Hc']; [congruence|reflexivity].
Qed.

(** The conversations of the updated id all become the new row. *)
Lemma filter_update_same (c : Conversation) (id : string) (l : list Conversation) :
  c_id c = id ->
  filter (fun c' => c_id c' = id)
         (map (fun c' => if String.eqb (c_id c') id then c else c') l)
  = map (fun _ => c) (filter (fun c' => c_id c' = id) l).
Proof.
  intros Hid. induction l as [|c' l IH]; [reflexivity|].
  cbn [map]. rewrite !filter_cons, IH.
  destruct (String.eqb_spec (c_id c') id) as [Heq|Hne].
  - destruct (decide (c_id c = id)) as [_|Hc]; [|contradiction].
    destruct (decide (c_id c' = id)) as [_|Hc']; [reflexivity|contradiction].
  - destruct (decide (c_id c' = id)) as [Hc'|_]; [contradiction|reflexivity].
Qed.

Lemma order_by_timestamp_sorted (l : list MessageRow) :
  StronglySorted (fun a b => (m_timestamp a < m_timestamp b)%Q) l ->
  order_by_timestamp l = l.
Proof.
  induction 1 as [|a l Hsorted IH Hall]; [reflexivity|].
  cbn [order_by_timestamp foldr]. fold (order_by_timestamp l). rewrite IH.
  destruct l as [|b l]; [reflexivity|].
  cbn [insert_by_timestamp].
  apply Forall_cons in Hall as [Hab _].
  apply Qlt_le_weak, Qle_bool_iff in Hab. rewrite Hab. reflexivity.
Qed.

Lemma StronglySorted_filter {A} (R : A -> A -> Prop) (P : A -> Prop)
    `{forall a, Decision (P a)} (l : list A) :
  StronglySorted R l -> StronglySorted R (filter P l).
Proof.
  induction 1 as [|a l Hsorted IH Hall]; [constructor|].
  rewrite filter_cons. destruct (decide (P a)); [|exact IH].
  constructor; [exact IH|].
  apply Forall_forall. intros b Hb. apply list_elem_of_filter in Hb as [_ Hb].
  rewrite Forall_forall in Hall. auto.
Qed.


Lemma StronglySorted_snoc {A} (R : A -> A -> Prop) (l : list A) (a : A) :
  StronglySorted R l -> Forall (fun b => R b a) l -> StronglySorted R (l ++ [a]).
Proof.
  induction 1 as [|b l Hsorted IH Hall]; intros Hlast.
  - repeat constructor.
  - apply Forall_cons in Hlast as [Hba Hlast]. cbn. constructor; [auto|].
    apply Forall_app. split; [exact Hall|]. repeat constructor. exact Hba.
Qed.

End ChatStore.

Section ChatClock.
Import Chat.
Context `{Clock}.

Lemma clock_lt : clock_increases -> forall a b, a < b -> (clock a < clock b)%Q.
Proof.
  intros Hclock a b Hab. induction Hab as [|b Hab IH]; [apply Hclock|].
  eapply Qlt_trans; [exact IH|apply Hclock].
Qed.

End ChatClock.

Section ChatRun.
Import Chat.
Context `{Task2.Providers} `{Clock}.

Lemma fits_le (limit : nat) (s : string) : String.length s <= limit -> fits limit s = true.
Proof. intros Hle. apply Nat.leb_le. exact Hle. Qed.

Lemma write_message_run (m : MessageRow) (w : Wh) :
  columns_ok (EMessage m) = true ->
  write_row (EMessage m) w
  = (Ok tt, mkWorld (ticks w) (trace w) (db_pending w)
              (db_rows w ++
               [EMessage (mkMessageRow (Some (Z.of_nat (length (messages (db_rows w))) + 1)%Z)
                            (m_conversation_id m) (m_sender m) (m_text m)
                            (m_timestamp m) (m_model_used m))])).
Proof. intros Hcolumns. unfold write_row. rewrite Hcolumns. reflexivity. Qed.

Lemma write_conversation_update (c stored : Conversation) (w : Wh) :
  columns_ok (EConversation c) = true ->
  stored ∈ conversations (db_rows w) ->
  c_id stored = c_id c ->
  write_row (EConversation c) w
  = (Ok tt, mkWorld (ticks w) (trace w) (db_pending w) (update_conversation c (db_rows w))).
Proof.
  intros Hcolumns Hstored Hid. unfold write_row. rewrite Hcolumns.
  destruct (filter (fun c' => c_id c' = c_id c) (conversations (db_rows w))) as [|c' l] eqn:Hf;
    [|reflexivity].
  assert (stored ∈ filter (fun c' => c_id c' = c_id c) (conversations (db_rows w))) as Hin
    by (apply list_elem_of_filter; auto).
  rewrite Hf in Hin. apply elem_of_nil in Hin. contradiction.
Qed.

Lemma write_conversation_insert (id : string) (w : Wh) :
  String.length id <= 100 ->
  filter (fun c' => c_id c' = id) (conversations (db_rows w)) = [] ->
  write_row (EConversation (mkConversation id None None None)) w
  = (Ok tt, mkWorld (S (S (ticks w))) (trace w) (db_pending w)
              (db_rows w ++
               [EConversation (mkConversation id None (Some (clock (ticks w)))
                                 (Some (clock (S (ticks w)))))])).
Proof.
  intros Hid Hnone. unfold write_row, columns_ok. cbn [c_id c_title from_option].
  rewrite (fits_le _ _ Hid). cbn [andb]. rewrite Hnone. reflexivity.
Qed.

(** A turn in closed form, on a conversation that is stored. *)
Lemma chat_turn_run (id text : string) (c : Conversation) (w : Wh) :
  db_pending w = [] ->
  columns_ok (EConversation c) = true ->
  c_id c = id ->
  c ∈ conversations (db_rows w) ->
  let history :=
    order_by_timestamp
      (filter (fun m => m_conversation_id m = id) (messages (db_rows w))) in
  let reply :=
    Task2.chat_outcome
      (Task2.chat_messages (Task2.format_history (map history_entry history)) text) in
  let t := ticks w in
  let n := Z.of_nat (length (messages (db_rows w))) in
  chat_turn (mkChatRequest id text) c w
  = (Ok (mkChatResponse id reply (clock (S t)) (Some Task2.settings_openai_model)),
     mkWorld (S (S (S t)))
       (trace w ++
        [EvNode "retrieve_context"; EvNode "generate_response";
         EvLLM (Task2.chat_messages (Task2.format_history (map history_entry history)) text);
         EvDbAdd; EvDbAdd; EvDbCommit])
       []
       (update_conversation
          (mkConversation (c_id c) (c_title c) (c_created_at c) (Some (clock (S (S t)))))
          (db_rows w ++
           [EMessage (mkMessageRow (Some (n + 1)%Z) id "user" text (clock t) None);
            EMessage (mkMessageRow (Some (n + 2)%Z) id "assistant" reply (clock (S t))
                                   (Some Task2.settings_openai_model))]))).
Proof.
  intros Hpending Hcolumns Hcid Hstored history reply t n.
  unfold chat_turn. unfold bind at 1. unfold query_messages at 1.
  cbn [conversation_id Chat.message].
  fold history.
  unfold bind at 1. unfold run_in_executor.
  match goal with
  | |- context [LangGraph.invoke Task2.chatbot_graph ?s0 ?w0] =>
      destruct (invoke_chatbot_ok s0 (VStr id) (map history_entry history) text w0
                  eq_refl eq_refl eq_refl) as (final & Hrun & Hresponse & Hmodel);
      rewrite Hrun; clear Hrun
  end.
  cbn [ticks trace db_pending db_rows].
  unfold bind at 1. unfold utcnow at 1. cbn [ticks trace db_pending db_rows].
  unfold bind at 1. unfold db_add at 1. cbn [ticks trace db_pending db_rows].
  unfold bind at 1. unfold bind at 1. unfold getitem at 1. rewrite Hresponse. unfold ret at 1.
  unfold as_str at 1. unfold ret at 1.
  fold reply.
  unfold bind at 1. unfold utcnow at 1. cbn [ticks trace db_pending db_rows].
  unfold bind at 1. rewrite Hmodel. unfold optional_str at 1. unfold ret at 1.
  unfold bind at 1. unfold db_add at 1. cbn [ticks trace db_pending db_rows].
  unfold bind at 1. unfold utcnow at 1. cbn [ticks trace db_pending db_rows].
  unfold bind at 1. unfold db_set at 1. cbn [ticks trace db_pending db_rows].
  unfold bind at 1. unfold db_commit at 1. cbn [ticks trace db_pending db_rows].
  rewrite Hpending. cbn [app flush].
  assert (fits 100 id = true) as Hfits.
  { apply andb_prop in Hcolumns as [Hfit _]. rewrite <- Hcid. exact Hfit. }
  unfold bind, ret.
  rewrite write_message_run
    by (unfold columns_ok; cbn [m_conversation_id m_sender m_model_used from_option];
        rewrite Hfits; reflexivity).
  cbn [ticks trace db_pending db_rows m_conversation_id m_sender m_text m_timestamp
       m_model_used].
  rewrite write_message_run
    by (unfold columns_ok; cbn [m_conversation_id m_sender m_model_used from_option];
        rewrite Hfits; reflexivity).
  cbn [ticks trace db_pending db_rows m_conversation_id m_sender m_text m_timestamp
       m_model_used].
  rewrite (write_conversation_update _ c); [|exact Hcolumns| |reflexivity].
  2:{ cbn [db_rows]. rewrite !conversations_app. apply elem_of_app. left.
      apply elem_of_app. left. exact Hstored. }
  cbn [ticks trace db_pending db_rows].
  rewrite messages_app, length_app.
  change (length (messages [EMessage _])) with 1.
  rewrite <- !app_assoc. cbn [app].
  subst t n. do 9 f_equal. lia.
Qed.

(** The request of a stored conversation. *)
Lemma chat_existing_run (id text : string) (c : Conversation) (rest : list Conversation)
    (w : Wh) :
  db_pending w = [] ->
  Forall (fun row => columns_ok row = true) (db_rows w) ->
  filter (fun c => c_id c = id) (conversations (db_rows w)) = c :: rest ->
  chat (mkChatRequest id text) w = chat_turn (mkChatRequest id text) c w /\
  c_id c = id /\ c ∈ conversations (db_rows w) /\ columns_ok (EConversation c) = true.
Proof.
  intros Hpending Hcolumns Hfilter.
  assert (c ∈ filter (fun c => c_id c = id) (conversations (db_rows w))) as Hin
    by (rewrite Hfilter; left).
  apply list_elem_of_filter in Hin as [Hcid Hin].
  assert (columns_ok (EConversation c) = true) as Hc.
  { unfold conversations in Hin. apply list_elem_of_omap in Hin as (row & Hrow & Hsome).
    rewrite Forall_forall in Hcolumns. specialize (Hcolumns row Hrow).
    destruct row as [c'|m]; [|discriminate]. inversion Hsome; subst. exact Hcolumns. }
  split; [|auto].
  unfold chat, try_except. unfold bind at 1. unfold query_conversation at 1.
  cbn [conversation_id]. rewrite Hfilter. cbn [head].
  unfold bind at 1. unfold ret at 1.
  rewrite (chat_turn_run id text c w Hpending Hc Hcid Hin). reflexivity.
Qed.

(** The first request of a conversation: the row is inserted, with two
    readings of the clock, then the turn runs. *)
Lemma chat_new_run (id text : string) (w : Wh) :
  db_pending w = [] ->
  String.length id <= 100 ->
  filter (fun c => c_id c = id) (conversations (db_rows w)) = [] ->
  let c := mkConversation id None (Some (clock (ticks w))) (Some (clock (S (ticks w)))) in
  let w1 := mkWorld (S (S (ticks w))) (trace w ++ [EvDbAdd; EvDbCommit]) []
                    (db_rows w ++ [EConversation c]) in
  chat (mkChatRequest id text) w = chat_turn (mkChatRequest id text) c w1.
Proof.
  intros Hpending Hid Hnone c w1.
  unfold chat, try_except. unfold bind at 1. unfold query_conversation at 1.
  cbn [conversation_id]. rewrite Hnone. cbn [head].
  unfold bind at 1. unfold bind at 1. unfold db_add at 1.
  unfold bind at 1. unfold db_commit at 1. cbn [ticks trace db_pending db_rows].
  rewrite Hpending. cbn [app flush]. unfold bind at 1.
  rewrite write_conversation_insert by assumption.
  cbn [ticks trace db_pending db_rows]. unfold ret at 1.
  cbn [ticks trace db_pending db_rows].
  unfold db_refresh_conversation. unfold bind at 1. unfold query_conversation at 1.
  cbn [ticks trace db_pending db_rows]. rewrite conversations_app, filter_app, Hnone.
  change (conversations [EConversation ?x]) with [x].
  rewrite app_nil_l, filter_cons. cbn [c_id].
  destruct (decide (id = id)) as [_|Hne]; [|contradiction].
  rewrite filter_nil. cbn [head]. unfold ret at 1.
  rewrite <- !app_assoc. cbn [app]. fold c. fold w1.
  assert (columns_ok (EConversation c) = true) as Hc.
  { unfold c, columns_ok. cbn [c_id c_title from_option].
    rewrite (fits_le _ _ Hid). reflexivity. }
  assert (c ∈ conversations (db_rows w1)) as Hin.
  { unfold w1. cbn [db_rows]. rewrite conversations_app. apply elem_of_app. right. left. }
  rewrite (chat_turn_run id text c w1 eq_refl Hc eq_refl Hin). reflexivity.
Qed.

End ChatRun.

Section ChatFacts.
Import Chat.
Context `{Task2.Providers} `{Clock}.

Lemma store_ok_history (id : string) (w : Wh) :
  store_ok w ->
  order_by_timestamp (filter (fun m => m_conversation_id m = id) (messages (db_rows w)))
  = filter (fun m => m_conversation_id m = id) (messages (db_rows w)).
Proof.
  intros (_ & _ & _ & Hsorted & _).
  apply order_by_timestamp_sorted, StronglySorted_filter, Hsorted.
Qed.

Lemma columns_ok_update (c : Conversation) (rows : list Entity) :
  columns_ok (EConversation c) = true ->
  Forall (fun row => columns_ok row = true) rows ->
  Forall (fun row => columns_ok row = true) (update_conversation c rows).
Proof.
  intros Hc Hrows. unfold update_conversation. apply Forall_map.
  eapply Forall_impl; [exact Hrows|].
  intros [c'|m] Hrow; cbn; [|exact Hrow].
  destruct (String.eqb (c_id c') (c_id c)); assumption.
Qed.

(** What a turn does to a store, on a conversation that is stored. *)
Lemma chat_turn_facts (id text : string) (c : Conversation) (w : Wh) :
  clock_increases ->
  store_ok w ->
  c_id c = id ->
  c ∈ conversations (db_rows w) ->
  let history := filter (fun m => m_conversation_id m = id) (messages (db_rows w)) in
  let reply :=
    Task2.chat_outcome
      (Task2.chat_messages (Task2.format_history (map history_entry history)) text) in
  let t := ticks w in
  let n := Z.of_nat (length (messages (db_rows w))) in
  exists w' c',
    chat_turn (mkChatRequest id text) c w
    = (Ok (mkChatResponse id reply (clock (S t)) (Some Task2.settings_openai_model)), w') /\
    ticks w' = S (S (S t)) /\
    trace w' = trace w ++
      [EvNode "retrieve_context"; EvNode "generate_response";
       EvLLM (Task2.chat_messages (Task2.format_history (map history_entry history)) text);
       EvDbAdd; EvDbAdd; EvDbCommit] /\
    messages (db_rows w')
    = messages (db_rows w) ++
      [mkMessageRow (Some (n + 1)%Z) id "user" text (clock t) None;
       mkMessageRow (Some (n + 2)%Z) id "assistant" reply (clock (S t))
                    (Some Task2.settings_openai_model)] /\
    head (filter (fun c => c_id c = id) (conversations (db_rows w'))) = Some c' /\
    c_created_at c' = c_created_at c /\
    c_updated_at c' = Some (clock (S (S t))) /\
    (forall other, other <> id ->
       filter (fun c => c_id c = other) (conversations (db_rows w'))
       = filter (fun c => c_id c = other) (conversations (db_rows w))) /\
    store_ok w'.
Proof.
  intros Hclock Hok Hcid Hstored history reply t n.
  pose proof Hok as (Hpending & Hcolumns & Hstamps & Hsorted & Hpast).
  assert (columns_ok (EConversation c) = true) as Hc.
  { unfold conversations in Hstored.
    apply list_elem_of_omap in Hstored as (row & Hrow & Hsome).
    rewrite Forall_forall in Hcolumns. specialize (Hcolumns row Hrow).
    destruct row as [c0|m]; [|discriminate]. inversion Hsome; subst. exact Hcolumns. }
  assert (fits 100 id = true) as Hfits.
  { apply andb_prop in Hc as [Hfit _]. rewrite <- Hcid. exact Hfit. }
  pose proof (chat_turn_run id text c w Hpending Hc Hcid Hstored) as Hrun.
  cbv zeta in Hrun. rewrite (store_ok_history id w Hok) in Hrun.
  fold history in Hrun. fold reply in Hrun. fold t in Hrun. fold n in Hrun.
  set (c' := mkConversation (c_id c) (c_title c) (c_created_at c)
                            (Some (clock (S (S t))))) in *.
  set (user_msg := mkMessageRow (Some (n + 1)%Z) id "user" text (clock t) None) in *.
  set (assistant_msg := mkMessageRow (Some (n + 2)%Z) id "assistant" reply (clock (S t))
                                     (Some Task2.settings_openai_model)) in *.
  eexists _, c'. split; [exact Hrun|]. cbn [ticks trace db_pending db_rows].
  split; [reflexivity|]. split; [reflexivity|].
  assert (messages (update_conversation c'
                      (db_rows w ++ [EMessage user_msg; EMessage assistant_msg]))
          = messages (db_rows w) ++ [user_msg; assistant_msg]) as Hmessages.
  { rewrite messages_update, messages_app. reflexivity. }
  assert (conversations (update_conversation c'
                           (db_rows w ++ [EMessage user_msg; EMessage assistant_msg]))
          = map (fun c0 => if String.eqb (c_id c0) id then c' else c0)
                (conversations (db_rows w))) as Hconversations.
  { rewrite conversations_update, conversations_app.
    change (conversations [EMessage user_msg; EMessage assistant_msg]) with (@nil Conversation).
    rewrite app_nil_r. change (c_id c') with (c_id c). rewrite Hcid. reflexivity. }
  split; [exact Hmessages|].
  split.
  { rewrite Hconversations, (filter_update_same c' id _ Hcid).
    assert (c ∈ filter (fun c0 => c_id c0 = id) (conversations (db_rows w))) as Hin
      by (apply list_elem_of_filter; split; [exact Hcid|exact Hstored]).
    destruct (filter (fun c0 => c_id c0 = id) (conversations (db_rows w)));
      [apply elem_of_nil in Hin; contradiction|reflexivity]. }
  split; [reflexivity|]. split; [reflexivity|].
  split.
  { intros other Hother. rewrite Hconversations.
    apply filter_update_other; [exact Hother|exact Hcid]. }
  (* the store is left as the service leaves it *)
  split; [reflexivity|]. cbn [ticks trace db_pending db_rows].
  split.
  { apply columns_ok_update; [exact Hc|].
    apply Forall_app. split; [exact Hcolumns|].
    repeat constructor; unfold columns_ok;
      cbn [m_conversation_id m_sender m_model_used from_option user_msg assistant_msg];
      rewrite Hfits; reflexivity. }
  assert (forall a b, a < b -> (clock a < clock b)%Q) as Hlt by (apply clock_lt, Hclock).
  split.
  { rewrite Hconversations. apply Forall_map.
    pose proof Hstamps as Hall. rewrite Forall_forall in Hall.
    destruct (Hall c Hstored) as (created & updated & Hcreated & Hupdated & Horder & Hbound).
    eapply Forall_impl; [exact Hstamps|].
    intros c0 (created0 & updated0 & Hcreated0 & Hupdated0 & Horder0 & Hbound0). cbn.
    destruct (String.eqb (c_id c0) id).
    - exists created, (clock (S (S t))). cbn [c_created_at c_updated_at c'].
      split; [exact Hcreated|]. split; [reflexivity|]. split.
      + eapply Qlt_trans; [exact Horder|]. apply Hbound. unfold t. lia.
      + intros k Hk. apply Hlt. lia.
    - exists created0, updated0. split; [exact Hcreated0|]. split; [exact Hupdated0|].
      split; [exact Horder0|]. intros k Hk. apply Hbound0. unfold t in Hk. lia. }
  rewrite Hmessages.
  split.
  { change [user_msg; assistant_msg] with ([user_msg] ++ [assistant_msg]).
    rewrite app_assoc.
    apply StronglySorted_snoc; [apply StronglySorted_snoc; [exact Hsorted|]|].
    - eapply Forall_impl; [exact Hpast|]. intros m Hm. apply Hm. unfold t. lia.
    - apply Forall_app. split.
      + eapply Forall_impl; [exact Hpast|]. intros m Hm. apply Hm. unfold t. lia.
      + repeat constructor. cbn [m_timestamp user_msg assistant_msg]. apply Hlt. lia. }
  apply Forall_app. split.
  - eapply Forall_impl; [exact Hpast|]. intros m Hm k Hk. apply Hm. unfold t in Hk. lia.
  - repeat constructor; intros k Hk; cbn [m_timestamp user_msg assistant_msg];
      apply Hlt; lia.
Qed.


Lemma store_ok_close (w : Wh) : store_ok w -> store_ok (db_close w).
Proof. intros (_ & Hrest). split; [reflexivity|exact Hrest]. Qed.

(** A valid request on a store of the service, in closed form. *)
Lemma post_chat_ok (id text : string) (w : Wh) :
  clock_increases ->
  store_ok w ->
  String.length id <= 100 ->
  1 <= String.length text ->
  let history := filter (fun m => m_conversation_id m = id) (messages (db_rows w)) in
  let reply :=
    Task2.chat_outcome
      (Task2.chat_messages (Task2.format_history (map history_entry history)) text) in
  let n := Z.of_nat (length (messages (db_rows w))) in
  exists t w' c' pre,
    post_chat (Some id) (Some text) w
    = (Http200 (mkChatResponse id reply (clock (S t)) (Some Task2.settings_openai_model)),
       w') /\
    ticks w <= t /\ ticks w' = S (S (S t)) /\
    (pre = [] \/ pre = [EvDbAdd; EvDbCommit]) /\
    trace w' = trace w ++ pre ++
      [EvNode "retrieve_context"; EvNode "generate_response";
       EvLLM (Task2.chat_messages (Task2.format_history (map history_entry history)) text);
       EvDbAdd; EvDbAdd; EvDbCommit] /\
    messages (db_rows w')
    = messages (db_rows w) ++
      [mkMessageRow (Some (n + 1)%Z) id "user" text (clock t) None;
       mkMessageRow (Some (n + 2)%Z) id "assistant" reply (clock (S t))
                    (Some Task2.settings_openai_model)] /\
    head (filter (fun c => c_id c = id) (conversations (db_rows w'))) = Some c' /\
    is_Some (c_created_at c') /\
    c_updated_at c' = Some (clock (S (S t))) /\
    (forall other, other <> id ->
       filter (fun c => c_id c = other) (conversations (db_rows w'))
       = filter (fun c => c_id c = other) (conversations (db_rows w))) /\
    store_ok w' /\ db_close w' = w' /\
    (forall c, head (filter (fun c => c_id c = id) (conversations (db_rows w))) = Some c ->
       c_created_at c' = c_created_at c).
Proof.
  intros Hclock Hok Hid Htext history reply n.
  pose proof Hok as (Hpending & Hcolumns & Hstamps & Hsorted & Hpast).
  unfold post_chat, parse_ChatRequest.
  apply Nat.leb_le in Htext. rewrite Htext.
  destruct (filter (fun c => c_id c = id) (conversations (db_rows w))) as [|c rest] eqn:Hfilter.
  - (* the conversation is created *)
    rewrite (chat_new_run id text w Hpending Hid Hfilter). cbv zeta.
    set (c := mkConversation id None (Some (clock (ticks w))) (Some (clock (S (ticks w))))).
    set (w1 := mkWorld (S (S (ticks w))) (trace w ++ [EvDbAdd; EvDbCommit]) []
                       (db_rows w ++ [EConversation c])).
    assert (messages (db_rows w1) = messages (db_rows w)) as Hmessages1.
    { unfold w1. cbn [db_rows]. rewrite messages_app.
      change (messages [EConversation c]) with (@nil MessageRow). apply app_nil_r. }
    assert (conversations (db_rows w1) = conversations (db_rows w) ++ [c]) as Hconversations1.
    { unfold w1. cbn [db_rows]. rewrite conversations_app. reflexivity. }
    assert (store_ok w1) as Hok1.
    { split; [reflexivity|]. split.
      { unfold w1. cbn [db_rows]. apply Forall_app. split; [exact Hcolumns|].
        repeat constructor. unfold columns_ok. cbn [c c_id c_title from_option].
        rewrite (fits_le _ _ Hid). reflexivity. }
      split.
      { rewrite Hconversations1. apply Forall_app. split.
        - eapply Forall_impl; [exact Hstamps|].
          intros c0 (created0 & updated0 & Hcreated0 & Hupdated0 & Horder0 & Hbound0).
          exists created0, updated0. split; [exact Hcreated0|]. split; [exact Hupdated0|].
          split; [exact Horder0|]. intros k Hk. apply Hbound0.
          unfold w1 in Hk. cbn [ticks] in Hk. lia.
        - repeat constructor. exists (clock (ticks w)), (clock (S (ticks w))).
          split; [reflexivity|]. split; [reflexivity|]. split; [apply Hclock|].
          intros k Hk. apply (clock_lt Hclock). unfold w1 in Hk. cbn [ticks] in Hk. lia. }
      rewrite Hmessages1. split; [exact Hsorted|].
      eapply Forall_impl; [exact Hpast|]. intros m Hm k Hk. apply Hm.
      unfold w1 in Hk. cbn [ticks] in Hk. lia. }
    destruct (chat_turn_facts id text c w1 Hclock Hok1 eq_refl)
      as (w' & c' & Hrun & Hticks & Htrace & Hrows & Hhead & Hcreated & Hupdated & Hothers
          & Hok').
    { rewrite Hconversations1. apply elem_of_app. right. left. }
    rewrite Hmessages1 in Hrun, Htrace, Hrows.
    rewrite Hrun. cbn [respond].
    exists (ticks w1), (db_close w'), c', [EvDbAdd; EvDbCommit].
    cbn [db_close ticks trace db_rows].
    split; [reflexivity|]. split; [unfold w1; cbn [ticks]; lia|].
    split; [exact Hticks|]. split; [right; reflexivity|].
    split; [rewrite Htrace; unfold w1; cbn [trace]; rewrite <- !app_assoc; reflexivity|].
    split; [exact Hrows|]. split; [exact Hhead|].
    split; [rewrite Hcreated; eexists; reflexivity|].
    split; [exact Hupdated|].
    split; [|split; [apply store_ok_close, Hok'|split; [reflexivity|discriminate]]].
    intros other Hother. rewrite (Hothers other Hother), Hconversations1, filter_app.
    rewrite filter_cons. cbn [c c_id].
    destruct (decide (id = other)) as [Heq|_]; [congruence|].
    rewrite filter_nil. apply app_nil_r.
  - (* the conversation is stored *)
    destruct (chat_existing_run id text c rest w Hpending Hcolumns Hfilter)
      as (Hchat & Hcid & Hstored & _).
    rewrite Hchat.
    destruct (chat_turn_facts id text c w Hclock Hok Hcid Hstored)
      as (w' & c' & Hrun & Hticks & Htrace & Hrows & Hhead & Hcreated & Hupdated & Hothers
          & Hok').
    rewrite Hrun. cbn [respond].
    exists (ticks w), (db_close w'), c', [].
    cbn [db_close ticks trace db_rows].
    split; [reflexivity|]. split; [lia|].
    split; [exact Hticks|]. split; [left; reflexivity|].
    split; [exact Htrace|].
    split; [exact Hrows|]. split; [exact Hhead|].
    split.
    { rewrite Hcreated. rewrite Forall_forall in Hstamps.
      destruct (Hstamps c Hstored) as (created & _ & -> & _). eexists. reflexivity. }
    split; [exact Hupdated|].
    split; [exact Hothers|]. split; [apply store_ok_close, Hok'|].
    split; [reflexivity|]. intros c0 Hc0. cbn [head] in Hc0. inversion Hc0; subst.
    exact Hcreated.
Qed.

End ChatFacts.

Section ChatInvariant.
Import Chat.
Context `{Task2.Providers} `{Clock}.

(** A conversation id over the limit of its column: the insertion of
    the conversation is refused, and the handler rolls back. *)
Lemma chat_refused (id text : string) (w : Wh) :
  db_pending w = [] ->
  100 < String.length id ->
  filter (fun c => c_id c = id) (conversations (db_rows w)) = [] ->
  exists detail,
    chat (mkChatRequest id text) w
    = (Raise (HTTPException 500 detail),
       mkWorld (ticks w) (trace w ++ [EvDbAdd; EvDbCommit; EvDbRollback]) [] (db_rows w)).
Proof.
  intros Hpending Hid Hnone.
  unfold chat, try_except. unfold bind at 1. unfold query_conversation at 1.
  cbn [conversation_id]. rewrite Hnone. cbn [head].
  unfold bind at 1. unfold bind at 1. unfold db_add at 1.
  unfold bind at 1. unfold db_commit at 1. cbn [ticks trace db_pending db_rows].
  rewrite Hpending. cbn [app flush]. unfold bind at 1.
  unfold write_row, columns_ok. cbn [c_id c_title from_option].
  assert (fits 100 id = false) as Hfits by (apply Nat.leb_gt; exact Hid).
  rewrite Hfits. cbn [andb]. unfold raise at 1.
  unfold bind, db_rollback, raise. cbn [ticks trace db_pending db_rows].
  eexists. rewrite <- !app_assoc. reflexivity.
Qed.

Lemma stored_id_fits (id : string) (c : Conversation) (rest : list Conversation)
    (rows : list Entity) :
  Forall (fun row => columns_ok row = true) rows ->
  filter (fun c => c_id c = id) (conversations rows) = c :: rest ->
  String.length id <= 100.
Proof.
  intros Hcolumns Hfilter.
  assert (c ∈ filter (fun c => c_id c = id) (conversations rows)) as Hin
    by (rewrite Hfilter; left).
  apply list_elem_of_filter in Hin as [Hcid Hin].
  unfold conversations in Hin. apply list_elem_of_omap in Hin as (row & Hrow & Hsome).
  rewrite Forall_forall in Hcolumns. specialize (Hcolumns row Hrow).
  destruct row as [c'|m]; [|discriminate]. inversion Hsome; subst.
  apply andb_prop in Hcolumns as [Hfit _]. apply Nat.leb_le in Hfit. exact Hfit.
Qed.

(** Every request, accepted or not, leaves a store of the service. *)
Lemma post_chat_keeps_store (body_conversation_id body_message : option string) (w : Wh) :
  clock_increases ->
  store_ok w ->
  store_ok (snd (post_chat body_conversation_id body_message w)).
Proof.
  intros Hclock Hok.
  destruct body_conversation_id as [id|], body_message as [text|];
    try solve [destruct body_conversation_id; exact Hok]; try exact Hok.
  destruct (Nat.leb_spec 1 (String.length text)) as [Htext|Htext].
  2:{ unfold post_chat, parse_ChatRequest.
      apply Nat.leb_gt in Htext. rewrite Htext. exact Hok. }
  destruct (Nat.le_gt_cases (String.length id) 100) as [Hid|Hid].
  - destruct (post_chat_ok id text w Hclock Hok Hid Htext)
      as (t & w' & c' & pre & Hrun & _ & _ & _ & _ & _ & _ & _ & _ & _ & Hok' & _ & _).
    rewrite Hrun. exact Hok'.
  - pose proof Hok as (Hpending & Hcolumns & Hrest).
    destruct (filter (fun c => c_id c = id) (conversations (db_rows w))) as [|c rest]
      eqn:Hfilter.
    + destruct (chat_refused id text w Hpending Hid Hfilter) as (detail & Hrun).
      unfold post_chat, parse_ChatRequest.
      apply Nat.leb_le in Htext. rewrite Htext, Hrun. cbn [respond snd].
      split; [reflexivity|]. split; [exact Hcolumns|exact Hrest].
    + pose proof (stored_id_fits id c rest (db_rows w) Hcolumns Hfilter). lia.
Qed.

Lemma after_chats_keeps_store (bodies : list (option string * option string)) (w : Wh) :
  clock_increases ->
  store_ok w ->
  store_ok (after_chats bodies w).
Proof.
  intros Hclock. revert w. induction bodies as [|[a b] bodies IH]; intros w Hok; [exact Hok|].
  change (after_chats ((a, b) :: bodies) w)
    with (after_chats bodies (snd (post_chat a b w))).
  apply IH, post_chat_keeps_store; assumption.
Qed.

Lemma empty_store_ok (ticks0 : nat) (events : list Event) :
  store_ok (mkWorld ticks0 events [] []).
Proof. repeat split; constructor. Qed.

(** The transcript of a store of the service is read in the order of
    the table. *)
Lemma transcript_stored (id : string) (w : Wh) :
  store_ok w ->
  transcript id w
  = map (fun m => (m_sender m, m_text m))
        (filter (fun m => m_conversation_id m = id) (messages (db_rows w))).
Proof. intros Hok. unfold transcript. rewrite (store_ok_history id w Hok). reflexivity. Qed.

Lemma history_entries (rows : list MessageRow) :
  map history_entry rows = map entry_of (map (fun m => (m_sender m, m_text m)) rows).
Proof. rewrite map_map. reflexivity. Qed.


End ChatInvariant.

Section ChatTheorems.
Import Chat.
Context `{Task2.Providers} `{Clock}.

(** The transcripts after two rows are added to the conversation [id]. *)
Lemma transcript_after (id : string) (user_msg assistant_msg : MessageRow) (w w' : Wh) :
  store_ok w -> store_ok w' ->
  messages (db_rows w') = messages (db_rows w) ++ [user_msg; assistant_msg] ->
  m_conversation_id user_msg = id ->
  m_conversation_id assistant_msg = id ->
  transcript id w'
  = transcript id w ++
    [(m_sender user_msg, m_text user_msg); (m_sender assistant_msg, m_text assistant_msg)] /\
  (forall other, other <> id -> transcript other w' = transcript other w).
Proof.
  intros Hok Hok' Hrows Huser Hassistant. split.
  - rewrite (transcript_stored id w' Hok'), (transcript_stored id w Hok), Hrows.
    rewrite filter_app, map_app, !filter_cons, filter_nil.
    destruct (decide (m_conversation_id user_msg = id)) as [_|Hne]; [|contradiction].
    destruct (decide (m_conversation_id assistant_msg = id)) as [_|Hne]; [|contradiction].
    reflexivity.
  - intros other Hother.
    rewrite (transcript_stored other w' Hok'), (transcript_stored other w Hok), Hrows.
    rewrite filter_app, map_app, !filter_cons, filter_nil.
    destruct (decide (m_conversation_id user_msg = other)) as [Heq|_]; [congruence|].
    destruct (decide (m_conversation_id assistant_msg = other)) as [Heq|_]; [congruence|].
    apply app_nil_r.
Qed.

Lemma prompt_of_stored (id text : string) (w : Wh) :
  store_ok w ->
  Task2.chat_messages
    (Task2.format_history
       (map history_entry
            (filter (fun m => m_conversation_id m = id) (messages (db_rows w))))) text
  = prompt_of (transcript id w) text.
Proof.
  intros Hok. unfold prompt_of. rewrite (transcript_stored id w Hok), history_entries.
  reflexivity.
Qed.

(** X20. A valid [POST /chat] on a store of the service is answered 200
    whatever the language model does: the reply is the model's answer to
    the prompt built from the stored transcript of the conversation (or
    the apology), [model_used] is the configured model, and exactly two
    messages are appended to the transcript of that conversation -- the
    user's, then the reply -- while the transcript of every other
    conversation is unchanged. *)
Theorem chat_is_answered_and_recorded (id text : string) (w : Wh) :
  clock_increases ->
  store_ok w ->
  String.length id <= 100 ->
  1 <= String.length text ->
  exists response w',
    post_chat (Some id) (Some text) w = (Http200 response, w') /\
    cr_conversation_id response = id /\
    cr_response response = Task2.chat_outcome (prompt_of (transcript id w) text) /\
    cr_model_used response = Some Task2.settings_openai_model /\
    transcript id w'
    = transcript id w ++ [("user", text); ("assistant", cr_response response)] /\
    (forall other, other <> id -> transcript other w' = transcript other w) /\
    store_ok w'.
Proof.
  intros Hclock Hok Hid Htext.
  destruct (post_chat_ok id text w Hclock Hok Hid Htext)
    as (t & w' & c' & pre & Hrun & _ & _ & _ & _ & Hrows & _ & _ & _ & _ & Hok' & _ & _).
  rewrite (prompt_of_stored id text w Hok) in Hrun, Hrows.
  destruct (transcript_after id _ _ w w' Hok Hok' Hrows eq_refl eq_refl) as [Hsame Hothers].
  cbn [m_sender m_text] in Hsame.
  eexists _, w'. split; [exact Hrun|]. cbn [cr_conversation_id cr_response cr_model_used].
  split; [reflexivity|]. split; [reflexivity|]. split; [reflexivity|].
  split; [exact Hsame|]. split; [exact Hothers|exact Hok'].
Qed.

(** X21. A valid [POST /chat] calls the language model exactly once,
    after both nodes of the graph have started, with the prompt built
    from the stored transcript and the new message; it then adds the two
    messages and commits once.  Only the first request of a
    conversation adds and commits before the graph runs, and no valid
    request rolls back. *)
Theorem chat_prompts_once_and_commits (id text : string) (w : Wh) :
  clock_increases ->
  store_ok w ->
  String.length id <= 100 ->
  1 <= String.length text ->
  exists response w' created,
    post_chat (Some id) (Some text) w = (Http200 response, w') /\
    trace w' = trace w ++ created ++
      [EvNode "retrieve_context"; EvNode "generate_response";
       EvLLM (prompt_of (transcript id w) text); EvDbAdd; EvDbAdd; EvDbCommit] /\
    (created = [] \/ created = [EvDbAdd; EvDbCommit]) /\
    (created = [] <-> id ∈ map c_id (conversations (db_rows w))).
Proof.
  intros Hclock Hok Hid Htext.
  pose proof Hok as (Hpending & Hcolumns & _).
  unfold post_chat, parse_ChatRequest.
  pose proof Htext as Hleb. apply Nat.leb_le in Hleb. rewrite Hleb.
  destruct (filter (fun c => c_id c = id) (conversations (db_rows w))) as [|c rest] eqn:Hfilter.
  - rewrite (chat_new_run id text w Hpending Hid Hfilter). cbv zeta.
    set (c := mkConversation id None (Some (clock (ticks w))) (Some (clock (S (ticks w))))).
    set (w1 := mkWorld (S (S (ticks w))) (trace w ++ [EvDbAdd; EvDbCommit]) []
                       (db_rows w ++ [EConversation c])).
    assert (columns_ok (EConversation c) = true) as Hc.
    { unfold c, columns_ok. cbn [c_id c_title from_option].
      rewrite (fits_le _ _ Hid). reflexivity. }
    assert (c ∈ conversations (db_rows w1)) as Hin.
    { unfold w1. cbn [db_rows]. rewrite conversations_app. apply elem_of_app. right. left. }
    rewrite (chat_turn_run id text c w1 eq_refl Hc eq_refl Hin). cbn [respond].
    assert (messages (db_rows w1) = messages (db_rows w)) as ->.
    { unfold w1. cbn [db_rows]. rewrite messages_app.
      change (messages [EConversation c]) with (@nil MessageRow). apply app_nil_r. }
    rewrite (store_ok_history id w Hok), (prompt_of_stored id text w Hok).
    eexists _, _, [EvDbAdd; EvDbCommit]. split; [reflexivity|].
    cbn [db_close trace w1]. split; [rewrite <- !app_assoc; reflexivity|].
    split; [right; reflexivity|]. split; [discriminate|].
    intros Hin'. apply list_elem_of_fmap in Hin' as (c0 & Hc0 & Hin').
    assert (c0 ∈ filter (fun c => c_id c = id) (conversations (db_rows w))) as Hfiltered
      by (apply list_elem_of_filter; auto).
    rewrite Hfilter in Hfiltered. apply elem_of_nil in Hfiltered. contradiction.
  - destruct (chat_existing_run id text c rest w Hpending Hcolumns Hfilter)
      as (Hchat & Hcid & Hstored & Hc).
    rewrite Hchat, (chat_turn_run id text c w Hpending Hc Hcid Hstored). cbn [respond].
    rewrite (store_ok_history id w Hok), (prompt_of_stored id text w Hok).
    eexists _, _, []. split; [reflexivity|].
    cbn [db_close trace]. split; [reflexivity|].
    split; [left; reflexivity|]. split; [|reflexivity].
    intros _. apply list_elem_of_fmap. exists c. auto.
Qed.





(** X26. A failure of the language model is stored as a reply: the
    request is answered 200 with the fixed apology and the configured
    model as [model_used], and the apology is appended to the
    transcript as the assistant's message, where the next turns read
    it. *)
Theorem failed_reply_is_stored_as_apology (id text : string) (failure : exn) (w : Wh) :
  clock_increases ->
  store_ok w ->
  String.length id <= 100 ->
  1 <= String.length text ->
  Task2.llm_oracle (prompt_of (transcript id w) text) = inl failure ->
  exists timestamp w',
    post_chat (Some id) (Some text) w
    = (Http200 (mkChatResponse id Task2.apology timestamp (Some Task2.settings_openai_model)),
       w') /\
    transcript id w' = transcript id w ++ [("user", text); ("assistant", Task2.apology)].
Proof.
  intros Hclock Hok Hid Htext Hfail.
  destruct (post_chat_ok id text w Hclock Hok Hid Htext)
    as (t & w' & c' & pre & Hrun & _ & _ & _ & _ & Hrows & _ & _ & _ & _ & Hok' & _ & _).
  rewrite (prompt_of_stored id text w Hok) in Hrun, Hrows.
  destruct (transcript_after id _ _ w w' Hok Hok' Hrows eq_refl eq_refl) as [Hsame _].
  cbn [m_sender m_text] in Hsame.
  assert (Task2.chat_outcome (prompt_of (transcript id w) text) = Task2.apology) as Hreply
    by (unfold Task2.chat_outcome; rewrite Hfail; reflexivity).
  rewrite Hreply in Hrun, Hsame.
  eexists _, w'. split; [exact Hrun|exact Hsame].
Qed.


End ChatTheorems.

(** ** The chat endpoints on a concrete store *)

Lemma seconds_increase : Chat.clock_increases (H0 := DemoStore.seconds).
Proof.
  intros n. cbn. rewrite <- Zlt_Qlt. lia.
Qed.

Lemma served_store_ok : Chat.store_ok (H0 := DemoStore.seconds) DemoStore.served.
Proof.
  apply (after_chats_keeps_store (H := Demo.chat_up) (H0 := DemoStore.seconds));
    [exact seconds_increase|apply empty_store_ok].
Qed.

Lemma chat_is_answered_and_recorded_witness :
  exists response w',
    Chat.post_chat (H := Demo.chat_down) (H0 := DemoStore.seconds)
      (Some "conv_123") (Some "Are you there?") DemoStore.served
      = (Chat.Http200 response, w') /\
    Chat.cr_conversation_id response = "conv_123" /\
    Chat.cr_response response
    = Task2.chat_outcome (H := Demo.chat_down)
        (Chat.prompt_of (Chat.transcript "conv_123" DemoStore.served) "Are you there?") /\
    Chat.cr_model_used response = Some Task2.settings_openai_model /\
    Chat.transcript "conv_123" w'
    = Chat.transcript "conv_123" DemoStore.served
      ++ [("user", "Are you there?"); ("assistant", Chat.cr_response response)] /\
    (forall other, other <> "conv_123" ->
       Chat.transcript other w' = Chat.transcript other DemoStore.served) /\
    Chat.store_ok (H0 := DemoStore.seconds) w'.
Proof.
  apply (chat_is_answered_and_recorded (H := Demo.chat_down) (H0 := DemoStore.seconds)
           "conv_123" "Are you there?" DemoStore.served).
  - exact seconds_increase.
  - exact served_store_ok.
  - cbn. lia.
  - cbn. lia.
Defined.

Lemma chat_prompts_once_and_commits_witness :
  exists response w' created,
    Chat.post_chat (H := Demo.chat_up) (H0 := DemoStore.seconds)
      (Some "conv_789") (Some "Hello") DemoStore.served = (Chat.Http200 response, w') /\
    trace w' = trace DemoStore.served ++ created ++
      [EvNode "retrieve_context"; EvNode "generate_response";
       EvLLM (Chat.prompt_of (Chat.transcript "conv_789" DemoStore.served) "Hello");
       EvDbAdd; EvDbAdd; EvDbCommit] /\
    (created = [] \/ created = [EvDbAdd; EvDbCommit]) /\
    (created = [] <->
     "conv_789" ∈ map Chat.c_id (Chat.conversations (db_rows DemoStore.served))).
Proof.
  apply (chat_prompts_once_and_commits (H := Demo.chat_up) (H0 := DemoStore.seconds)
           "conv_789" "Hello" DemoStore.served).
  - exact seconds_increase.
  - exact served_store_ok.
  - cbn. lia.
  - cbn. lia.
Defined.





Lemma failed_reply_is_stored_as_apology_witness :
  exists timestamp w',
    Chat.post_chat (H := Demo.chat_down) (H0 := DemoStore.seconds)
      (Some "conv_123") (Some "Are you there?") DemoStore.served
    = (Chat.Http200 (Chat.mkChatResponse "conv_123" Task2.apology timestamp
                       (Some Task2.settings_openai_model)), w') /\
    Chat.transcript "conv_123" w'
    = Chat.transcript "conv_123" DemoStore.served
      ++ [("user", "Are you there?"); ("assistant", Task2.apology)].
Proof.
  apply (failed_reply_is_stored_as_apology (H := Demo.chat_down) (H0 := DemoStore.seconds)
           "conv_123" "Are you there?" (PyExc "RateLimitError" "Rate limit reached.")
           DemoStore.served).
  - exact seconds_increase.
  - exact served_store_ok.
  - cbn. lia.
  - cbn. lia.
  - reflexivity.
Defined.


(** * The chatbot graph on its state *)

Section ChatbotState.
Import Task2.
Context `{Providers}.


(** X28. The context node reads [conversation_id] for its log line
    only, yet a state without it ends the run there: [invoke] raises
    [KeyError('conversation_id')] after the first node has started, and
    the language model is not called. *)
Theorem chatbot_run_needs_conversation_id (s : gmap string value) (w : World Empty_set) :
  s !! "conversation_id" = None ->
  LangGraph.invoke chatbot_graph s w
  = (Raise (KeyError "conversation_id"),
     mkWorld (ticks w) (trace w ++ [EvNode "retrieve_context"]) (db_pending w) (db_rows w)).
Proof.
  intros Hc. rewrite invoke_chatbot.
  unfold two_stage, bind, log, retrieve_context_node, getitem, raise.
  cbn [ticks trace db_pending db_rows]. rewrite Hc. reflexivity.
Qed.

End ChatbotState.


Lemma chatbot_run_needs_conversation_id_witness :
  LangGraph.invoke (Task2.chatbot_graph (H := Demo.chat_up))
    (delete "conversation_id" DemoChat.initial_state) Demo.fresh_chat
  = (Raise (KeyError "conversation_id"),
     mkWorld (ticks Demo.fresh_chat) (trace Demo.fresh_chat ++ [EvNode "retrieve_context"])
             (db_pending Demo.fresh_chat) (db_rows Demo.fresh_chat)).
Proof.
  apply (chatbot_run_needs_conversation_id (H := Demo.chat_up)
           (delete "conversation_id" DemoChat.initial_state) Demo.fresh_chat).
  reflexivity.
Defined.
